(** * Task dashboard backend: a shallow embedding of the Express handlers

    The development follows the backend sources:
    - [utils/validation.util.ts]   : [validateEmail], [validatePassword],
                                     [validateName], [validateTaskTitle]
    - [utils/response.util.ts]     : [sendSuccess], [sendError]
    - [utils/authToken.util.ts]    : [generateToken]
    - [models/user.model.ts]       : the user schema and its pre-save hook
    - [models/task.model.ts]       : the task schema
    - [middleware/auth.middleware.ts] : [protect]
    - [controllers/auth.controller.ts] : [registerUser], [loginUser],
                                     [getUserProfile], [updateUserProfile]
    - [controllers/task.controller.ts] : [getTasks], [getTaskById],
                                     [createTask], [updateTask], [deleteTask]
    - [routes/auth.routes.ts], [routes/task.routes.ts] : [app]

    Every handler is an [async] function that reads the request, talks to the
    document store and sends exactly one response.  It is embedded as a pure
    function from the request and the store to the response and the new store.
    A rejected promise or a thrown exception is a value of the error monad
    [Res]; the [try]/[catch] of each handler is [catch500].

    The libraries the handlers call (jsonwebtoken, bcryptjs, the regular
    expression engine of the store) are not part of the repository.  Their
    functions are the fields of a record [Lib], over which every definition
    and theorem is parametric.  What Mongoose does with a document (casts,
    validators, the save hook, the unique index, timestamps) is written out
    in the modules [User], [Task] and [TaskQuery].

    Limits of the model:
    - a body field is a JSON scalar or absent; query parameters are strings;
    - white space and letter case are those of ASCII;
    - the store answers every call: no connection error is modelled, and the
      requests are handled one after the other.  *)

From Stdlib Require Import ZArith String Ascii List Permutation Sorted.
From stdpp Require Import base option list gmap strings pretty sorting.

Open Scope string_scope.

(** ** JavaScript values carried by a JSON body *)

(** The fields of [req.body] are JSON scalars.  [JUndefined] is an absent
    key.  Numbers are the integer-valued ones; a number of a JSON text
    arrives as a double, so [JNum n] is the value a handler holds for the
    integers a double holds exactly ([safe_integer] below). *)
Inductive JsVal :=
| JUndefined
| JNull
| JBool (b : bool)
| JNum (n : Z)
| JStr (s : string).

Global Instance JsVal_eq_dec : EqDecision JsVal.
Proof. solve_decision. Defined.

(** [!!v] of JavaScript. *)
Definition truthy (v : JsVal) : bool :=
  match v with
  | JUndefined | JNull => false
  | JBool b => b
  | JNum n => negb (n =? 0)%Z
  | JStr s => negb (bool_decide (s = ""))
  end.

(** [a || b] of JavaScript. *)
Definition js_or (a b : JsVal) : JsVal := if truthy a then a else b.

(** [String(v)] for the scalars above.  A number prints as its decimal
    digits, which is what JavaScript prints for a safe integer; from
    [1e21] on JavaScript prints an exponent, and the digits of an integer
    beyond [2^53] are those of the nearest double. *)
Definition js_toString (v : JsVal) : string :=
  match v with
  | JUndefined => "undefined"
  | JNull => "null"
  | JBool true => "true"
  | JBool false => "false"
  | JNum n => pretty n
  | JStr s => s
  end.

(** [Number.isSafeInteger(n)] on the integers. *)
Definition safe_integer (n : Z) : bool :=
  (- (2 ^ 53) <? n)%Z && (n <? 2 ^ 53)%Z.

(** A property read on a parsed JSON object: a missing key reads as
    [undefined]. *)
Definition field (o : gmap string JsVal) (k : string) : JsVal :=
  default JUndefined (o !! k).

(** ** Exceptions and the error monad *)

Inductive Exn :=
| TypeError (what : string)                 (* x.trim is not a function *)
| CastError (path : string) (value : JsVal) (* Mongoose: value not castable *)
| ValidationError (path : string)           (* Mongoose: required path missing *)
| DuplicateKey (index key : string)         (* MongoDB E11000 *)
| RegexError (pattern : string)             (* MongoDB: invalid $regex *)
| IllegalArguments (v : JsVal)              (* bcryptjs: argument is no string *)
| JsonWebTokenError.                        (* jsonwebtoken: verification failed *)

Global Instance Exn_eq_dec : EqDecision Exn.
Proof. solve_decision. Defined.

Inductive Res (A : Type) :=
| Ok (a : A)
| Throw (e : Exn).
Arguments Ok {A} a.
Arguments Throw {A} e.

(** Sequencing: the rest of a [try] block runs only when the awaited call
    did not throw. *)
Definition bind {A B} (m : Res A) (k : A → Res B) : Res B :=
  match m with
  | Ok a => k a
  | Throw e => Throw e
  end.

Notation "'await' x ← m ; k" := (bind m (λ x, k))
  (at level 10, x name, m at level 100, k at level 200, format "'[v' 'await'  x  ←  m ; '/' k ']'").

(** ** String helpers that the sources use *)

(** A string is a list of one-byte characters.  On ASCII text this is the
    JavaScript string: [length] counts the characters, and the white space
    of [trim] and of [\s] is the six characters of [Ascii.is_space].  On
    other text JavaScript counts UTF-16 units and knows further white
    space (the no-break space and the other Unicode spaces), which the
    helpers below do not. *)

(** [s.trim()] over the ASCII white space. *)
Fixpoint trimStart (s : string) : string :=
  match s with
  | "" => ""
  | String c r => if Ascii.is_space c then trimStart r else s
  end.

Definition trim (s : string) : string :=
  String.rev (trimStart (String.rev (trimStart s))).

(** [s.split(sep)] for a one-character separator. *)
Fixpoint split_on (sep : ascii) (s : string) : list string :=
  match s with
  | "" => [""]
  | String c r =>
      if bool_decide (c = sep) then "" :: split_on sep r
      else match split_on sep r with
           | w :: ws => String c w :: ws
           | [] => [String c ""]
           end
  end.

Fixpoint string_forallb (p : ascii → bool) (s : string) : bool :=
  match s with
  | "" => true
  | String c r => p c && string_forallb p r
  end.

(** ASCII text: every character is below 128. *)
Definition ascii_text (s : string) : bool :=
  string_forallb (λ c, (nat_of_ascii c <? 128)%nat) s.

Fixpoint string_map (f : ascii → ascii) (s : string) : string :=
  match s with
  | "" => ""
  | String c r => String (f c) (string_map f r)
  end.

Definition in_range (lo hi : nat) (c : ascii) : bool :=
  (lo <=? nat_of_ascii c)%nat && (nat_of_ascii c <=? hi)%nat.

(** ASCII lower-casing: [A]..[Z] are 65..90. *)
Definition lower (c : ascii) : ascii :=
  if in_range 65 90 c then ascii_of_nat (nat_of_ascii c + 32) else c.

(** ** Object ids *)

(** An [ObjectId] is kept in the form its [toString()] prints: 24 lower-case
    hexadecimal digits.  Two ids are equal exactly when their [toString()]
    are, which is how the handlers compare them. *)
Abbreviation ObjectId := string (only parsing).

Definition is_hex (c : ascii) : bool :=
  in_range 48 57 c || in_range 97 102 c || in_range 65 70 c.

(** The cast Mongoose applies to a string used as an [_id]: a string of 24
    hexadecimal digits is accepted, anything else raises a [CastError]. *)
Definition castObjectId (s : string) : option ObjectId :=
  if (String.length s =? 24)%nat && string_forallb is_hex s
  then Some (string_map lower s)
  else None.

(** The cast Mongoose applies to a value stored in a [String] path. *)
Definition castString (v : JsVal) : option string :=
  match v with
  | JUndefined | JNull => None
  | v => Some (js_toString v)
  end.

(** ** Documents *)

Module UserModel.
(** [IUser] with the timestamps the schema option adds. *)
Record IUser := {
  name : string;
  email : string;
  password : string;
  createdAt : Z;
  updatedAt : Z
}.
End UserModel.

Module TaskModel.
(** [ITask] with the timestamps the schema option adds. *)
Record ITask := {
  title : string;
  description : option string;
  status : string;
  user : ObjectId;
  createdAt : Z;
  updatedAt : Z
}.
End TaskModel.

Abbreviation IUser := UserModel.IUser.
Abbreviation ITask := TaskModel.ITask.

Global Instance IUser_eq_dec : EqDecision IUser.
Proof. solve_decision. Defined.
Global Instance ITask_eq_dec : EqDecision ITask.
Proof. solve_decision. Defined.

(** The two collections, keyed by [_id]. *)
Record Store := {
  users : gmap string IUser;
  tasks : gmap string ITask
}.

(** A user document loaded with [.select("-password")]. *)
Record UserView := {
  _id : ObjectId;
  view_name : string;
  view_email : string
}.

Definition select_no_password (id : ObjectId) (u : IUser) : UserView :=
  {| _id := id; view_name := UserModel.name u; view_email := UserModel.email u |}.

(** ** The response envelope (response.util.ts) *)

(** An entry of [errors]: a literal of the source, or [error.message] of a
    caught exception. *)
Inductive Msg :=
| Text (s : string)
| MessageOf (e : Exn).

Inductive Payload :=
| PNull
| PTask (id : ObjectId) (t : ITask)
| PTasks (l : list (ObjectId * ITask))
| PAuth (id : ObjectId) (name email token : string)
| PProfile (id : ObjectId) (name email : string).

(** [ApiResponse]; an absent key is [None]. *)
Record ApiResponse := {
  success : bool;
  data : option Payload;
  message : string;
  errors : option (list Msg)
}.

Record Response := {
  statusCode : Z;
  json : ApiResponse
}.

Definition sendSuccess (statusCode : Z) (data : Payload) (message : string) : Response :=
  {| statusCode := statusCode;
     json := {| success := true; data := Some data; message := message; errors := None |} |}.

Definition sendError (statusCode : Z) (message : string) (errors : option (list Msg)) : Response :=
  {| statusCode := statusCode;
     json := {| success := false; data := None; message := message; errors := errors |} |}.

(** The [catch (error)] clause shared by the controllers. *)
Definition serverError (e : Exn) : Response :=
  sendError 500 "Server error" (Some [MessageOf e]).

Definition catch500 {S} (fallback : S) (m : Res (S * Response)) : S * Response :=
  match m with
  | Ok r => r
  | Throw e => (fallback, serverError e)
  end.

(** ** The libraries and the process environment *)

(** The payload [jwt.verify] returns ([DecodedToken] of the middleware). *)
Record DecodedToken := {
  id : string;
  iat : Z;
  exp : Z
}.

(** The library functions the sources call.
    - [jwt_sign payload secret] is [jwt.sign]; the claims [iat] and [exp]
      that the library adds are computed by the caller, see [generateToken].
    - [jwt_verify token secret now] is [jwt.verify] at clock [now] (seconds);
      [secret] is [None] when the environment variable is unset; the result
      is [None] when the call throws.
    - [bcrypt_hash password salt] and [bcrypt_compare entered stored] are
      bcryptjs' [hash] and [compare] on strings.
    - [pcre_compile pattern] compiles a [$regex] with [$options: "i"]: the
      result tells whether a subject has a match, [None] when the store
      rejects the pattern.  It is consulted for the patterns that
      [compile_simple] below does not cover.
    - [ignoreUndefined] is the driver's serialisation option: when set a
      filter key whose value is [undefined] is dropped, otherwise it is sent
      as [null]. *)
Record Lib := {
  jwt_sign : DecodedToken → string → string;
  jwt_verify : string → option string → Z → option DecodedToken;
  bcrypt_hash : string → string → string;
  bcrypt_compare : string → string → bool;
  pcre_compile : string → option (string → bool);
  ignoreUndefined : bool
}.

(** What a handler reads from the process besides the request and the
    store: the environment variable, the clock (milliseconds), the id a
    [new ObjectId()] yields and the salt [bcrypt.genSalt(10)] yields. *)
Record Env := {
  JWT_SECRET : option string;
  Date_now : Z;
  new_ObjectId : ObjectId;
  genSalt : string
}.

(** The parts of an Express request the sources read.  [user] is the field
    the middleware adds.  [body] holds the keys of [req.body], an object:
    what [express.json()] leaves for a request that carries a JSON body.
    The request whose [req.body] is [undefined] is [Incoming] below. *)
Record Request := {
  authorization : option string;
  params_id : string;
  query : gmap string string;
  body : gmap string JsVal;
  user : option UserView
}.

(** [req.query.k ? req.query.k : undefined] *)
Definition query_param (req : Request) (k : string) : option string :=
  match query req !! k with
  | Some "" => None
  | o => o
  end.

(** [(req as any).user?._id] *)
Definition acting_id (req : Request) : option ObjectId := _id <$> user req.

(** ** validation.util.ts *)

(** The characters [\s] and [@] excluded by the character class of
    [emailRegex]. *)
Definition email_char (c : ascii) : bool :=
  negb (Ascii.is_space c) && negb (bool_decide (c = "@"%char)).

(** [[^\s@]+\.[^\s@]+$] : the part after the [@]. *)
Fixpoint domain_ok (seen : bool) (s : string) : bool :=
  match s with
  | "" => false
  | String c r =>
      email_char c &&
      ((seen && bool_decide (c = "."%char) && negb (bool_decide (r = "")) && string_forallb email_char r)
       || domain_ok true r)
  end.

(** [^[^\s@]+@] followed by the domain part. *)
Fixpoint local_ok (seen : bool) (s : string) : bool :=
  match s with
  | "" => false
  | String c r =>
      if bool_decide (c = "@"%char) then seen && domain_ok false r
      else email_char c && local_ok true r
  end.

(** [emailRegex.test(email)]: the argument is converted with [String]. *)
Definition validateEmail (email : JsVal) : bool :=
  local_ok false (js_toString email).

(** [password.length < 6]: on a value that is no string [length] is
    [undefined] and the comparison is false. *)
Definition validatePassword (password : JsVal) : list Msg :=
  match password with
  | JStr s => if (String.length s <? 6)%nat
              then [Text "Password must be at least 6 characters long"] else []
  | _ => []
  end.

(** [v.trim()] : a method call that throws on a value that is no string. *)
Definition js_trim (v : JsVal) : Res string :=
  match v with
  | JStr s => Ok (trim s)
  | _ => Throw (TypeError "trim is not a function")
  end.

(** [!!name && name.trim().length >= 2] *)
Definition validateName (name : JsVal) : Res bool :=
  if truthy name then await t ← js_trim name; Ok (2 <=? String.length t)%nat
  else Ok false.

(** [!!title && title.trim().length > 0] *)
Definition validateTaskTitle (title : JsVal) : Res bool :=
  if truthy title then await t ← js_trim title; Ok (0 <? String.length t)%nat
  else Ok false.

(** ** authToken.util.ts *)

Definition thirty_days : Z := 30 * 24 * 60 * 60.

(** [jwt.sign({ id }, secret, { expiresIn: "30d" })] with
    [secret = process.env.JWT_SECRET || "default_secret"]. *)
Definition generateToken (L : Lib) (env : Env) (uid : ObjectId) : string :=
  let secret :=
    match JWT_SECRET env with
    | Some s => if bool_decide (s = "") then "default_secret" else s
    | None => "default_secret"
    end in
  let now := (Date_now env / 1000)%Z in
  jwt_sign L {| id := uid; iat := now; exp := (now + thirty_days)%Z |} secret.

(** ** The models: what the Mongoose calls of the sources do on the store *)

Module User.
(** [User.findById(id)] with the id read from a token: the string is cast
    first. *)
Definition findById (db : Store) (id : string) : Res (option (ObjectId * IUser)) :=
  match castObjectId id with
  | None => Throw (CastError "_id" (JStr id))
  | Some oid => Ok ((λ u, (oid, u)) <$> users db !! oid)
  end.

(** [User.findById(req.user?._id)]: an [ObjectId] needs no cast, and
    [findById(undefined)] finds nothing. *)
Definition findByOid (db : Store) (oid : option ObjectId) : option IUser :=
  o ← oid; users db !! o.

(** [User.findOne({ email })] *)
Definition findOne_email (db : Store) (e : string) : option (ObjectId * IUser) :=
  snd <$> list_find (λ kv, UserModel.email kv.2 = e) (map_to_list (users db)).

(** The unique index on [email]: is [e] held by a document other than
    [self]? *)
Definition email_taken (db : Store) (self : ObjectId) (e : string) : bool :=
  bool_decide (Exists (λ kv, kv.1 ≠ self ∧ UserModel.email kv.2 = e) (map_to_list (users db))).

(** The [required: true] validators. *)
Definition validate (u : IUser) : Res unit :=
  if bool_decide (UserModel.name u = "") then Throw (ValidationError "name")
  else if bool_decide (UserModel.email u = "") then Throw (ValidationError "email")
  else if bool_decide (UserModel.password u = "") then Throw (ValidationError "password")
  else Ok ().

(** [UserSchema.pre("save", ...)]: [modified] is [this.isModified("password")]. *)
Definition pre_save (L : Lib) (env : Env) (modified : bool) (u : IUser) : IUser :=
  if negb modified then u
  else {| UserModel.name := UserModel.name u;
          UserModel.email := UserModel.email u;
          UserModel.password := bcrypt_hash L (UserModel.password u) (genSalt env);
          UserModel.createdAt := UserModel.createdAt u;
          UserModel.updatedAt := UserModel.updatedAt u |}.

(** [User.create({ name, email, password })]: cast the three paths,
    validate, run the hook on the new document (every path of a new
    document is modified) and insert it. *)
Definition create (L : Lib) (env : Env) (name email password : JsVal) (db : Store)
  : Res (Store * (ObjectId * IUser)) :=
  let u := {| UserModel.name := default "" (castString name);
              UserModel.email := default "" (castString email);
              UserModel.password := default "" (castString password);
              UserModel.createdAt := Date_now env;
              UserModel.updatedAt := Date_now env |} in
  await ok ← validate u;
  let u' := pre_save L env true u in
  let oid := new_ObjectId env in
  if bool_decide (is_Some (users db !! oid)) then Throw (DuplicateKey "_id_" oid)
  else if email_taken db oid (UserModel.email u') then Throw (DuplicateKey "email_1" (UserModel.email u'))
  else Ok ({| users := <[oid := u']> (users db); tasks := tasks db |}, (oid, u')).

(** [user.save()] on a loaded document [old] whose paths were assigned
    the values of [new].  A path is modified when the assigned value
    differs from the loaded one; a document with no modified path is not
    written, a written one gets a new [updatedAt]. *)
Definition save (L : Lib) (env : Env) (oid : ObjectId) (old new : IUser) (db : Store)
  : Res (Store * IUser) :=
  await ok ← validate new;
  let hashed := pre_save L env (bool_decide (UserModel.password new ≠ UserModel.password old)) new in
  if bool_decide (new = old) then Ok (db, old)
  else if bool_decide (UserModel.email hashed ≠ UserModel.email old)
          && email_taken db oid (UserModel.email hashed)
  then Throw (DuplicateKey "email_1" (UserModel.email hashed))
  else
    let stored := {| UserModel.name := UserModel.name hashed;
                     UserModel.email := UserModel.email hashed;
                     UserModel.password := UserModel.password hashed;
                     UserModel.createdAt := UserModel.createdAt hashed;
                     UserModel.updatedAt := Date_now env |} in
    Ok ({| users := <[oid := stored]> (users db); tasks := tasks db |}, stored).
End User.

Module Task.
Definition statuses : list string := ["pending"; "in_progress"; "completed"].

(** [Task.findById(req.params.id)] *)
Definition findById (db : Store) (id : string) : Res (option (ObjectId * ITask)) :=
  match castObjectId id with
  | None => Throw (CastError "_id" (JStr id))
  | Some oid => Ok ((λ t, (oid, t)) <$> tasks db !! oid)
  end.

(** The [required] and [enum] validators of the schema. *)
Definition validate (t : ITask) : Res unit :=
  if bool_decide (TaskModel.title t = "") then Throw (ValidationError "title")
  else if bool_decide (TaskModel.status t ∈ statuses) then Ok ()
  else Throw (ValidationError "status").

(** [new Task({ user, title, description, status }).save()] *)
Definition create (env : Env) (owner : option ObjectId) (title description status : JsVal)
    (db : Store) : Res (Store * (ObjectId * ITask)) :=
  match owner with
  | None => Throw (ValidationError "user")
  | Some uid =>
      let t := {| TaskModel.title := default "" (castString title);
                  TaskModel.description := castString description;
                  TaskModel.status := default "pending" (castString status);
                  TaskModel.user := uid;
                  TaskModel.createdAt := Date_now env;
                  TaskModel.updatedAt := Date_now env |} in
      await ok ← validate t;
      let oid := new_ObjectId env in
      if bool_decide (is_Some (tasks db !! oid)) then Throw (DuplicateKey "_id_" oid)
      else Ok ({| users := users db; tasks := <[oid := t]> (tasks db) |}, (oid, t))
  end.

(** [task.save()] on a loaded document [old] whose paths were assigned
    the values of [new]. *)
Definition save (env : Env) (oid : ObjectId) (old new : ITask) (db : Store)
  : Res (Store * ITask) :=
  await ok ← validate new;
  if bool_decide (new = old) then Ok (db, old)
  else
    let stored := {| TaskModel.title := TaskModel.title new;
                     TaskModel.description := TaskModel.description new;
                     TaskModel.status := TaskModel.status new;
                     TaskModel.user := TaskModel.user new;
                     TaskModel.createdAt := TaskModel.createdAt new;
                     TaskModel.updatedAt := Date_now env |} in
    Ok ({| users := users db; tasks := <[oid := stored]> (tasks db) |}, stored).

(** [task.deleteOne()] *)
Definition deleteOne (oid : ObjectId) (db : Store) : Store :=
  {| users := users db; tasks := delete oid (tasks db) |}.
End Task.

(** ** The [$regex] filter of the task list *)

(** The characters with a meaning of their own in a pattern. *)
Definition regex_special (c : ascii) : bool :=
  negb (string_forallb (λ m, negb (bool_decide (c = m))) "\^$.|?*+()[]{}").

Inductive Atom :=
| Lit (c : ascii)
| AnyChar.

(** Patterns made of literal characters and [.] are compiled here; a pattern
    with another special character is left to [pcre_compile]. *)
Fixpoint compile_simple (p : string) : option (list Atom) :=
  match p with
  | "" => Some []
  | String c r =>
      a ← (if bool_decide (c = "."%char) then Some AnyChar
           else if regex_special c then None else Some (Lit c));
      (a ::.) <$> compile_simple r
  end.

(** One character against one atom, with option [i]; [.] matches every
    character but the line feed. *)
Definition atom_test (a : Atom) (c : ascii) : bool :=
  match a with
  | Lit x => bool_decide (lower x = lower c)
  | AnyChar => negb (bool_decide (c = "010"%char))
  end.

Fixpoint match_here (p : list Atom) (s : string) : bool :=
  match p, s with
  | [], _ => true
  | a :: p', String c s' => atom_test a c && match_here p' s'
  | _ :: _, "" => false
  end.

(** An unanchored pattern matches when it matches at some position. *)
Fixpoint search_from (p : list Atom) (s : string) : bool :=
  match_here p s ||
  match s with
  | "" => false
  | String _ s' => search_from p s'
  end.

Definition regex_i (L : Lib) (pattern : string) : option (string → bool) :=
  match compile_simple pattern with
  | Some p => Some (search_from p)
  | None => pcre_compile L pattern
  end.

(** [.sort({ createdAt: -1 })] *)
Definition newest_first (a b : ObjectId * ITask) : Prop :=
  (TaskModel.createdAt b.2 ≤ TaskModel.createdAt a.2)%Z.

Global Instance newest_first_dec : RelDecision newest_first.
Proof. intros a b. unfold newest_first. apply _. Defined.

Module TaskQuery.
(** [user: (req as any).user?._id] *)
Definition owner_ok (L : Lib) (owner : option ObjectId) (t : ITask) : bool :=
  match owner with
  | Some uid => bool_decide (TaskModel.user t = uid)
  | None => ignoreUndefined L
  end.

(** [$or: [{ title: { $regex } }, { description: { $regex } }]] *)
Definition keyword_ok (re : option (string → bool)) (t : ITask) : bool :=
  match re with
  | None => true
  | Some m => m (TaskModel.title t) || from_option m false (TaskModel.description t)
  end.

(** [{ status }] *)
Definition status_ok (status : option string) (t : ITask) : bool :=
  match status with
  | None => true
  | Some v => bool_decide (TaskModel.status t = v)
  end.

(** [Task.find({ user, ...keyword, ...statusFilter }).sort({ createdAt: -1 })] *)
Definition find (L : Lib) (owner : option ObjectId) (search status : option string)
    (db : Store) : Res (list (ObjectId * ITask)) :=
  await re ← match search with
       | None => Ok None
       | Some p => match regex_i L p with
                   | Some m => Ok (Some m)
                   | None => Throw (RegexError p)
                   end
       end;
  let keep kv := owner_ok L owner kv.2 && keyword_ok re kv.2 && status_ok status kv.2 in
  Ok (merge_sort newest_first (List.filter keep (map_to_list (tasks db)))).
End TaskQuery.

(** ** auth.middleware.ts *)

Inductive Outcome :=
| Sent (r : Response)
| Next (req : Request).

Definition set_user (req : Request) (u : option UserView) : Request :=
  {| authorization := authorization req; params_id := params_id req;
     query := query req; body := body req; user := u |}.

(** [jwt.verify(token, process.env.JWT_SECRET as string)]; the token is
    [undefined] when the header has no second word. *)
Definition verify_call (L : Lib) (env : Env) (token : option string) : Res DecodedToken :=
  match token with
  | None => Throw JsonWebTokenError
  | Some t =>
      match jwt_verify L t (JWT_SECRET env) (Date_now env / 1000)%Z with
      | Some d => Ok d
      | None => Throw JsonWebTokenError
      end
  end.

Definition has_bearer (req : Request) : bool :=
  match authorization req with
  | Some h => negb (bool_decide (h = "")) && String.prefix "Bearer" h
  | None => false
  end.

Definition noToken : Response := sendError 401 "Not authorized, no token" None.
Definition tokenFailed : Response := sendError 401 "Not authorized, token failed" None.

(** [req.headers.authorization.split(" ")[1]] *)
Definition bearer_token (req : Request) : option string :=
  split_on " " (default "" (authorization req)) !! 1%nat.

(** The body of the [try] block of [protect]. *)
Definition protect_try (L : Lib) (env : Env) (req : Request) (db : Store) : Res (option UserView) :=
  await decoded ← verify_call L env (bearer_token req);
  await found ← User.findById db (id decoded);
  Ok ((λ kv, select_no_password kv.1 kv.2) <$> found).

Definition protect (L : Lib) (env : Env) (req : Request) (db : Store) : Outcome :=
  if has_bearer req then
    match protect_try L env req db with
    | Ok u => Next (set_user req u)
    | Throw _ => Sent tokenFailed
    end
  else Sent noToken.

(** ** auth.controller.ts *)

(** [user.matchPassword(entered)]: [bcrypt.compare] rejects an argument
    that is no string. *)
Definition matchPassword (L : Lib) (u : IUser) (entered : JsVal) : Res bool :=
  match entered with
  | JStr s => Ok (bcrypt_compare L s (UserModel.password u))
  | v => Throw (IllegalArguments v)
  end.

(** The errors collected by the validation block of [registerUser]. *)
Definition register_errors (name email password : JsVal) : Res (list Msg) :=
  await bad_name ← (if negb (truthy name) then Ok true
                    else await ok ← validateName name; Ok (negb ok));
  Ok ((if bad_name then [Text "Name must be at least 2 characters long"] else [])
      ++ (if negb (truthy email) || negb (validateEmail email)
          then [Text "Please provide a valid email address"] else [])
      ++ (if negb (truthy password) then [Text "Password is required"]
          else validatePassword password))%list.

Definition registerUser (L : Lib) (env : Env) (req : Request) (db : Store) : Store * Response :=
  let name := field (body req) "name" in
  let email := field (body req) "email" in
  let password := field (body req) "password" in
  catch500 db (
    await errors ← register_errors name email password;
    if (0 <? length errors)%nat
    then Ok (db, sendError 400 "Validation failed" (Some errors))
    else
      match User.findOne_email db (js_toString email) with
      | Some userExists => Ok (db, sendError 400 "Email is already registered" None)
      | None =>
          await created ← User.create L env name email password db;
          let user := created.2 in
          let token := generateToken L env user.1 in
          Ok (created.1,
              sendSuccess 201
                (PAuth user.1 (UserModel.name user.2) (UserModel.email user.2) token)
                "User registered successfully")
      end).

Definition invalidCredentials : Response :=
  sendError 401 "Invalid email or password" None.

Definition loginUser (L : Lib) (env : Env) (req : Request) (db : Store) : Store * Response :=
  let email := field (body req) "email" in
  let password := field (body req) "password" in
  catch500 db (
    if negb (truthy email) || negb (truthy password)
    then Ok (db, sendError 400 "Email and password are required" None)
    else
      match User.findOne_email db (js_toString email) with
      | Some user =>
          await matched ← matchPassword L user.2 password;
          if matched then
            let token := generateToken L env user.1 in
            Ok (db, sendSuccess 200
                      (PAuth user.1 (UserModel.name user.2) (UserModel.email user.2) token)
                      "Login successful")
          else Ok (db, invalidCredentials)
      | None => Ok (db, invalidCredentials)
      end).

Definition getUserProfile (req : Request) (db : Store) : Response :=
  match acting_id req, User.findByOid db (acting_id req) with
  | Some oid, Some user =>
      sendSuccess 200 (PProfile oid (UserModel.name user) (UserModel.email user))
        "Profile retrieved successfully"
  | _, _ => sendError 404 "User not found" None
  end.

(** The errors collected by the validation block of [updateUserProfile]. *)
Definition profile_errors (name email password : JsVal) : Res (list Msg) :=
  await bad_name ← (if truthy name then await ok ← validateName name; Ok (negb ok)
                    else Ok false);
  Ok ((if bad_name then [Text "Name must be at least 2 characters long"] else [])
      ++ (if truthy email && negb (validateEmail email)
          then [Text "Please provide a valid email address"] else [])
      ++ (if truthy password then validatePassword password else []))%list.

(** The three assignments of [updateUserProfile] on the loaded document. *)
Definition assign_profile (name email password : JsVal) (user : IUser) : IUser :=
  {| UserModel.name := if truthy name then js_toString name else UserModel.name user;
     UserModel.email := if truthy email then js_toString email else UserModel.email user;
     UserModel.password :=
       if truthy password then js_toString password else UserModel.password user;
     UserModel.createdAt := UserModel.createdAt user;
     UserModel.updatedAt := UserModel.updatedAt user |}.

Definition updateUserProfile (L : Lib) (env : Env) (req : Request) (db : Store)
  : Store * Response :=
  let name := field (body req) "name" in
  let email := field (body req) "email" in
  let password := field (body req) "password" in
  catch500 db (
    match acting_id req, User.findByOid db (acting_id req) with
    | Some oid, Some user =>
        await errors ← profile_errors name email password;
        if (0 <? length errors)%nat
        then Ok (db, sendError 400 "Validation failed" (Some errors))
        else
          await saved ← User.save L env oid user (assign_profile name email password user) db;
          let updatedUser := saved.2 in
          let token := generateToken L env oid in
          Ok (saved.1,
              sendSuccess 200
                (PAuth oid (UserModel.name updatedUser) (UserModel.email updatedUser) token)
                "Profile updated successfully")
    | _, _ => Ok (db, sendError 404 "User not found" None)
    end).

(** ** task.controller.ts *)

Definition notFound : Response :=
  sendError 404 "Task not found or not authorized" None.

(** [task.user.toString() === (req as any).user?._id.toString()] *)
Definition owns (req : Request) (task : ITask) : bool :=
  bool_decide (acting_id req = Some (TaskModel.user task)).

Definition getTasks (L : Lib) (req : Request) (db : Store) : Response :=
  let search := query_param req "search" in
  let status := query_param req "status" in
  match TaskQuery.find L (acting_id req) search status db with
  | Ok tasks => sendSuccess 200 (PTasks tasks) "Tasks retrieved successfully"
  | Throw e => serverError e
  end.

Definition getTaskById (req : Request) (db : Store) : Response :=
  match Task.findById db (params_id req) with
  | Ok (Some task) =>
      if owns req task.2
      then sendSuccess 200 (PTask task.1 task.2) "Task retrieved successfully"
      else notFound
  | Ok None => notFound
  | Throw e => serverError e
  end.

(** [status && ![...].includes(status)] *)
Definition status_error (status : JsVal) : list Msg :=
  if truthy status && negb (bool_decide (status ∈ JStr <$> Task.statuses))
  then [Text "Status must be one of: pending, in_progress, completed"] else [].

(** The errors collected by the validation block of [createTask]. *)
Definition create_errors (title status : JsVal) : Res (list Msg) :=
  await bad_title ← (if negb (truthy title) then Ok true
                     else await ok ← validateTaskTitle title; Ok (negb ok));
  Ok ((if bad_title then [Text "Title is required and must not be empty"] else [])
      ++ status_error status)%list.

Definition createTask (env : Env) (req : Request) (db : Store) : Store * Response :=
  let title := field (body req) "title" in
  let description := field (body req) "description" in
  let status := field (body req) "status" in
  catch500 db (
    await errors ← create_errors title status;
    if (0 <? length errors)%nat
    then Ok (db, sendError 400 "Validation failed" (Some errors))
    else
      await created ← Task.create env (acting_id req) title description
                        (js_or status (JStr "pending")) db;
      let createdTask := created.2 in
      Ok (created.1, sendSuccess 201 (PTask createdTask.1 createdTask.2)
                       "Task created successfully")).

(** The errors collected by the validation block of [updateTask]. *)
Definition update_errors (title status : JsVal) : Res (list Msg) :=
  await bad_title ← (if truthy title then await ok ← validateTaskTitle title; Ok (negb ok)
                     else Ok false);
  Ok ((if bad_title then [Text "Title must not be empty"] else [])
      ++ status_error status)%list.

(** The three assignments of [updateTask] on the loaded document. *)
Definition assign_task (title description status : JsVal) (task : ITask) : ITask :=
  {| TaskModel.title := if truthy title then js_toString title else TaskModel.title task;
     TaskModel.description :=
       if truthy description then Some (js_toString description)
       else TaskModel.description task;
     TaskModel.status := if truthy status then js_toString status else TaskModel.status task;
     TaskModel.user := TaskModel.user task;
     TaskModel.createdAt := TaskModel.createdAt task;
     TaskModel.updatedAt := TaskModel.updatedAt task |}.

Definition updateTask (env : Env) (req : Request) (db : Store) : Store * Response :=
  let title := field (body req) "title" in
  let description := field (body req) "description" in
  let status := field (body req) "status" in
  catch500 db (
    await errors ← update_errors title status;
    if (0 <? length errors)%nat
    then Ok (db, sendError 400 "Validation failed" (Some errors))
    else
      await found ← Task.findById db (params_id req);
      match found with
      | Some task =>
          if owns req task.2 then
            await saved ← Task.save env task.1 task.2
                            (assign_task title description status task.2) db;
            Ok (saved.1, sendSuccess 200 (PTask task.1 saved.2) "Task updated successfully")
          else Ok (db, notFound)
      | None => Ok (db, notFound)
      end).

Definition deleteTask (req : Request) (db : Store) : Store * Response :=
  catch500 db (
    await found ← Task.findById db (params_id req);
    match found with
    | Some task =>
        if owns req task.2
        then Ok (Task.deleteOne task.1 db, sendSuccess 200 PNull "Task deleted successfully")
        else Ok (db, notFound)
    | None => Ok (db, notFound)
    end).

(** ** The routers: every task and profile route runs [protect] first *)

Inductive Route :=
| POST_register
| POST_login
| GET_me
| PUT_me
| GET_tasks
| POST_tasks
| GET_task
| PUT_task
| DELETE_task.

Definition protected (L : Lib) (env : Env) (handler : Request → Store → Store * Response)
    (req : Request) (db : Store) : Store * Response :=
  match protect L env req db with
  | Sent r => (db, r)
  | Next req' => handler req' db
  end.

Definition app (L : Lib) (env : Env) (r : Route) : Request → Store → Store * Response :=
  match r with
  | POST_register => registerUser L env
  | POST_login => loginUser L env
  | GET_me => protected L env (λ req db, (db, getUserProfile req db))
  | PUT_me => protected L env (updateUserProfile L env)
  | GET_tasks => protected L env (λ req db, (db, getTasks L req db))
  | POST_tasks => protected L env (createTask env)
  | GET_task => protected L env (λ req db, (db, getTaskById req db))
  | PUT_task => protected L env (updateTask env)
  | DELETE_task => protected L env deleteTask
  end.

(** * A sample instantiation, for concrete scenarios *)

Fixpoint strip_prefix (p s : string) : option string :=
  match p, s with
  | "", _ => Some s
  | String a p', String b s' => if bool_decide (a = b) then strip_prefix p' s' else None
  | _, _ => None
  end.

Fixpoint drop_chars (n : nat) (s : string) : string :=
  match n, s with
  | S n', String _ s' => drop_chars n' s'
  | _, _ => s
  end.

(** A stand-in for the libraries with the same interface: a token is the
    signing secret followed by the id, no token verifies without a secret; a
    hash is a fixed header, the 22 characters of the salt and the password;
    no pattern outside [compile_simple] is accepted. *)
Definition sampleLib : Lib := {|
  jwt_sign p secret := secret +:+ "." +:+ id p;
  jwt_verify t secret now :=
    match secret with
    | None | Some "" => None
    | Some k =>
        (λ i, {| id := i; iat := now; exp := (now + thirty_days)%Z |})
          <$> strip_prefix (k +:+ ".") t
    end;
  bcrypt_hash p salt := "$2a$10$" +:+ salt +:+ p;
  bcrypt_compare p h :=
    bool_decide (drop_chars 22 <$> strip_prefix "$2a$10$" h = Some p);
  pcre_compile p := None;
  ignoreUndefined := false
|}.

Module Scenario.
Definition alice_id : ObjectId := "65a000000000000000000001".
Definition bob_id : ObjectId := "65b000000000000000000002".
Definition task_id : ObjectId := "65c000000000000000000003".
Definition salt : string := "abcdefghijklmnopqrstuv".

Definition env : Env :=
  {| JWT_SECRET := Some "s3cret"; Date_now := 1700000000000;
     new_ObjectId := "65d000000000000000000004"; genSalt := salt |}.

(** The same process started without [JWT_SECRET]. *)
Definition env_no_secret : Env :=
  {| JWT_SECRET := None; Date_now := 1700000000000;
     new_ObjectId := "65d000000000000000000004"; genSalt := salt |}.

Definition alice : IUser :=
  {| UserModel.name := "Alice"; UserModel.email := "alice@x.com";
     UserModel.password := bcrypt_hash sampleLib "secret-a" salt;
     UserModel.createdAt := 1600000000000; UserModel.updatedAt := 1600000000000 |}.

Definition bob : IUser :=
  {| UserModel.name := "Bob"; UserModel.email := "bob@x.com";
     UserModel.password := bcrypt_hash sampleLib "secret-b" salt;
     UserModel.createdAt := 1600000000001; UserModel.updatedAt := 1600000000001 |}.

(** Alice's task. *)
Definition task : ITask :=
  {| TaskModel.title := "T1"; TaskModel.description := Some "first task";
     TaskModel.status := "pending"; TaskModel.user := alice_id;
     TaskModel.createdAt := 1650000000000; TaskModel.updatedAt := 1650000000000 |}.

Definition db : Store :=
  {| users := <[alice_id := alice]> (<[bob_id := bob]> ∅);
     tasks := <[task_id := task]> ∅ |}.

Definition alice_view : UserView := select_no_password alice_id alice.
Definition bob_view : UserView := select_no_password bob_id bob.

(** A request as a handler sees it after [protect] attached [who]. *)
Definition request (who : option UserView) (id : string)
    (q : list (string * string)) (b : list (string * JsVal)) : Request :=
  {| authorization := None; params_id := id; query := list_to_map q;
     body := list_to_map b; user := who |}.

(** A request as it arrives, with a bearer token. *)
Definition incoming (token : string) (id : string)
    (q : list (string * string)) (b : list (string * JsVal)) : Request :=
  {| authorization := Some ("Bearer " +:+ token); params_id := id;
     query := list_to_map q; body := list_to_map b; user := None |}.
End Scenario.

(** The scenario of the specification, section 8: register, log in, create
    a task, list, complete it, delete it, look it up again. *)
Module Walkthrough.
Definition env (now : Z) (oid : ObjectId) : Env :=
  {| JWT_SECRET := Some "s3cret"; Date_now := now; new_ObjectId := oid;
     genSalt := Scenario.salt |}.

Definition jo_id : ObjectId := "650000000000000000000001".
Definition t1_id : ObjectId := "650000000000000000000002".
Definition token : string := "s3cret." +:+ jo_id.

Definition registered :=
  app sampleLib (env 1000 jo_id) POST_register
    (Scenario.request None "" []
       [("name", JStr "Jo"); ("email", JStr "jo@x.com"); ("password", JStr "secret1")])
    {| users := ∅; tasks := ∅ |}.

Definition logged_in :=
  app sampleLib (env 2000 jo_id) POST_login
    (Scenario.request None "" [] [("email", JStr "jo@x.com"); ("password", JStr "secret1")])
    registered.1.

Definition created :=
  app sampleLib (env 3000 t1_id) POST_tasks
    (Scenario.incoming token "" [] [("title", JStr "T1")]) logged_in.1.

Definition listed :=
  app sampleLib (env 4000 t1_id) GET_tasks (Scenario.incoming token "" [] []) created.1.

Definition completed :=
  app sampleLib (env 5000 t1_id) PUT_task
    (Scenario.incoming token t1_id [] [("status", JStr "completed")]) listed.1.

Definition deleted :=
  app sampleLib (env 6000 t1_id) DELETE_task (Scenario.incoming token t1_id [] [])
    completed.1.

Definition looked_up :=
  app sampleLib (env 7000 t1_id) GET_task (Scenario.incoming token t1_id [] []) deleted.1.

Definition t1 (status : string) (updated : Z) : ITask :=
  {| TaskModel.title := "T1"; TaskModel.description := None; TaskModel.status := status;
     TaskModel.user := jo_id; TaskModel.createdAt := 3000; TaskModel.updatedAt := updated |}.
End Walkthrough.

(** * The claims of the specification as they are worded *)

(** Tasks of one user seen through the requests of another. *)
Definition owner_isolation_as_stated : Prop :=
  ∀ (L : Lib) (env : Env) (db : Store) (req : Request) (B : UserView)
    (tid : ObjectId) (t : ITask),
    tasks db !! tid = Some t → user req = Some B → _id B ≠ TaskModel.user t →
    castObjectId (params_id req) = Some tid →
    (∀ l, data (json (getTasks L req db)) = Some (PTasks l) → (tid, t) ∉ l)
    ∧ getTaskById req db = notFound
    ∧ updateTask env req db = (db, notFound)
    ∧ deleteTask req db = (db, notFound).

(** Get by id: 200 when the task exists and is the caller's, the one 404
    envelope for every other id string. *)
Definition get_by_id_as_stated : Prop :=
  ∀ (req : Request) (db : Store),
    (∀ oid t, castObjectId (params_id req) = Some oid → tasks db !! oid = Some t →
              acting_id req = Some (TaskModel.user t) →
              getTaskById req db = sendSuccess 200 (PTask oid t) "Task retrieved successfully")
    ∧ ((¬ ∃ oid t, castObjectId (params_id req) = Some oid ∧ tasks db !! oid = Some t
                   ∧ acting_id req = Some (TaskModel.user t)) →
       getTaskById req db = notFound).

(** The middleware: three outcomes, the third attaching the user record of
    the embedded id. *)
Definition protect_as_stated : Prop :=
  ∀ (L : Lib) (env : Env) (req : Request) (db : Store),
    (protect L env req db = Sent noToken ↔ has_bearer req = false)
    ∧ (protect L env req db = Sent tokenFailed ↔
         has_bearer req = true ∧ ∀ d, verify_call L env (bearer_token req) ≠ Ok d)
    ∧ (∀ d, has_bearer req = true → verify_call L env (bearer_token req) = Ok d →
         ∃ oid u, castObjectId (id d) = Some oid ∧ users db !! oid = Some u
                  ∧ protect L env req db
                    = Next (set_user req (Some (select_no_password oid u)))).

(** The search of the specification: [needle] occurs in [hay] as a
    substring when the case of letters is ignored. *)
Fixpoint prefix_ci (needle hay : string) : bool :=
  match needle, hay with
  | "", _ => true
  | String a n', String b h' => bool_decide (lower a = lower b) && prefix_ci n' h'
  | String _ _, "" => false
  end.

Fixpoint contains_ci (needle hay : string) : bool :=
  prefix_ci needle hay ||
  match hay with
  | "" => false
  | String _ h' => contains_ci needle h'
  end.

(** The tasks the specification lists for owner [B]. *)
Definition listed_as_stated (B : ObjectId) (search status : option string) (t : ITask) : bool :=
  bool_decide (TaskModel.user t = B)
  && match search with
     | None => true
     | Some s => contains_ci s (TaskModel.title t)
                 || from_option (contains_ci s) false (TaskModel.description t)
     end
  && match status with
     | None => true
     | Some v => bool_decide (TaskModel.status t = v)
     end.

Definition task_list_as_stated : Prop :=
  ∀ (L : Lib) (req : Request) (db : Store) (B : UserView),
    user req = Some B →
    ∃ l, getTasks L req db = sendSuccess 200 (PTasks l) "Tasks retrieved successfully"
         ∧ l ≡ₚ List.filter
                  (λ kv, listed_as_stated (_id B) (query_param req "search")
                           (query_param req "status") kv.2)
                  (map_to_list (tasks db))
         ∧ StronglySorted newest_first l.

(** A search string with no special character of the pattern language. *)
Definition plain (s : string) : bool := string_forallb (λ c, negb (regex_special c)) s.

(** The pattern a plain search string compiles to. *)
Fixpoint literals (s : string) : list Atom :=
  match s with
  | "" => []
  | String c r => Lit c :: literals r
  end.

(** Login: an unknown email and a wrong password get the same answer. *)
Definition login_failures_as_stated : Prop :=
  ∀ (L : Lib) (env : Env) (db : Store) (req1 req2 : Request) (u : ObjectId * IUser),
    User.findOne_email db (js_toString (field (body req1) "email")) = None →
    User.findOne_email db (js_toString (field (body req2) "email")) = Some u →
    matchPassword L u.2 (field (body req2) "password") ≠ Ok true →
    loginUser L env req1 db = (db, invalidCredentials)
    ∧ loginUser L env req2 db = (db, invalidCredentials).

(** A string of one word, as the compact form of a token is. *)
Definition one_word (s : string) : bool :=
  string_forallb (λ c, negb (bool_decide (c = " "%char))) s.

(** Stored passwords: hashed at every write, untouched otherwise.  The
    library's hash is taken never to return its own input. *)
Definition password_storage_as_stated : Prop :=
  ∀ (L : Lib), (∀ p s, bcrypt_hash L p s ≠ p) →
  ∀ (env : Env) (req : Request) (db : Store),
    let supplied := field (body req) "password" in
    (statusCode (registerUser L env req db).2 = 201%Z →
     ∃ u, users (registerUser L env req db).1 !! new_ObjectId env = Some u
          ∧ UserModel.password u = bcrypt_hash L (js_toString supplied) (genSalt env)
          ∧ UserModel.password u ≠ js_toString supplied)
    ∧ (∀ me old, user req = Some me → users db !! _id me = Some old →
         (statusCode (updateUserProfile L env req db).2 = 200%Z → truthy supplied = true →
          ∃ u, users (updateUserProfile L env req db).1 !! _id me = Some u
               ∧ UserModel.password u = bcrypt_hash L (js_toString supplied) (genSalt env)
               ∧ UserModel.password u ≠ js_toString supplied)
         ∧ (truthy supplied = false →
            ∃ u, users (updateUserProfile L env req db).1 !! _id me = Some u
                 ∧ UserModel.password u = UserModel.password old)).

(** The conflict of a profile update: whenever the update sets the email to
    one that another user holds, the answer is the 500 "Server error"
    envelope, and registration with that email is answered with 400. *)
Definition profile_conflict_as_stated : Prop :=
  ∀ (L : Lib) (env : Env) (req : Request) (db : Store) me old other o e,
    user req = Some me → users db !! _id me = Some old → User.validate old = Ok () →
    field (body req) "email" = JStr e → e ≠ "" →
    other ≠ _id me → users db !! other = Some o → UserModel.email o = e →
    UserModel.email old ≠ e →
    statusCode (updateUserProfile L env req db).2 = 500%Z
    ∧ message (json (updateUserProfile L env req db).2) = "Server error".

(** * What one request may do to the store *)

(** The writes the handlers perform: none, or one document inserted, saved
    or deleted, with what the handler checked before the write. *)
Inductive Effect (db : Store) : Store → Prop :=
| effect_none : Effect db db
| effect_user_created oid u :
    users db !! oid = None →
    UserModel.name u ≠ "" → UserModel.email u ≠ "" →
    User.email_taken db oid (UserModel.email u) = false →
    Effect db {| users := <[oid := u]> (users db); tasks := tasks db |}
| effect_user_saved oid old u :
    users db !! oid = Some old →
    UserModel.name u ≠ "" → UserModel.email u ≠ "" →
    (UserModel.email u = UserModel.email old
     ∨ User.email_taken db oid (UserModel.email u) = false) →
    UserModel.createdAt u = UserModel.createdAt old →
    Effect db {| users := <[oid := u]> (users db); tasks := tasks db |}
| effect_task_created oid t :
    tasks db !! oid = None →
    Task.validate t = Ok () → is_Some (users db !! TaskModel.user t) →
    Effect db {| users := users db; tasks := <[oid := t]> (tasks db) |}
| effect_task_saved oid old t :
    tasks db !! oid = Some old →
    Task.validate t = Ok () →
    TaskModel.user t = TaskModel.user old →
    TaskModel.createdAt t = TaskModel.createdAt old →
    Effect db {| users := users db; tasks := <[oid := t]> (tasks db) |}
| effect_task_deleted oid old :
    tasks db !! oid = Some old →
    Effect db {| users := users db; tasks := delete oid (tasks db) |}.

(** No two stored users share an email. *)
Definition emails_unique (db : Store) : Prop :=
  ∀ i j u v, users db !! i = Some u → users db !! j = Some v →
             UserModel.email u = UserModel.email v → i = j.

(** Every stored task passes the validators of its schema. *)
Definition tasks_valid (db : Store) : Prop :=
  ∀ i t, tasks db !! i = Some t →
         TaskModel.title t ≠ "" ∧ TaskModel.status t ∈ Task.statuses.

(** The owner of every stored task is a stored user. *)
Definition owners_exist (db : Store) : Prop :=
  ∀ i t, tasks db !! i = Some t → is_Some (users db !! TaskModel.user t).

(** The routes that run [protect] first. *)
Definition is_protected (r : Route) : bool :=
  match r with
  | POST_register | POST_login => false
  | _ => true
  end.

(** The two shapes [sendSuccess] and [sendError] give an answer, with the
    status codes the handlers pass. *)
Definition envelope_ok (r : Response) : Prop :=
  (success (json r) = true ∧ (statusCode r = 200%Z ∨ statusCode r = 201%Z)
   ∧ is_Some (data (json r)) ∧ errors (json r) = None)
  ∨ (success (json r) = false
     ∧ (statusCode r = 400%Z ∨ statusCode r = 401%Z ∨ statusCode r = 404%Z
        ∨ statusCode r = 500%Z)
     ∧ data (json r) = None).

(** ** server.ts: the routers under their mount paths *)

(** The methods the routers name. *)
Inductive Method := GET | POST | PUT | DELETE.

(** A path is the list of its segments, in the decoded form Express hands
    to [req.params].  Express matches a segment of a route without regard
    to letter case and accepts a closing slash. *)
Definition same_segment (pattern s : string) : bool :=
  bool_decide (string_map lower s = string_map lower pattern).

(** [app.use(mount, router)]: the rest of the path, when the path lies
    under [mount]. *)
Fixpoint under (mount path : list string) : option (list string) :=
  match mount, path with
  | [], rest => Some rest
  | p :: mount, s :: path => if same_segment p s then under mount path else None
  | _ :: _, [] => None
  end.

(** A router picks a route for a method and a path, with the value of
    [:id] when the route has one. *)
Abbreviation Router := (Method → list string → option (Route * option string)) (only parsing).

(** auth.routes.ts *)
Definition authRoutes : Router := λ m path,
  match path with
  | [s] =>
      if same_segment "register" s then
        match m with POST => Some (POST_register, None) | _ => None end
      else if same_segment "login" s then
        match m with POST => Some (POST_login, None) | _ => None end
      else if same_segment "me" s then
        match m with
        | GET => Some (GET_me, None)
        | PUT => Some (PUT_me, None)
        | _ => None
        end
      else None
  | _ => None
  end.

(** task.routes.ts *)
Definition taskRoutes : Router := λ m path,
  match path with
  | [] =>
      match m with
      | GET => Some (GET_tasks, None)
      | POST => Some (POST_tasks, None)
      | _ => None
      end
  | [id] =>
      match m with
      | GET => Some (GET_task, Some id)
      | PUT => Some (PUT_task, Some id)
      | DELETE => Some (DELETE_task, Some id)
      | POST => None
      end
  | _ => None
  end.

(** The three [app.use] lines, in their order. *)
Definition mounted : list (list string * (Method → list string → option (Route * option string))) :=
  [ (["api"; "auth"], authRoutes);
    (["api"; "users"], authRoutes);
    (["api"; "tasks"], taskRoutes) ].

(** A request walks the layers in order; a router that has no route for it
    passes it on. *)
Fixpoint dispatch (layers : list (list string * (Method → list string → option (Route * option string))))
    (m : Method) (path : list string) : option (Route * option string) :=
  match layers with
  | [] => None
  | layer :: layers =>
      match under layer.1 path ≫= layer.2 m with
      | Some r => Some r
      | None => dispatch layers m path
      end
  end.

Definition set_params_id (req : Request) (id : string) : Request :=
  {| authorization := authorization req; params_id := id;
     query := query req; body := body req; user := user req |}.

(** What the server sends: the answer of a route, the banner of [GET /],
    nothing of its own when no layer took the request, or, when an exception
    left a handler uncaught, the error page of Express (status 500, no
    envelope). *)
Inductive Answer :=
| Json (r : Response)
| Banner (text : string)
| NoRoute
| Uncaught (e : Exn).

Definition server (L : Lib) (env : Env) (m : Method) (path : list string)
    (req : Request) (db : Store) : Store * Answer :=
  match dispatch mounted m path with
  | Some (r, id) =>
      let out := app L env r (from_option (set_params_id req) req id) db in
      (out.1, Json out.2)
  | None =>
      match m, path with
      | GET, [] => (db, Banner "API is running...")
      | _, _ => (db, NoRoute)
      end
  end.

(** ** A request without a parsed body *)

(** [express.json()] sets [req.body] to the parsed object when the request
    carries a JSON body.  For any other request Express 4 leaves the empty
    object, and Express 5 leaves [req.body] undefined: [None] here.  (A
    body that does not parse is answered by the parser and reaches no
    route.) *)
Record Incoming := {
  sent_authorization : option string;
  sent_query : gmap string string;
  sent_body : option (gmap string JsVal)
}.

(** The request with the object [b] as its body. *)
Definition received (i : Incoming) (b : gmap string JsVal) : Request :=
  {| authorization := sent_authorization i; params_id := "";
     query := sent_query i; body := b; user := None |}.

(** [registerUser], [loginUser], [createTask] and [updateTask] begin with
    [const { ... } = req.body], before their [try]. *)
Definition destructures_body (r : Route) : bool :=
  match r with
  | POST_register | POST_login | POST_tasks | PUT_task => true
  | _ => false
  end.

(** Destructuring [undefined] throws. *)
Definition body_undefined : Exn :=
  TypeError "Cannot destructure property of req.body as it is undefined".

(** [updateUserProfile] reads [req.body.name] inside its [try], after the
    lookup of the user: on an undefined body the read throws and the
    [catch] answers. *)
Definition updateUserProfile_undefined (req : Request) (db : Store) : Response :=
  match acting_id req, User.findByOid db (acting_id req) with
  | Some oid, Some user =>
      serverError (TypeError "Cannot read properties of undefined (reading name)")
  | _, _ => sendError 404 "User not found" None
  end.

(** [protect] before a handler, as in [protected]. *)
Definition guarded (L : Lib) (env : Env) (handler : Request → Store * Answer)
    (req : Request) (db : Store) : Store * Answer :=
  match protect L env req db with
  | Sent r => (db, Json r)
  | Next req' => handler req'
  end.

(** The routes on a request whose [req.body] is undefined.  The four
    handlers that destructure it throw outside their [try]; the other
    handlers but [updateUserProfile] do not read it. *)
Definition app_undefined (L : Lib) (env : Env) (r : Route) (req : Request) (db : Store)
  : Store * Answer :=
  match r with
  | POST_register | POST_login => (db, Uncaught body_undefined)
  | POST_tasks | PUT_task => guarded L env (λ _, (db, Uncaught body_undefined)) req db
  | PUT_me => guarded L env (λ req', (db, Json (updateUserProfile_undefined req' db))) req db
  | GET_me => guarded L env (λ req', (db, Json (getUserProfile req' db))) req db
  | GET_tasks => guarded L env (λ req', (db, Json (getTasks L req' db))) req db
  | GET_task => guarded L env (λ req', (db, Json (getTaskById req' db))) req db
  | DELETE_task =>
      guarded L env (λ req', let out := deleteTask req' db in (out.1, Json out.2)) req db
  end.

(** The server on a request as it arrives. *)
Definition express (L : Lib) (env : Env) (m : Method) (path : list string)
    (i : Incoming) (db : Store) : Store * Answer :=
  match sent_body i with
  | Some b => server L env m path (received i b) db
  | None =>
      match dispatch mounted m path with
      | Some (r, id) =>
          app_undefined L env r (from_option (set_params_id (received i ∅)) (received i ∅) id) db
      | None =>
          match m, path with
          | GET, [] => (db, Banner "API is running...")
          | _, _ => (db, NoRoute)
          end
      end
  end.

(** * Properties *)

(** Closed goals about the concrete scenarios are settled by evaluation. *)
Ltac evaluate := vm_compute; reflexivity.

(** ** The scenario of the specification *)

Example walkthrough_answers :
  Walkthrough.registered.2
  = sendSuccess 201 (PAuth Walkthrough.jo_id "Jo" "jo@x.com" Walkthrough.token)
      "User registered successfully"
  ∧ Walkthrough.logged_in.2
    = sendSuccess 200 (PAuth Walkthrough.jo_id "Jo" "jo@x.com" Walkthrough.token)
        "Login successful"
  ∧ Walkthrough.created.2
    = sendSuccess 201 (PTask Walkthrough.t1_id (Walkthrough.t1 "pending" 3000))
        "Task created successfully"
  ∧ Walkthrough.listed.2
    = sendSuccess 200 (PTasks [(Walkthrough.t1_id, Walkthrough.t1 "pending" 3000)])
        "Tasks retrieved successfully"
  ∧ Walkthrough.completed.2
    = sendSuccess 200 (PTask Walkthrough.t1_id (Walkthrough.t1 "completed" 5000))
        "Task updated successfully"
  ∧ Walkthrough.deleted.2 = sendSuccess 200 PNull "Task deleted successfully"
  ∧ Walkthrough.looked_up.2 = notFound.
Proof. split_and!; evaluate. Qed.

Example validateEmail_examples :
  validateEmail <$> [JStr "jo@x.com"; JStr "a@b.c.d"; JStr "jo@x"; JStr "jo@.com";
                     JStr "jo@x."; JStr "j o@x.com"; JStr "@x.com"; JStr "a@b@c.d";
                     JNum 5; JBool true]
  = [true; true; false; false; false; false; false; false; false; false].
Proof. evaluate. Qed.

Example bearer_token_examples :
  bearer_token <$> [Scenario.incoming "abc" "" [] []; Scenario.incoming "a b" "" [] [];
                    Scenario.incoming "" "" [] []]
  = [Some "abc"; Some "a"; Some ""].
Proof. evaluate. Qed.

(** ** Basic facts about the model operations *)

Lemma bind_Ok {A B} (m : Res A) (k : A → Res B) (b : B) :
  bind m k = Ok b → ∃ a, m = Ok a ∧ k a = Ok b.
Proof. destruct m as [a|e]; simpl; [eauto | discriminate]. Qed.

Lemma truthy_JStr s : truthy (JStr s) = true ↔ s ≠ "".
Proof.
  simpl. destruct (decide (s = "")) as [->|Hne].
  - rewrite bool_decide_eq_true_2 by done. simpl. split; [discriminate | done].
  - rewrite bool_decide_eq_false_2 by done. done.
Qed.

Lemma Task_findById_cast db id oid :
  castObjectId id = Some oid →
  Task.findById db id = Ok ((λ t, (oid, t)) <$> tasks db !! oid).
Proof. intros H. unfold Task.findById. by rewrite H. Qed.

Lemma Task_findById_malformed db id :
  castObjectId id = None → Task.findById db id = Throw (CastError "_id" (JStr id)).
Proof. intros H. unfold Task.findById. by rewrite H. Qed.

Lemma owns_true req task : owns req task = true ↔ acting_id req = Some (TaskModel.user task).
Proof. unfold owns. apply bool_decide_eq_true. Qed.

Lemma owns_other req B task :
  user req = Some B → _id B ≠ TaskModel.user task → owns req task = false.
Proof.
  intros Hu Hne. unfold owns, acting_id. rewrite Hu. simpl.
  apply bool_decide_eq_false. congruence.
Qed.

(** Every element of a task list is a stored document that passed the
    three filters. *)
Lemma TaskQuery_find_elem L owner search status db l kv :
  TaskQuery.find L owner search status db = Ok l →
  kv ∈ l →
  tasks db !! kv.1 = Some kv.2
  ∧ TaskQuery.owner_ok L owner kv.2 = true
  ∧ TaskQuery.status_ok status kv.2 = true.
Proof.
  unfold TaskQuery.find. intros H Hin.
  apply bind_Ok in H as (re & _ & H). injection H as <-.
  rewrite merge_sort_Permutation in Hin.
  apply list_elem_of_In, filter_In in Hin as [Hin Hkeep].
  apply list_elem_of_In in Hin. destruct kv as [k v]. simpl in *.
  apply elem_of_map_to_list in Hin.
  apply andb_prop in Hkeep as [Hkeep Hs]. apply andb_prop in Hkeep as [Ho _].
  done.
Qed.

(** The list handler answers with a task list or with the 500 envelope. *)
Lemma getTasks_data L req db l :
  data (json (getTasks L req db)) = Some (PTasks l) →
  TaskQuery.find L (acting_id req) (query_param req "search") (query_param req "status") db = Ok l.
Proof.
  unfold getTasks. destruct (TaskQuery.find _ _ _ _ _) as [l'|e]; simpl; [|discriminate].
  by intros [= ->].
Qed.

(** ** Ownership of tasks (C1, C2) *)

Section Ownership.
Variable L : Lib.

Lemma getTaskById_other req db B tid t :
  tasks db !! tid = Some t → user req = Some B → _id B ≠ TaskModel.user t →
  castObjectId (params_id req) = Some tid →
  getTaskById req db = notFound.
Proof.
  intros Ht Hu Hne Hid. unfold getTaskById.
  rewrite (Task_findById_cast _ _ _ Hid), Ht. simpl.
  by rewrite (owns_other _ _ _ Hu Hne).
Qed.

Lemma deleteTask_other req db B tid t :
  tasks db !! tid = Some t → user req = Some B → _id B ≠ TaskModel.user t →
  castObjectId (params_id req) = Some tid →
  deleteTask req db = (db, notFound).
Proof.
  intros Ht Hu Hne Hid. unfold deleteTask.
  rewrite (Task_findById_cast _ _ _ Hid), Ht. simpl.
  by rewrite (owns_other _ _ _ Hu Hne).
Qed.

(** What [updateTask] does for a request that is not the owner's: the
    validation block decides between 400, 500 and the lookup, and the
    lookup ends in the 404 envelope. *)
Lemma updateTask_other env req db B tid t :
  tasks db !! tid = Some t → user req = Some B → _id B ≠ TaskModel.user t →
  castObjectId (params_id req) = Some tid →
  updateTask env req db =
    match update_errors (field (body req) "title") (field (body req) "status") with
    | Ok [] => (db, notFound)
    | Ok errors => (db, sendError 400 "Validation failed" (Some errors))
    | Throw e => (db, serverError e)
    end.
Proof.
  intros Ht Hu Hne Hid. unfold updateTask.
  destruct (update_errors _ _) as [[|m errors]|e]; simpl; try done.
  rewrite (Task_findById_cast _ _ _ Hid), Ht. simpl.
  by rewrite (owns_other _ _ _ Hu Hne).
Qed.

Lemma getTasks_excludes_other req db B tid t l t' :
  tasks db !! tid = Some t → user req = Some B → _id B ≠ TaskModel.user t →
  data (json (getTasks L req db)) = Some (PTasks l) → (tid, t') ∉ l.
Proof.
  intros Ht Hu Hne Hl Hin. apply getTasks_data in Hl.
  destruct (TaskQuery_find_elem _ _ _ _ _ _ _ Hl Hin) as (Hk & Ho & _).
  simpl in *. rewrite Ht in Hk. injection Hk as <-.
  unfold acting_id in Ho. rewrite Hu in Ho. simpl in Ho.
  apply bool_decide_eq_true in Ho. congruence.
Qed.

(** C1 (amended).  For a task [t] of user A stored under [tid] and a
    request whose acting user B is not A: the task list never holds an
    entry for [tid]; get-by-id and delete addressed to [tid] answer with
    the 404 envelope; update addressed to [tid] answers with the 404
    envelope whenever its body passes the validation block, which runs
    before the lookup; delete and update leave the store as it was. *)
Theorem C1_cross_user_isolation env req db B tid t :
  tasks db !! tid = Some t → user req = Some B → _id B ≠ TaskModel.user t →
  castObjectId (params_id req) = Some tid →
  (∀ l t', data (json (getTasks L req db)) = Some (PTasks l) → (tid, t') ∉ l)
  ∧ getTaskById req db = notFound
  ∧ deleteTask req db = (db, notFound)
  ∧ (updateTask env req db).1 = db
  ∧ (update_errors (field (body req) "title") (field (body req) "status") = Ok [] →
     updateTask env req db = (db, notFound)).
Proof.
  intros Ht Hu Hne Hid. repeat split.
  - intros l t' Hl. by eapply getTasks_excludes_other.
  - by eapply getTaskById_other.
  - by eapply deleteTask_other.
  - rewrite (updateTask_other _ _ _ _ _ _ Ht Hu Hne Hid).
    by destruct (update_errors _ _) as [[|??]|?].
  - intros Hv. rewrite (updateTask_other _ _ _ _ _ _ Ht Hu Hne Hid). by rewrite Hv.
Qed.

(** Every id string that is no object id is answered with the 500
    envelope and the cast error, whoever asks and whatever is stored. *)
Lemma getTaskById_malformed req db :
  castObjectId (params_id req) = None →
  getTaskById req db = serverError (CastError "_id" (JStr (params_id req))).
Proof. intros Hid. unfold getTaskById. by rewrite (Task_findById_malformed _ _ Hid). Qed.

(** C2 (amended).  For a get-by-id request whose id string is a
    well-formed object id: the answer is 200 with the task exactly when a
    task is stored under that id and its owner is the acting user, and the
    one 404 envelope in every other case, whether the task is missing or
    owned by someone else. *)
Theorem C2_get_by_id_wellformed req db oid :
  castObjectId (params_id req) = Some oid →
  (∀ t, tasks db !! oid = Some t → acting_id req = Some (TaskModel.user t) →
        getTaskById req db = sendSuccess 200 (PTask oid t) "Task retrieved successfully")
  ∧ ((¬ ∃ t, tasks db !! oid = Some t ∧ acting_id req = Some (TaskModel.user t)) →
     getTaskById req db = notFound).
Proof.
  intros Hid. unfold getTaskById. rewrite (Task_findById_cast _ _ _ Hid). split.
  - intros t Ht Ho. rewrite Ht. simpl. by rewrite (proj2 (owns_true _ _) Ho).
  - intros Hno. destruct (tasks db !! oid) as [t|] eqn:Ht; simpl; [|done].
    destruct (owns req t) eqn:Ho; [|done].
    exfalso. apply Hno. exists t. split; [done|]. by apply owns_true.
Qed.
End Ownership.

(** Bob addresses Alice's task with a body that passes the validation. *)
Lemma C1_cross_user_isolation_witness :
  let req := Scenario.request (Some Scenario.bob_view) Scenario.task_id []
               [("status", JStr "completed")] in
  (tasks Scenario.db !! Scenario.task_id = Some Scenario.task
   ∧ user req = Some Scenario.bob_view
   ∧ _id Scenario.bob_view ≠ TaskModel.user Scenario.task
   ∧ castObjectId (params_id req) = Some Scenario.task_id)
  ∧ (∀ l t', data (json (getTasks sampleLib req Scenario.db)) = Some (PTasks l) →
             (Scenario.task_id, t') ∉ l)
  ∧ getTaskById req Scenario.db = notFound
  ∧ deleteTask req Scenario.db = (Scenario.db, notFound)
  ∧ (updateTask Scenario.env req Scenario.db).1 = Scenario.db
  ∧ (update_errors (field (body req) "title") (field (body req) "status") = Ok [] →
     updateTask Scenario.env req Scenario.db = (Scenario.db, notFound)).
Proof.
  intros req.
  assert (H1 : tasks Scenario.db !! Scenario.task_id = Some Scenario.task) by reflexivity.
  assert (H2 : user req = Some Scenario.bob_view) by reflexivity.
  assert (H3 : _id Scenario.bob_view ≠ TaskModel.user Scenario.task) by (vm_compute; discriminate).
  assert (H4 : castObjectId (params_id req) = Some Scenario.task_id) by reflexivity.
  split; [done|].
  exact (C1_cross_user_isolation sampleLib Scenario.env req Scenario.db
           Scenario.bob_view Scenario.task_id Scenario.task H1 H2 H3 H4).
Defined.

(** C1 as worded fails: Bob's update of Alice's task with a status outside
    the enumeration is answered by the validation block with 400, before any
    lookup, not with the 404 envelope. *)
Lemma C1_update_validation_precedes_lookup :
  updateTask Scenario.env
    (Scenario.request (Some Scenario.bob_view) Scenario.task_id [] [("status", JStr "done")])
    Scenario.db
  = (Scenario.db,
     sendError 400 "Validation failed"
       (Some [Text "Status must be one of: pending, in_progress, completed"]))
  ∧ ¬ owner_isolation_as_stated.
Proof.
  assert (Heval : updateTask Scenario.env
            (Scenario.request (Some Scenario.bob_view) Scenario.task_id [] [("status", JStr "done")])
            Scenario.db
          = (Scenario.db,
             sendError 400 "Validation failed"
               (Some [Text "Status must be one of: pending, in_progress, completed"])))
    by evaluate.
  split; [exact Heval|].
  intros H.
  destruct (H sampleLib Scenario.env Scenario.db
              (Scenario.request (Some Scenario.bob_view) Scenario.task_id []
                 [("status", JStr "done")])
              Scenario.bob_view Scenario.task_id Scenario.task)
    as (_ & _ & Hupd & _); try reflexivity.
  - vm_compute; discriminate.
  - rewrite Heval in Hupd. discriminate.
Qed.

(** A well-formed id that names no task. *)
Lemma C2_get_by_id_wellformed_witness :
  let req := Scenario.request (Some Scenario.bob_view) "65C0000000000000000000FF" [] [] in
  castObjectId (params_id req) = Some "65c0000000000000000000ff"
  ∧ (∀ t, tasks Scenario.db !! "65c0000000000000000000ff" = Some t →
          acting_id req = Some (TaskModel.user t) →
          getTaskById req Scenario.db
          = sendSuccess 200 (PTask "65c0000000000000000000ff" t) "Task retrieved successfully")
  ∧ ((¬ ∃ t, tasks Scenario.db !! "65c0000000000000000000ff" = Some t
             ∧ acting_id req = Some (TaskModel.user t)) →
     getTaskById req Scenario.db = notFound).
Proof.
  intros req.
  assert (H : castObjectId (params_id req) = Some "65c0000000000000000000ff") by reflexivity.
  split; [exact H|].
  exact (C2_get_by_id_wellformed req Scenario.db "65c0000000000000000000ff" H).
Defined.

(** C2 as worded fails: an id string that is no object id names no task,
    and the answer is the 500 envelope with the cast error, not the 404
    envelope. *)
Lemma C2_malformed_id_is_500 :
  getTaskById (Scenario.request (Some Scenario.alice_view) "abc" [] []) Scenario.db
  = sendError 500 "Server error" (Some [MessageOf (CastError "_id" (JStr "abc"))])
  ∧ ¬ get_by_id_as_stated.
Proof.
  split; [reflexivity|].
  intros H.
  destruct (H (Scenario.request (Some Scenario.alice_view) "abc" [] []) Scenario.db)
    as [_ Hnf].
  assert (Hno : ¬ ∃ oid t,
            castObjectId (params_id (Scenario.request (Some Scenario.alice_view) "abc" [] []))
              = Some oid
            ∧ tasks Scenario.db !! oid = Some t
            ∧ acting_id (Scenario.request (Some Scenario.alice_view) "abc" [] [])
              = Some (TaskModel.user t)).
  { intros (oid & t & Hc & _). vm_compute in Hc. discriminate. }
  specialize (Hnf Hno). vm_compute in Hnf. discriminate.
Qed.

(** ** The auth middleware (C3) *)

Section Middleware.
Variable L : Lib.

(** The [try] block, case by case. *)
Lemma protect_try_cases env req db :
  match verify_call L env (bearer_token req) with
  | Throw e => protect_try L env req db = Throw e
  | Ok d =>
      match castObjectId (id d) with
      | None => protect_try L env req db = Throw (CastError "_id" (JStr (id d)))
      | Some oid =>
          protect_try L env req db = Ok (select_no_password oid <$> users db !! oid)
      end
  end.
Proof.
  unfold protect_try. destruct (verify_call L env (bearer_token req)) as [d|e]; simpl; [|done].
  unfold User.findById. destruct (castObjectId (id d)) as [oid|]; simpl; [|done].
  by destruct (users db !! oid).
Qed.

(** C3 (amended).  The middleware has three outcomes.  It answers 401
    "no token" exactly when the request has no Authorization header that
    starts with Bearer.  It answers 401 "token failed" exactly when there
    is such a header and either the token does not verify or the embedded
    id is no well-formed object id, so that the lookup throws.  In every
    remaining case it calls the next handler with the request's user set
    to the result of the lookup by the embedded id, password excluded: the
    user record when there is one, nothing when no user has that id. *)
Theorem C3_protect_outcomes env req db :
  (protect L env req db = Sent noToken ↔ has_bearer req = false)
  ∧ (protect L env req db = Sent tokenFailed ↔
       has_bearer req = true
       ∧ ((∀ d, verify_call L env (bearer_token req) ≠ Ok d)
          ∨ ∃ d, verify_call L env (bearer_token req) = Ok d ∧ castObjectId (id d) = None))
  ∧ (∀ d oid, has_bearer req = true → verify_call L env (bearer_token req) = Ok d →
       castObjectId (id d) = Some oid →
       protect L env req db
       = Next (set_user req (select_no_password oid <$> users db !! oid)))
  ∧ (protect L env req db = Sent noToken
     ∨ protect L env req db = Sent tokenFailed
     ∨ ∃ u, protect L env req db = Next (set_user req u)).
Proof.
  pose proof (protect_try_cases env req db) as Htry.
  unfold protect.
  destruct (has_bearer req) eqn:Hb.
  - destruct (verify_call L env (bearer_token req)) as [d|e] eqn:Hv.
    + destruct (castObjectId (id d)) as [oid|] eqn:Hc; rewrite Htry; split_and!.
      * split; intros; done.
      * split; [done|].
        intros [_ [Hno | (d' & [= <-] & Hc')]]; [by destruct (Hno d)|congruence].
      * intros d' oid' _ [= <-] Hc'. congruence.
      * right; right. eauto.
      * split; intros; done.
      * split; [|done]. intros _. split; [done|]. right. eauto.
      * intros d' oid' _ [= <-] Hc'. congruence.
      * right; by left.
    + rewrite Htry. split_and!.
      * split; intros; done.
      * split; [|done]. intros _. split; [done|]. left. congruence.
      * intros d' oid' _ [=].
      * right; by left.
  - split_and!.
    + done.
    + split; [done|]. by intros [? _].
    + intros d oid [=].
    + by left.
Qed.
End Middleware.

(** C3 as worded fails: a token that verifies but embeds the id of no user
    makes the middleware call the next handler with no user attached. *)
Lemma C3_verified_token_without_user :
  let req := Scenario.incoming "s3cret.65e000000000000000000009" "" [] [] in
  verify_call sampleLib Scenario.env (bearer_token req)
  = Ok {| id := "65e000000000000000000009"; iat := 1700000000; exp := 1702592000 |}
  ∧ users Scenario.db !! "65e000000000000000000009" = None
  ∧ protect sampleLib Scenario.env req Scenario.db = Next (set_user req None)
  ∧ ¬ protect_as_stated.
Proof.
  intros req.
  assert (Hv : verify_call sampleLib Scenario.env (bearer_token req)
               = Ok {| id := "65e000000000000000000009"; iat := 1700000000;
                       exp := 1702592000 |}) by evaluate.
  assert (Hp : protect sampleLib Scenario.env req Scenario.db = Next (set_user req None))
    by evaluate.
  repeat split; try done.
  intros H.
  destruct (H sampleLib Scenario.env req Scenario.db) as (_ & _ & Hnext).
  destruct (Hnext _ eq_refl Hv) as (oid & u & _ & _ & Hp').
  rewrite Hp in Hp'. discriminate.
Qed.

(** ** The task list (C4) *)

Global Instance newest_first_trans : Transitive newest_first.
Proof. intros a b c. unfold newest_first. lia. Qed.

Global Instance newest_first_total : Total newest_first.
Proof. intros a b. unfold newest_first. lia. Qed.

Lemma compile_simple_plain s : plain s = true → compile_simple s = Some (literals s).
Proof.
  unfold plain. induction s as [|c r IH]; simpl; [done|].
  intros [Hc Hr]%andb_prop. rewrite (IH Hr).
  apply negb_true_iff in Hc. rewrite Hc.
  destruct (bool_decide (c = "."%char)) eqn:Hdot; [|done].
  apply bool_decide_eq_true in Hdot. subst c. by vm_compute in Hc.
Qed.

Lemma match_here_literals s h : match_here (literals s) h = prefix_ci s h.
Proof.
  revert h. induction s as [|c r IH]; intros h; simpl; [done|].
  destruct h as [|b h']; [done|]. by rewrite IH.
Qed.

Lemma search_from_literals s h : search_from (literals s) h = contains_ci s h.
Proof.
  induction h as [|b h' IH]; simpl.
  - by rewrite match_here_literals.
  - by rewrite match_here_literals, IH.
Qed.

Section TaskList.
Variable L : Lib.

(** The list handler never changes the order or the fields: it filters
    the collection and sorts the result. *)
Lemma TaskQuery_find_plain owner search status db :
  (∀ s, search = Some s → plain s = true) →
  TaskQuery.find L owner search status db
  = Ok (merge_sort newest_first
          (List.filter
             (λ kv, TaskQuery.owner_ok L owner kv.2
                    && TaskQuery.keyword_ok (contains_ci <$> search) kv.2
                    && TaskQuery.status_ok status kv.2)
             (map_to_list (tasks db)))).
Proof.
  intros Hplain. unfold TaskQuery.find.
  destruct search as [s|]; simpl; [|done].
  unfold regex_i. rewrite (compile_simple_plain s (Hplain s eq_refl)). simpl.
  f_equal. f_equal. apply filter_ext. intros kv.
  unfold TaskQuery.keyword_ok. rewrite search_from_literals.
  destruct (TaskModel.description kv.2) as [d|]; simpl; [|done].
  by rewrite search_from_literals.
Qed.

(** C4 (amended).  For a list request of acting user B whose search
    string, when one is supplied, has none of the special characters of
    the pattern language: the answer is 200 with the tasks of B whose
    title or description contains the search string as a substring, case
    ignored, and whose status equals the status parameter, each filter
    applied only when supplied; every such task occurs once, and the array
    is ordered by creation time, newest first. *)
Theorem C4_task_list_plain_search req db B :
  user req = Some B →
  (∀ s, query_param req "search" = Some s → plain s = true) →
  ∃ l, getTasks L req db = sendSuccess 200 (PTasks l) "Tasks retrieved successfully"
       ∧ l ≡ₚ List.filter
                (λ kv, listed_as_stated (_id B) (query_param req "search")
                         (query_param req "status") kv.2)
                (map_to_list (tasks db))
       ∧ StronglySorted newest_first l.
Proof.
  intros Hu Hplain. unfold getTasks.
  rewrite (TaskQuery_find_plain _ _ _ _ Hplain).
  eexists. split; [reflexivity|]. split.
  - rewrite merge_sort_Permutation.
    erewrite filter_ext; [reflexivity|].
    intros kv. unfold listed_as_stated, acting_id. rewrite Hu. simpl.
    by destruct (query_param req "search"), (query_param req "status").
  - apply StronglySorted_merge_sort; apply _.
Qed.
End TaskList.

(** Alice lists her pending tasks that mention "t1". *)
Lemma C4_task_list_plain_search_witness :
  let req := Scenario.request (Some Scenario.alice_view) ""
               [("search", "t1"); ("status", "pending")] [] in
  (user req = Some Scenario.alice_view
   ∧ ∀ s, query_param req "search" = Some s → plain s = true)
  ∧ ∃ l, getTasks sampleLib req Scenario.db
         = sendSuccess 200 (PTasks l) "Tasks retrieved successfully"
         ∧ l ≡ₚ List.filter
                  (λ kv, listed_as_stated (_id Scenario.alice_view) (query_param req "search")
                           (query_param req "status") kv.2)
                  (map_to_list (tasks Scenario.db))
         ∧ StronglySorted newest_first l.
Proof.
  intros req.
  assert (H1 : user req = Some Scenario.alice_view) by reflexivity.
  assert (H2 : ∀ s, query_param req "search" = Some s → plain s = true).
  { intros s Hs. vm_compute in Hs. injection Hs as <-. reflexivity. }
  split; [done|].
  exact (C4_task_list_plain_search sampleLib req Scenario.db Scenario.alice_view H1 H2).
Defined.

(** C4 as worded fails: the search string "." is a pattern that matches
    any character, so Alice's task is listed although neither its title nor
    its description contains a dot. *)
Lemma C4_search_string_is_a_pattern :
  let req := Scenario.request (Some Scenario.alice_view) "" [("search", ".")] [] in
  getTasks sampleLib req Scenario.db
  = sendSuccess 200 (PTasks [(Scenario.task_id, Scenario.task)]) "Tasks retrieved successfully"
  ∧ contains_ci "." (TaskModel.title Scenario.task) = false
  ∧ from_option (contains_ci ".") false (TaskModel.description Scenario.task) = false
  ∧ ¬ task_list_as_stated.
Proof.
  intros req.
  assert (Hg : getTasks sampleLib req Scenario.db
               = sendSuccess 200 (PTasks [(Scenario.task_id, Scenario.task)])
                   "Tasks retrieved successfully") by evaluate.
  split_and!; [done | reflexivity | reflexivity |].
  intros H.
  destruct (H sampleLib req Scenario.db Scenario.alice_view eq_refl) as (l & Hl & Hperm & _).
  rewrite Hg in Hl. injection Hl as <-.
  vm_compute in Hperm. by apply Permutation_nil_r in Hperm.
Qed.

(** ** Update of a task by its owner (C5) *)

(** The document [task.save()] writes when a path was modified. *)
Lemma Task_save_cases env oid old new db :
  Task.save env oid old new db = Throw (ValidationError "title")
  ∨ Task.save env oid old new db = Throw (ValidationError "status")
  ∨ (new = old ∧ Task.save env oid old new db = Ok (db, old))
  ∨ ∃ stored,
      Task.save env oid old new db
      = Ok ({| users := users db; tasks := <[oid := stored]> (tasks db) |}, stored)
      ∧ TaskModel.title stored = TaskModel.title new
      ∧ TaskModel.description stored = TaskModel.description new
      ∧ TaskModel.status stored = TaskModel.status new
      ∧ TaskModel.user stored = TaskModel.user new
      ∧ TaskModel.createdAt stored = TaskModel.createdAt new.
Proof.
  unfold Task.save, Task.validate.
  destruct (bool_decide (TaskModel.title new = "")); simpl; [by left|].
  destruct (bool_decide (TaskModel.status new ∈ Task.statuses)); simpl; [|by right; left].
  destruct (bool_decide (new = old)) eqn:Hsame.
  - apply bool_decide_eq_true in Hsame. right; right; left. done.
  - right; right; right. eexists. split; [reflexivity|]. done.
Qed.

(** The store after the owner's update holds, under the task's id, either
    the task as it was or the assigned fields. *)
Lemma updateTask_owner env req db tid t :
  castObjectId (params_id req) = Some tid → tasks db !! tid = Some t →
  acting_id req = Some (TaskModel.user t) →
  let new := assign_task (field (body req) "title") (field (body req) "description")
               (field (body req) "status") t in
  (tasks (updateTask env req db).1 !! tid = Some t
   ∧ statusCode (updateTask env req db).2 ≠ 200%Z)
  ∨ ∃ t', tasks (updateTask env req db).1 !! tid = Some t'
          ∧ TaskModel.title t' = TaskModel.title new
          ∧ TaskModel.description t' = TaskModel.description new
          ∧ TaskModel.status t' = TaskModel.status new
          ∧ TaskModel.user t' = TaskModel.user new
          ∧ TaskModel.createdAt t' = TaskModel.createdAt new.
Proof.
  intros Hid Ht Ho new.
  assert (Hnew : assign_task (field (body req) "title") (field (body req) "description")
                   (field (body req) "status") t = new) by done.
  clearbody new. unfold updateTask.
  destruct (update_errors _ _) as [[|m errors]|e]; simpl; [| by left | by left].
  rewrite (Task_findById_cast _ _ _ Hid), Ht. simpl.
  rewrite (proj2 (owns_true _ _) Ho), Hnew.
  destruct (Task_save_cases env tid t new db)
    as [Hs | [Hs | [[Hsame Hs] | (stored & Hs & Hf)]]]; rewrite Hs; simpl.
  - by left.
  - by left.
  - right. exists t. by rewrite Hsame.
  - right. exists stored. by rewrite lookup_insert_eq.
Qed.

(** C5.  For an update of a task by its owner: the owner reference and the
    creation time of the stored task are what they were; each of title,
    description and status that is absent from the body or falsy keeps its
    stored value; a field whose stored value changed was supplied truthy and
    now holds the supplied value; and after a 200 answer every truthy
    supplied field holds the supplied value. *)
Theorem C5_update_keeps_unsupplied_fields env req db tid t :
  castObjectId (params_id req) = Some tid → tasks db !! tid = Some t →
  acting_id req = Some (TaskModel.user t) →
  ∃ t', tasks (updateTask env req db).1 !! tid = Some t'
    ∧ TaskModel.user t' = TaskModel.user t
    ∧ TaskModel.createdAt t' = TaskModel.createdAt t
    ∧ (truthy (field (body req) "title") = false → TaskModel.title t' = TaskModel.title t)
    ∧ (truthy (field (body req) "description") = false →
       TaskModel.description t' = TaskModel.description t)
    ∧ (truthy (field (body req) "status") = false → TaskModel.status t' = TaskModel.status t)
    ∧ (TaskModel.title t' ≠ TaskModel.title t →
       truthy (field (body req) "title") = true
       ∧ TaskModel.title t' = js_toString (field (body req) "title"))
    ∧ (TaskModel.description t' ≠ TaskModel.description t →
       truthy (field (body req) "description") = true
       ∧ TaskModel.description t' = Some (js_toString (field (body req) "description")))
    ∧ (TaskModel.status t' ≠ TaskModel.status t →
       truthy (field (body req) "status") = true
       ∧ TaskModel.status t' = js_toString (field (body req) "status"))
    ∧ (statusCode (updateTask env req db).2 = 200%Z →
       (truthy (field (body req) "title") = true →
        TaskModel.title t' = js_toString (field (body req) "title"))
       ∧ (truthy (field (body req) "description") = true →
          TaskModel.description t' = Some (js_toString (field (body req) "description")))
       ∧ (truthy (field (body req) "status") = true →
          TaskModel.status t' = js_toString (field (body req) "status"))).
Proof.
  intros Hid Ht Ho.
  destruct (updateTask_owner env req db tid t Hid Ht Ho)
    as [[Hsame Hcode] | (t' & Ht' & Htitle & Hdesc & Hstatus & Huser & Hcreated)].
  - exists t. split_and!; try done.
  - exists t'. simpl in *.
    rewrite Htitle, Hdesc, Hstatus, Huser, Hcreated.
    destruct (truthy (field (body req) "title")),
             (truthy (field (body req) "description")),
             (truthy (field (body req) "status")); split_and!; done.
Qed.

(** Alice marks her task completed. *)
Lemma C5_update_keeps_unsupplied_fields_witness :
  let req := Scenario.request (Some Scenario.alice_view) Scenario.task_id []
               [("status", JStr "completed"); ("title", JStr "")] in
  (castObjectId (params_id req) = Some Scenario.task_id
   ∧ tasks Scenario.db !! Scenario.task_id = Some Scenario.task
   ∧ acting_id req = Some (TaskModel.user Scenario.task))
  ∧ statusCode (updateTask Scenario.env req Scenario.db).2 = 200%Z
  ∧ ∃ t', tasks (updateTask Scenario.env req Scenario.db).1 !! Scenario.task_id = Some t'
    ∧ TaskModel.user t' = "65a000000000000000000001"
    ∧ TaskModel.createdAt t' = 1650000000000%Z
    ∧ TaskModel.title t' = "T1"
    ∧ TaskModel.description t' = Some "first task"
    ∧ TaskModel.status t' = "completed".
Proof.
  intros req.
  assert (H1 : castObjectId (params_id req) = Some Scenario.task_id) by reflexivity.
  assert (H2 : tasks Scenario.db !! Scenario.task_id = Some Scenario.task) by reflexivity.
  assert (H3 : acting_id req = Some (TaskModel.user Scenario.task)) by reflexivity.
  assert (H200 : statusCode (updateTask Scenario.env req Scenario.db).2 = 200%Z)
    by evaluate.
  split; [done|]. split; [done|].
  destruct (C5_update_keeps_unsupplied_fields Scenario.env req Scenario.db
              Scenario.task_id Scenario.task H1 H2 H3)
    as (t' & Ht' & Hu & Hc & Htitle & Hdesc & _ & _ & _ & _ & Hok).
  exists t'. split_and!; try done.
  - by apply Htitle.
  - by apply Hdesc.
  - by apply (Hok H200).
Defined.

(** ** Creation of a task (C6) *)

(** A 201 answer of [createTask] comes from one path only: the acting user
    is known, the new document is stored under the new id and carries the
    acting user as owner. *)
Lemma createTask_201 env req db :
  statusCode (createTask env req db).2 = 201%Z →
  ∃ uid t,
    acting_id req = Some uid
    ∧ tasks db !! new_ObjectId env = None
    ∧ createTask env req db
      = ({| users := users db; tasks := <[new_ObjectId env := t]> (tasks db) |},
         sendSuccess 201 (PTask (new_ObjectId env) t) "Task created successfully")
    ∧ TaskModel.user t = uid
    ∧ TaskModel.status t
      = default "pending" (castString (js_or (field (body req) "status") (JStr "pending"))).
Proof.
  unfold createTask.
  destruct (create_errors _ _) as [errors|e]; simpl; [|done].
  destruct (0 <? length errors)%nat; simpl; [done|].
  unfold Task.create.
  destruct (acting_id req) as [uid|]; simpl; [|done].
  match goal with |- context [Task.validate ?x] => destruct (Task.validate x) end;
    simpl; [|done].
  destruct (bool_decide (is_Some (tasks db !! new_ObjectId env))) eqn:Hdup; simpl; [done|].
  apply bool_decide_eq_false in Hdup. rewrite <- eq_None_not_Some in Hdup.
  intros _. eexists uid, _. split_and!; try reflexivity. done.
Qed.

Section Creation.
Variable L : Lib.

(** What [protect] hands to the handler it guards. *)
Lemma protect_Next env req db req' :
  protect L env req db = Next req' →
  ∃ d oid, verify_call L env (bearer_token req) = Ok d
           ∧ castObjectId (id d) = Some oid
           ∧ req' = set_user req (select_no_password oid <$> users db !! oid).
Proof.
  pose proof (protect_try_cases L env req db) as Htry.
  unfold protect. destruct (has_bearer req); [|done].
  destruct (verify_call L env (bearer_token req)) as [d|e] eqn:Hv; [|by rewrite Htry].
  destruct (castObjectId (id d)) as [oid|] eqn:Hc; rewrite Htry; [|done].
  intros [= <-]. by exists d, oid.
Qed.

Lemma protect_Sent env req db r :
  protect L env req db = Sent r → statusCode r = 401%Z.
Proof.
  unfold protect. destruct (has_bearer req); [|by intros [= <-]].
  destruct (protect_try L env req db); [done|by intros [= <-]].
Qed.

(** C6.  For a creation request answered with 201: the token of the
    request verifies and names a stored user; a new document is written,
    under the fresh id, which held no task before, and nothing else in the
    store changes; the answer carries that document; its owner is the user
    the embedded id names, whatever the body holds under any key; and its
    status is [pending] when the body has no status. *)
Theorem C6_create_owner_and_default_status env req db :
  statusCode (app L env POST_tasks req db).2 = 201%Z →
  ∃ d uid t,
    verify_call L env (bearer_token req) = Ok d
    ∧ castObjectId (id d) = Some uid
    ∧ is_Some (users db !! uid)
    ∧ tasks db !! new_ObjectId env = None
    ∧ app L env POST_tasks req db
      = ({| users := users db; tasks := <[new_ObjectId env := t]> (tasks db) |},
         sendSuccess 201 (PTask (new_ObjectId env) t) "Task created successfully")
    ∧ tasks (app L env POST_tasks req db).1 !! new_ObjectId env = Some t
    ∧ TaskModel.user t = uid
    ∧ (body req !! "status" = None → TaskModel.status t = "pending").
Proof.
  simpl. unfold protected.
  destruct (protect L env req db) as [r|req'] eqn:Hp.
  - apply protect_Sent in Hp. simpl. intros H. rewrite H in Hp. discriminate.
  - apply protect_Next in Hp as (d & oid & Hv & Hc & ->).
    intros H. apply createTask_201 in H as (uid & t & Hact & Hnew & Hcreate & Hown & Hst).
    unfold acting_id in Hact. simpl in Hact.
    destruct (users db !! oid) as [u|] eqn:Hu; simpl in Hact; [|done].
    injection Hact as <-.
    exists d, oid, t. rewrite Hcreate. split_and!; try done.
    + simpl. by rewrite lookup_insert_eq.
    + intros Hnone. rewrite Hst. simpl. unfold field. simpl. by rewrite Hnone.
Qed.
End Creation.

(** Alice creates a task; the body names Bob as [user] and has no status. *)
Lemma C6_create_owner_and_default_status_witness :
  let req := Scenario.incoming "s3cret.65a000000000000000000001" "" []
               [("title", JStr "T2"); ("user", JStr Scenario.bob_id)] in
  statusCode (app sampleLib Scenario.env POST_tasks req Scenario.db).2 = 201%Z
  ∧ ∃ d uid t,
      verify_call sampleLib Scenario.env (bearer_token req) = Ok d
      ∧ castObjectId (id d) = Some uid
      ∧ is_Some (users Scenario.db !! uid)
      ∧ tasks Scenario.db !! new_ObjectId Scenario.env = None
      ∧ app sampleLib Scenario.env POST_tasks req Scenario.db
        = ({| users := users Scenario.db;
              tasks := <[new_ObjectId Scenario.env := t]> (tasks Scenario.db) |},
           sendSuccess 201 (PTask (new_ObjectId Scenario.env) t) "Task created successfully")
      ∧ tasks (app sampleLib Scenario.env POST_tasks req Scenario.db).1
          !! new_ObjectId Scenario.env = Some t
      ∧ TaskModel.user t = uid
      ∧ (body req !! "status" = None → TaskModel.status t = "pending").
Proof.
  intros req.
  assert (H : statusCode (app sampleLib Scenario.env POST_tasks req Scenario.db).2 = 201%Z)
    by evaluate.
  split; [exact H|].
  exact (C6_create_owner_and_default_status sampleLib Scenario.env req Scenario.db H).
Defined.

(** ** Login failures (C7) *)

Section Login.
Variable L : Lib.

(** C7 (amended).  For two login requests against the same store that
    each carry a non-empty email and a non-empty string as password, one
    with an email registered to no user, the other with a registered email
    and a password that does not match the stored hash: both get the same
    answer, the 401 envelope with the one message and no other field, and
    the store is unchanged. *)
Theorem C7_login_failures_indistinguishable env db req1 req2 p1 p2 u :
  truthy (field (body req1) "email") = true →
  field (body req1) "password" = JStr p1 → p1 ≠ "" →
  truthy (field (body req2) "email") = true →
  field (body req2) "password" = JStr p2 → p2 ≠ "" →
  User.findOne_email db (js_toString (field (body req1) "email")) = None →
  User.findOne_email db (js_toString (field (body req2) "email")) = Some u →
  bcrypt_compare L p2 (UserModel.password u.2) = false →
  loginUser L env req1 db = (db, invalidCredentials)
  ∧ loginUser L env req2 db = (db, invalidCredentials).
Proof.
  intros He1 Hp1 Hn1 He2 Hp2 Hn2 Hnone Hsome Hcmp.
  unfold loginUser.
  rewrite He1, He2, Hp1, Hp2, Hnone, Hsome.
  rewrite !(proj2 (truthy_JStr _)) by done. simpl.
  by rewrite Hcmp.
Qed.
End Login.

(** An unknown email against Alice's email with a wrong password. *)
Lemma C7_login_failures_indistinguishable_witness :
  let req1 := Scenario.request None "" []
                [("email", JStr "nobody@x.com"); ("password", JStr "secret-a")] in
  let req2 := Scenario.request None "" []
                [("email", JStr "alice@x.com"); ("password", JStr "secret-b")] in
  (User.findOne_email Scenario.db "nobody@x.com" = None
   ∧ User.findOne_email Scenario.db "alice@x.com" = Some (Scenario.alice_id, Scenario.alice)
   ∧ bcrypt_compare sampleLib "secret-b" (UserModel.password Scenario.alice) = false)
  ∧ loginUser sampleLib Scenario.env req1 Scenario.db = (Scenario.db, invalidCredentials)
  ∧ loginUser sampleLib Scenario.env req2 Scenario.db = (Scenario.db, invalidCredentials).
Proof.
  intros req1 req2.
  assert (H1 : User.findOne_email Scenario.db "nobody@x.com" = None)
    by evaluate.
  assert (H2 : User.findOne_email Scenario.db "alice@x.com"
               = Some (Scenario.alice_id, Scenario.alice)) by evaluate.
  assert (H3 : bcrypt_compare sampleLib "secret-b" (UserModel.password Scenario.alice) = false)
    by evaluate.
  split; [split_and!; assumption|].
  apply (C7_login_failures_indistinguishable sampleLib Scenario.env Scenario.db req1 req2
           "secret-a" "secret-b" (Scenario.alice_id, Scenario.alice)).
  - reflexivity.
  - reflexivity.
  - discriminate.
  - reflexivity.
  - reflexivity.
  - discriminate.
  - exact H1.
  - exact H2.
  - exact H3.
Defined.

(** C7 as worded fails: with a password that is a JSON number the
    comparison with the stored hash throws, so the registered email gets the
    500 envelope and the unknown email the 401 envelope.  And a request
    for an unknown email that carries no password is answered by the
    presence check with 400, not with the 401 envelope. *)
Lemma C7_number_password_tells_emails_apart :
  let req1 := Scenario.request None "" []
                [("email", JStr "nobody@x.com"); ("password", JNum 123456)] in
  let req2 := Scenario.request None "" []
                [("email", JStr "alice@x.com"); ("password", JNum 123456)] in
  let req0 := Scenario.request None "" [] [("email", JStr "nobody@x.com")] in
  loginUser sampleLib Scenario.env req1 Scenario.db = (Scenario.db, invalidCredentials)
  ∧ loginUser sampleLib Scenario.env req2 Scenario.db
    = (Scenario.db, serverError (IllegalArguments (JNum 123456)))
  ∧ loginUser sampleLib Scenario.env req0 Scenario.db
    = (Scenario.db, sendError 400 "Email and password are required" None)
  ∧ ¬ login_failures_as_stated.
Proof.
  intros req1 req2 req0.
  assert (H2 : loginUser sampleLib Scenario.env req2 Scenario.db
               = (Scenario.db, serverError (IllegalArguments (JNum 123456))))
    by evaluate.
  split_and!; [evaluate | exact H2 | evaluate |].
  intros H.
  destruct (H sampleLib Scenario.env Scenario.db req1 req2 (Scenario.alice_id, Scenario.alice))
    as [_ H2'].
  - evaluate.
  - evaluate.
  - vm_compute; discriminate.
  - rewrite H2 in H2'. discriminate.
Qed.

(** ** Registration and the issued token (C8) *)

Lemma split_on_one_word t : one_word t = true → split_on " " t = [t].
Proof.
  unfold one_word. induction t as [|c r IH]; simpl; [done|].
  intros [Hc Hr]%andb_prop. apply negb_true_iff in Hc. rewrite Hc, (IH Hr). done.
Qed.

Lemma bearer_header req token :
  authorization req = Some ("Bearer " +:+ token) → one_word token = true →
  has_bearer req = true ∧ bearer_token req = Some token.
Proof.
  intros Hh Hw. unfold has_bearer, bearer_token. rewrite Hh. split; [done|].
  change (default "" (Some ("Bearer " +:+ token)))
    with (String "B" (String "e" (String "a" (String "r" (String "e" (String "r"
           (String " " token))))))).
  cbn -[split_on]. simpl. by rewrite (split_on_one_word _ Hw).
Qed.

(** The validation block of [registerUser] lets a request through only with
    a truthy password. *)
Lemma register_errors_nil name email password :
  register_errors name email password = Ok [] → truthy password = true.
Proof.
  unfold register_errors.
  destruct (if negb (truthy name) then _ else _) as [bad|e]; simpl; [|done].
  intros [= H]. apply app_eq_nil in H as [_ H]. apply app_eq_nil in H as [_ H].
  by destruct (truthy password).
Qed.

Section Registration.
Variable L : Lib.

(** A 201 answer of [registerUser] comes from one path only: the new
    document is stored under the new id with the hash of the supplied
    password, and the token is issued for that id. *)
Lemma registerUser_201 env req db :
  statusCode (registerUser L env req db).2 = 201%Z →
  let oid := new_ObjectId env in
  let password := field (body req) "password" in
  ∃ u,
    registerUser L env req db
    = ({| users := <[oid := u]> (users db); tasks := tasks db |},
       sendSuccess 201 (PAuth oid (UserModel.name u) (UserModel.email u)
                          (generateToken L env oid))
         "User registered successfully")
    ∧ truthy password = true
    ∧ UserModel.password u = bcrypt_hash L (js_toString password) (genSalt env).
Proof.
  unfold registerUser.
  destruct (register_errors _ _ _) as [errors|e] eqn:Herr; simpl; [|done].
  destruct errors as [|m errors]; simpl; [|done].
  apply register_errors_nil in Herr.
  destruct (User.findOne_email db _); simpl; [done|].
  unfold User.create.
  match goal with |- context [User.validate ?x] => destruct (User.validate x) end;
    simpl; [|done].
  destruct (bool_decide (is_Some (users db !! new_ObjectId env))); simpl; [done|].
  destruct (User.email_taken db _ _); simpl; [done|].
  intros _.
  match goal with |- context [<[_ := ?u]> _] => exists u end.
  split_and!; [reflexivity | done |].
  simpl. by destruct (field (body req) "password").
Qed.

(** C8 at the failing configuration.  When [JWT_SECRET] is unset or empty,
    [generateToken] signs with the fallback secret while [protect] verifies
    with the unset one: the token of every successful registration is
    answered with 401 "token failed" by the middleware of the same process.
    The two hypotheses on the library say that a token it signed does not
    verify without a secret, and the token is one word. *)
Theorem C8_token_rejected_without_secret env req db req' oid name email token :
  (JWT_SECRET env = None ∨ JWT_SECRET env = Some "") →
  (∀ p k now s, s = None ∨ s = Some "" → jwt_verify L (jwt_sign L p k) s now = None) →
  (registerUser L env req db).2
  = sendSuccess 201 (PAuth oid name email token) "User registered successfully" →
  one_word token = true →
  authorization req' = Some ("Bearer " +:+ token) →
  protect L env req' (registerUser L env req db).1 = Sent tokenFailed.
Proof.
  intros Hsecret Hlaw Hresp Hword Hauth.
  destruct (registerUser_201 env req db) as (u & Hreg & _ & _).
  { by rewrite Hresp. }
  rewrite Hreg in Hresp. simpl in Hresp. injection Hresp as _ _ _ Htok.
  destruct (bearer_header req' token Hauth Hword) as [Hb Ht].
  unfold protect, protect_try, verify_call. rewrite Hb, Ht, <- Htok.
  unfold generateToken. by rewrite Hlaw.
Qed.

(** The same round trip when the secret is set: under the library's law
    that a token verifies within its lifetime under the secret it was signed
    with, the token of a successful registration makes the middleware attach
    the user that registration created. *)
Lemma token_accepted_with_secret env req db req' k :
  JWT_SECRET env = Some k → k ≠ "" →
  (∀ p now, (now < exp p)%Z →
     ∃ d, jwt_verify L (jwt_sign L p k) (Some k) now = Some d ∧ id d = id p) →
  castObjectId (new_ObjectId env) = Some (new_ObjectId env) →
  one_word (generateToken L env (new_ObjectId env)) = true →
  statusCode (registerUser L env req db).2 = 201%Z →
  authorization req' = Some ("Bearer " +:+ generateToken L env (new_ObjectId env)) →
  ∃ u, users (registerUser L env req db).1 !! new_ObjectId env = Some u
       ∧ protect L env req' (registerUser L env req db).1
         = Next (set_user req' (Some (select_no_password (new_ObjectId env) u))).
Proof.
  intros Hk Hne Hlaw Hcast Hword H201 Hauth.
  destruct (registerUser_201 env req db H201) as (u & Hreg & _ & _).
  rewrite Hreg. simpl. exists u. rewrite lookup_insert_eq. split; [done|].
  destruct (bearer_header req' _ Hauth Hword) as [Hb Ht].
  unfold protect, protect_try, verify_call. rewrite Hb, Ht.
  unfold generateToken at 1. rewrite Hk. rewrite bool_decide_eq_false_2 by done.
  destruct (Hlaw {| id := new_ObjectId env; iat := (Date_now env / 1000)%Z;
                    exp := (Date_now env / 1000 + thirty_days)%Z |}
              (Date_now env / 1000)%Z) as (d & Hd & Hid).
  { simpl. unfold thirty_days. lia. }
  rewrite Hd. simpl. rewrite Hid. simpl.
  unfold User.findById. rewrite Hcast. simpl. by rewrite lookup_insert_eq.
Qed.
End Registration.

(** Jo registers with a process started without [JWT_SECRET] and presents
    the token just received. *)
Lemma C8_token_rejected_without_secret_witness :
  let req := Scenario.request None "" []
               [("name", JStr "Jo"); ("email", JStr "jo@x.com"); ("password", JStr "secret1")] in
  let token := "default_secret.65d000000000000000000004" in
  let req' := Scenario.incoming token "" [] [] in
  ((registerUser sampleLib Scenario.env_no_secret req Scenario.db).2
   = sendSuccess 201 (PAuth "65d000000000000000000004" "Jo" "jo@x.com" token)
       "User registered successfully"
   ∧ one_word token = true)
  ∧ protect sampleLib Scenario.env_no_secret req'
      (registerUser sampleLib Scenario.env_no_secret req Scenario.db).1
    = Sent tokenFailed.
Proof.
  intros req token req'.
  assert (H1 : (registerUser sampleLib Scenario.env_no_secret req Scenario.db).2
               = sendSuccess 201 (PAuth "65d000000000000000000004" "Jo" "jo@x.com" token)
                   "User registered successfully") by evaluate.
  assert (H2 : one_word token = true) by reflexivity.
  split; [split; assumption|].
  apply (C8_token_rejected_without_secret sampleLib Scenario.env_no_secret req Scenario.db req'
           "65d000000000000000000004" "Jo" "jo@x.com" token).
  - left. reflexivity.
  - intros p k now s [-> | ->]; reflexivity.
  - exact H1.
  - exact H2.
  - reflexivity.
Defined.

(** Jo registers with a process that has its secret and presents the token. *)
Lemma token_accepted_with_secret_example :
  let req := Scenario.request None "" []
               [("name", JStr "Jo"); ("email", JStr "jo@x.com"); ("password", JStr "secret1")] in
  let req' := Scenario.incoming "s3cret.65d000000000000000000004" "" [] [] in
  ∃ u, users (registerUser sampleLib Scenario.env req Scenario.db).1
         !! "65d000000000000000000004" = Some u
       ∧ protect sampleLib Scenario.env req'
           (registerUser sampleLib Scenario.env req Scenario.db).1
         = Next (set_user req' (Some (select_no_password "65d000000000000000000004" u))).
Proof.
  intros req req'.
  apply (token_accepted_with_secret sampleLib Scenario.env req Scenario.db req' "s3cret").
  - reflexivity.
  - discriminate.
  - intros p now _. eexists. split; [evaluate | reflexivity].
  - reflexivity.
  - reflexivity.
  - evaluate.
  - reflexivity.
Qed.

(** ** Stored passwords (C9) *)

Lemma pretty_N_go_nonempty x s : s ≠ "" → pretty_N_go x s ≠ "".
Proof.
  revert s. induction (N.lt_wf_0 x) as [x _ IH]; intros s Hs.
  destruct (decide (x = 0%N)) as [->|Hx]; [by rewrite pretty_N_go_0|].
  rewrite pretty_N_go_step by lia. apply IH; [|done].
  apply N.div_lt; lia.
Qed.

Lemma pretty_positive_nonempty (x : positive) : pretty x ≠ "".
Proof.
  unfold pretty, pretty_positive, pretty, pretty_N.
  case_decide; [done|]. rewrite pretty_N_go_step by lia.
  by apply pretty_N_go_nonempty.
Qed.

(** The string Mongoose stores for a truthy scalar is not empty. *)
Lemma truthy_toString_nonempty v : truthy v = true → js_toString v ≠ "".
Proof.
  destruct v as [| |[]|n|s]; simpl; try done.
  - intros _. destruct n as [|x|x]; simpl; [done | apply pretty_positive_nonempty | done].
  - intros H. apply negb_true_iff, bool_decide_eq_false in H. done.
Qed.

Lemma User_validate_Ok u :
  User.validate u = Ok () ↔
  UserModel.name u ≠ "" ∧ UserModel.email u ≠ "" ∧ UserModel.password u ≠ "".
Proof.
  unfold User.validate.
  destruct (decide (UserModel.name u = "")) as [Hn|Hn].
  { rewrite bool_decide_eq_true_2 by done. split; [done | by intros (? & _)]. }
  rewrite bool_decide_eq_false_2 by done.
  destruct (decide (UserModel.email u = "")) as [He|He].
  { rewrite bool_decide_eq_true_2 by done. split; [done | by intros (_ & ? & _)]. }
  rewrite bool_decide_eq_false_2 by done.
  destruct (decide (UserModel.password u = "")) as [Hp|Hp].
  { rewrite bool_decide_eq_true_2 by done. split; [done | by intros (_ & _ & ?)]. }
  rewrite bool_decide_eq_false_2 by done. done.
Qed.

Lemma assign_profile_valid name email password old :
  User.validate old = Ok () →
  User.validate (assign_profile name email password old) = Ok ().
Proof.
  rewrite !User_validate_Ok. intros (Hn & He & Hp). simpl.
  split_and!; case_match; auto using truthy_toString_nonempty.
Qed.

Section Passwords.
Variable L : Lib.

Lemma pre_save_fields env modified u :
  UserModel.name (User.pre_save L env modified u) = UserModel.name u
  ∧ UserModel.email (User.pre_save L env modified u) = UserModel.email u
  ∧ UserModel.password (User.pre_save L env modified u)
    = (if modified then bcrypt_hash L (UserModel.password u) (genSalt env)
       else UserModel.password u).
Proof. by destruct modified. Qed.

(** What [user.save()] leaves under the user's id: the hash of the
    assigned password when the password path was modified, the stored
    password otherwise. *)
Lemma User_save_password env oid old new db :
  match User.save L env oid old new db with
  | Throw _ => True
  | Ok saved =>
      ((saved.1 = db ∧ saved.2 = old) ∨ users saved.1 !! oid = Some saved.2)
      ∧ UserModel.password saved.2
        = (if bool_decide (UserModel.password new ≠ UserModel.password old)
           then bcrypt_hash L (UserModel.password new) (genSalt env)
           else UserModel.password old)
  end.
Proof.
  unfold User.save.
  destruct (User.validate new); simpl; [|done].
  destruct (bool_decide (new = old)) eqn:Hsame.
  - apply bool_decide_eq_true in Hsame. subst new. simpl.
    rewrite bool_decide_eq_false_2 by (intros H; by apply H). split; [by left | done].
  - destruct (_ && _); [done|]. simpl.
    destruct (pre_save_fields env
                (bool_decide (UserModel.password new ≠ UserModel.password old)) new)
      as (_ & _ & Hp).
    rewrite lookup_insert_eq, Hp. split; [by right|].
    by case_bool_decide.
Qed.
(** The password stored under the acting user's id after a profile update:
    as before on every path that answers something else than 200; after a
    200 answer the hash of the supplied password when that was truthy and
    differed from the stored one, and as before otherwise. *)
Lemma updateUserProfile_password env req db me old :
  user req = Some me → users db !! _id me = Some old →
  let supplied := field (body req) "password" in
  ∃ u, users (updateUserProfile L env req db).1 !! _id me = Some u
       ∧ ((statusCode (updateUserProfile L env req db).2 ≠ 200%Z
           ∧ UserModel.password u = UserModel.password old)
          ∨ (statusCode (updateUserProfile L env req db).2 = 200%Z
             ∧ UserModel.password u
               = (if truthy supplied
                     && bool_decide (js_toString supplied ≠ UserModel.password old)
                  then bcrypt_hash L (js_toString supplied) (genSalt env)
                  else UserModel.password old))).
Proof.
  intros Hu Hold supplied. unfold updateUserProfile, acting_id, User.findByOid.
  rewrite Hu. simpl. rewrite Hold.
  destruct (profile_errors _ _ _) as [errors|e]; simpl; [|by exists old; split; [|left]].
  destruct (0 <? length errors)%nat; simpl; [by exists old; split; [|left]|].
  pose proof (User_save_password env (_id me) old
                (assign_profile (field (body req) "name") (field (body req) "email")
                   (field (body req) "password") old) db) as Hsave.
  destruct (User.save _ _ _ _ _ _) as [saved|e]; simpl; [|by exists old; split; [|left]].
  destruct Hsave as [Hwhere Hpw]. exists saved.2. split.
  - destruct Hwhere as [[-> ->]|Hin]; done.
  - right. split; [done|]. rewrite Hpw. simpl. fold supplied.
    destruct (truthy supplied); simpl; [done|].
    by rewrite bool_decide_eq_false_2 by (intros H; by apply H).
Qed.

(** C9 (amended).  Under the library's law that a hash never equals its
    input: after a successful registration the stored password is the
    salted hash of the supplied one and differs from it; after a profile
    update with a truthy password that differs from the stored value the
    stored password differs from the supplied one, and it is the salted hash
    of the supplied one when the update was answered with 200 and the value
    stored before otherwise; and a profile update whose password is absent,
    falsy or equal to the stored value leaves the stored value as it was. *)
Theorem C9_stored_password_is_a_hash env req db :
  (∀ p s, bcrypt_hash L p s ≠ p) →
  let supplied := field (body req) "password" in
  (statusCode (registerUser L env req db).2 = 201%Z →
   ∃ u, users (registerUser L env req db).1 !! new_ObjectId env = Some u
        ∧ UserModel.password u = bcrypt_hash L (js_toString supplied) (genSalt env)
        ∧ UserModel.password u ≠ js_toString supplied)
  ∧ (∀ me old, user req = Some me → users db !! _id me = Some old →
       (truthy supplied = true → js_toString supplied ≠ UserModel.password old →
        ∃ u, users (updateUserProfile L env req db).1 !! _id me = Some u
             ∧ UserModel.password u ≠ js_toString supplied
             ∧ (statusCode (updateUserProfile L env req db).2 = 200%Z →
                UserModel.password u = bcrypt_hash L (js_toString supplied) (genSalt env))
             ∧ (statusCode (updateUserProfile L env req db).2 ≠ 200%Z →
                UserModel.password u = UserModel.password old))
       ∧ (truthy supplied = false ∨ js_toString supplied = UserModel.password old →
          ∃ u, users (updateUserProfile L env req db).1 !! _id me = Some u
               ∧ UserModel.password u = UserModel.password old)).
Proof.
  intros Hhash supplied. split.
  - intros H201. destruct (registerUser_201 L env req db H201) as (u & Hreg & _ & Hpw).
    exists u. rewrite Hreg. simpl. rewrite lookup_insert_eq.
    split_and!; [done | done |]. fold supplied in Hpw. rewrite Hpw. apply Hhash.
  - intros me old Hu Hold.
    destruct (updateUserProfile_password env req db me old Hu Hold)
      as (u & Hin & Hcases). fold supplied in Hcases.
    split.
    + intros Ht Hne. exists u. split; [done|].
      destruct Hcases as [[Hcode Hpw]|[Hcode Hpw]].
      * split_and!; [by rewrite Hpw | done | done].
      * rewrite Ht, bool_decide_eq_true_2 in Hpw by done. simpl in Hpw.
        split_and!; [rewrite Hpw; apply Hhash | done | done].
    + intros Hkeep. exists u. split; [done|].
      destruct Hcases as [[_ Hpw]|[_ Hpw]]; [done|].
      rewrite Hpw. destruct Hkeep as [-> | Heq]; [done|].
      rewrite bool_decide_eq_false_2 by (intros H; by apply H).
      by rewrite andb_false_r.
Qed.
End Passwords.

Lemma string_length_app a b : String.length (a +:+ b) = String.length a + String.length b.
Proof. induction a as [|c a IH]; simpl; [done|]. unfold String.app in *. simpl. by rewrite IH. Qed.

(** The stand-in hash never returns its input: the result is longer. *)
Lemma sampleLib_hash_not_input p s : bcrypt_hash sampleLib p s ≠ p.
Proof.
  simpl. intros H. apply (f_equal String.length) in H.
  rewrite !string_length_app in H. simpl in H. lia.
Qed.

(** Jo registers; Alice changes her password; Alice changes her name only. *)
Lemma C9_stored_password_is_a_hash_witness :
  let reg := Scenario.request None "" []
               [("name", JStr "Jo"); ("email", JStr "jo@x.com"); ("password", JStr "secret1")] in
  let change := Scenario.request (Some Scenario.alice_view) "" []
                  [("password", JStr "new-secret")] in
  let rename := Scenario.request (Some Scenario.alice_view) "" [] [("name", JStr "Alicia")] in
  (∃ u, users (registerUser sampleLib Scenario.env reg Scenario.db).1
          !! new_ObjectId Scenario.env = Some u
        ∧ UserModel.password u = bcrypt_hash sampleLib "secret1" Scenario.salt
        ∧ UserModel.password u ≠ "secret1")
  ∧ (∃ u, users (updateUserProfile sampleLib Scenario.env change Scenario.db).1
            !! Scenario.alice_id = Some u
          ∧ UserModel.password u = bcrypt_hash sampleLib "new-secret" Scenario.salt
          ∧ UserModel.password u ≠ "new-secret")
  ∧ (∃ u, users (updateUserProfile sampleLib Scenario.env rename Scenario.db).1
            !! Scenario.alice_id = Some u
          ∧ UserModel.password u = UserModel.password Scenario.alice).
Proof.
  intros reg change rename.
  destruct (C9_stored_password_is_a_hash sampleLib Scenario.env reg Scenario.db
              sampleLib_hash_not_input) as [Hreg _].
  destruct (C9_stored_password_is_a_hash sampleLib Scenario.env change Scenario.db
              sampleLib_hash_not_input) as [_ Hchange].
  destruct (Hchange Scenario.alice_view Scenario.alice eq_refl eq_refl) as [Hchange' _].
  destruct (C9_stored_password_is_a_hash sampleLib Scenario.env rename Scenario.db
              sampleLib_hash_not_input) as [_ Hrename].
  destruct (Hrename Scenario.alice_view Scenario.alice eq_refl eq_refl) as [_ Hrename'].
  split_and!.
  - apply Hreg. evaluate.
  - destruct Hchange' as (u & Hu & Hne & H200 & _).
    + reflexivity.
    + vm_compute; discriminate.
    + exists u. split_and!; [exact Hu | | exact Hne]. apply H200. evaluate.
  - apply Hrename'. left. reflexivity.
Defined.

(** C9 as worded fails: Alice sends as new password the very string that
    is stored for her.  The password path is then not modified, the hook
    does not hash, the update is answered with 200 and the stored password
    equals the supplied one. *)
Lemma C9_resubmitted_hash_is_kept :
  let stored := UserModel.password Scenario.alice in
  let req := Scenario.request (Some Scenario.alice_view) "" [] [("password", JStr stored)] in
  statusCode (updateUserProfile sampleLib Scenario.env req Scenario.db).2 = 200%Z
  ∧ (UserModel.password <$>
       users (updateUserProfile sampleLib Scenario.env req Scenario.db).1 !! Scenario.alice_id)
    = Some stored
  ∧ ¬ password_storage_as_stated.
Proof.
  intros stored req.
  assert (H200 : statusCode (updateUserProfile sampleLib Scenario.env req Scenario.db).2
                 = 200%Z) by evaluate.
  assert (Hkept : (UserModel.password <$>
                     users (updateUserProfile sampleLib Scenario.env req Scenario.db).1
                       !! Scenario.alice_id) = Some stored) by evaluate.
  split_and!; [exact H200 | exact Hkept |].
  intros H.
  destruct (H sampleLib sampleLib_hash_not_input Scenario.env req Scenario.db) as [_ Hupd].
  destruct (Hupd Scenario.alice_view Scenario.alice eq_refl eq_refl) as [Hwrite _].
  destruct (Hwrite H200 eq_refl) as (u & Hu & _ & Hne).
  change (_id Scenario.alice_view) with Scenario.alice_id in Hu.
  rewrite Hu in Hkept. simpl in Hkept. injection Hkept as Hkept.
  apply Hne. rewrite Hkept. reflexivity.
Qed.

(** ** Profile update with an email that is taken (C10) *)

Lemma email_taken_true db self other o e :
  other ≠ self → users db !! other = Some o → UserModel.email o = e →
  User.email_taken db self e = true.
Proof.
  intros Hne Ho He. unfold User.email_taken. apply bool_decide_eq_true.
  apply Exists_exists. exists (other, o). split; [|done].
  by apply elem_of_map_to_list.
Qed.

Lemma findOne_email_is_Some db other o e :
  users db !! other = Some o → UserModel.email o = e →
  is_Some (User.findOne_email db e).
Proof.
  intros Ho He. unfold User.findOne_email.
  destruct (list_find _ _) as [found|] eqn:Hfind; [by eexists|].
  apply list_find_None in Hfind.
  rewrite Forall_forall in Hfind.
  destruct (Hfind (other, o)); [|done].
  by apply elem_of_map_to_list.
Qed.

Section ProfileEmail.
Variable L : Lib.

(** C10.  A profile update by a stored user whose document passes the
    validators of the schema, with a body that passes the validation block
    of the handler, which sets the email to one that another user holds, is
    not checked by the handler: the unique index of the store rejects the
    write, the handler's catch-all answers with the 500 "Server error"
    envelope that carries the message of the duplicate-key error, and the
    store is unchanged.  Registration with the same email is answered with
    the 400 "Email is already registered" envelope. *)
Theorem C10_profile_email_conflict_is_500 env req db me old other o e :
  user req = Some me → users db !! _id me = Some old → User.validate old = Ok () →
  field (body req) "email" = JStr e → e ≠ "" →
  profile_errors (field (body req) "name") (field (body req) "email")
    (field (body req) "password") = Ok [] →
  other ≠ _id me → users db !! other = Some o → UserModel.email o = e →
  UserModel.email old ≠ e →
  updateUserProfile L env req db
  = (db, sendError 500 "Server error" (Some [MessageOf (DuplicateKey "email_1" e)]))
  ∧ ∀ reg,
      field (body reg) "email" = JStr e →
      register_errors (field (body reg) "name") (field (body reg) "email")
        (field (body reg) "password") = Ok [] →
      registerUser L env reg db = (db, sendError 400 "Email is already registered" None).
Proof.
  intros Hu Hold Hvalid Hemail Hne Herr Hother Ho He Hdiff. split.
  - unfold updateUserProfile, acting_id, User.findByOid.
    rewrite Hu. simpl. rewrite Hold, Herr. simpl.
    pose proof (assign_profile_valid (field (body req) "name") (field (body req) "email")
                  (field (body req) "password") old Hvalid) as Hnewvalid.
    assert (Hnew : UserModel.email
                     (assign_profile (field (body req) "name") (field (body req) "email")
                        (field (body req) "password") old) = e).
    { simpl. rewrite Hemail. by rewrite (proj2 (truthy_JStr e) Hne). }
    remember (assign_profile (field (body req) "name") (field (body req) "email")
                (field (body req) "password") old) as new eqn:Hdef.
    clear Hdef. unfold User.save. rewrite Hnewvalid. simpl.
    destruct (pre_save_fields L env
                (bool_decide (UserModel.password new ≠ UserModel.password old)) new)
      as (_ & Hmail & _).
    rewrite Hmail, Hnew.
    rewrite bool_decide_eq_false_2 by (intros Heq; rewrite Heq in Hnew; done).
    rewrite bool_decide_eq_true_2 by done.
    by rewrite (email_taken_true db (_id me) other o e Hother Ho He).
  - intros reg Hreg Hregerr. unfold registerUser.
    rewrite Hregerr, Hreg. simpl.
    by destruct (findOne_email_is_Some db other o e Ho He) as [found ->].
Qed.
End ProfileEmail.

(** Bob sets his email to Alice's. *)
Lemma C10_profile_email_conflict_is_500_witness :
  let req := Scenario.request (Some Scenario.bob_view) "" []
               [("email", JStr "alice@x.com")] in
  updateUserProfile sampleLib Scenario.env req Scenario.db
  = (Scenario.db,
     sendError 500 "Server error" (Some [MessageOf (DuplicateKey "email_1" "alice@x.com")]))
  ∧ ∀ reg,
      field (body reg) "email" = JStr "alice@x.com" →
      register_errors (field (body reg) "name") (field (body reg) "email")
        (field (body reg) "password") = Ok [] →
      registerUser sampleLib Scenario.env reg Scenario.db
      = (Scenario.db, sendError 400 "Email is already registered" None).
Proof.
  intros req.
  apply (C10_profile_email_conflict_is_500 sampleLib Scenario.env req Scenario.db
           Scenario.bob_view Scenario.bob Scenario.alice_id Scenario.alice "alice@x.com").
  - reflexivity.
  - reflexivity.
  - reflexivity.
  - reflexivity.
  - discriminate.
  - reflexivity.
  - vm_compute; discriminate.
  - reflexivity.
  - reflexivity.
  - vm_compute; discriminate.
Defined.

(** C10 as worded fails: the validation block runs before the save.  Bob
    sets his email to Alice's and sends a password of three characters: the
    answer is the 400 envelope of the validation block, and the unique index
    is never asked. *)
Lemma C10_conflict_behind_validation :
  updateUserProfile sampleLib Scenario.env
    (Scenario.request (Some Scenario.bob_view) "" []
       [("email", JStr "alice@x.com"); ("password", JStr "123")])
    Scenario.db
  = (Scenario.db,
     sendError 400 "Validation failed"
       (Some [Text "Password must be at least 6 characters long"]))
  ∧ ¬ profile_conflict_as_stated.
Proof.
  assert (Heval : updateUserProfile sampleLib Scenario.env
            (Scenario.request (Some Scenario.bob_view) "" []
               [("email", JStr "alice@x.com"); ("password", JStr "123")])
            Scenario.db
          = (Scenario.db,
             sendError 400 "Validation failed"
               (Some [Text "Password must be at least 6 characters long"])))
    by evaluate.
  split; [exact Heval|].
  intros H.
  destruct (H sampleLib Scenario.env
              (Scenario.request (Some Scenario.bob_view) "" []
                 [("email", JStr "alice@x.com"); ("password", JStr "123")])
              Scenario.db Scenario.bob_view Scenario.bob Scenario.alice_id Scenario.alice
              "alice@x.com")
    as [Hcode _]; try reflexivity.
  - discriminate.
  - vm_compute; discriminate.
  - vm_compute; discriminate.
  - rewrite Heval in Hcode. discriminate.
Qed.

(** * Further properties of the handlers *)

(** ** The effect of one request on the store *)

Lemma Task_validate_Ok t :
  Task.validate t = Ok () ↔ TaskModel.title t ≠ "" ∧ TaskModel.status t ∈ Task.statuses.
Proof.
  unfold Task.validate.
  destruct (decide (TaskModel.title t = "")) as [Ht|Ht].
  { rewrite bool_decide_eq_true_2 by done. split; [done | by intros [? _]]. }
  rewrite bool_decide_eq_false_2 by done.
  destruct (decide (TaskModel.status t ∈ Task.statuses)) as [Hs|Hs].
  { by rewrite bool_decide_eq_true_2 by done. }
  rewrite bool_decide_eq_false_2 by done. split; [done | by intros [_ ?]].
Qed.

Lemma email_taken_false db self e :
  User.email_taken db self e = false ↔
  ∀ k v, users db !! k = Some v → k ≠ self → UserModel.email v ≠ e.
Proof.
  unfold User.email_taken. rewrite bool_decide_eq_false, Exists_exists. split.
  - intros Hno k v Hk Hne He. apply Hno. exists (k, v). split; [|done].
    by apply elem_of_map_to_list.
  - intros Hall ([k v] & Hin & Hne & He). apply elem_of_map_to_list in Hin.
    by apply (Hall k v).
Qed.

Lemma findOne_email_None db e :
  User.findOne_email db e = None ↔ ∀ k v, users db !! k = Some v → UserModel.email v ≠ e.
Proof.
  unfold User.findOne_email. rewrite fmap_None, list_find_None, Forall_forall. split.
  - intros Hno k v Hk. apply (Hno (k, v)). by apply elem_of_map_to_list.
  - intros Hall [k v] Hin. apply elem_of_map_to_list in Hin. by apply (Hall k v).
Qed.

Lemma findOne_email_Some db e found :
  User.findOne_email db e = Some found →
  users db !! found.1 = Some found.2 ∧ UserModel.email found.2 = e.
Proof.
  unfold User.findOne_email. intros H. apply fmap_Some in H as ([i kv] & Hfind & ->).
  apply list_find_Some in Hfind as (Hin & He & _). simpl.
  split; [|done]. apply elem_of_map_to_list. destruct kv. by eapply list_elem_of_lookup_2.
Qed.

Lemma castString_truthy v : truthy v = true → castString v = Some (js_toString v).
Proof. by destruct v. Qed.

Lemma validateEmail_nonempty v : validateEmail v = true → js_toString v ≠ "".
Proof. unfold validateEmail. intros H He. rewrite He in H. done. Qed.

(** What a request that passes the validation block of [registerUser]
    carries. *)
Lemma register_errors_pass name email password :
  register_errors name email password = Ok [] →
  (∃ s, name = JStr s ∧ s ≠ "" ∧ (2 ≤ String.length (trim s))%nat)
  ∧ truthy email = true ∧ validateEmail email = true
  ∧ truthy password = true ∧ validatePassword password = [].
Proof.
  unfold register_errors, validateName.
  destruct name as [| |b|n|s]; try done; try (by destruct b); try (by destruct n).
  destruct (truthy (JStr s)) eqn:Hn; [|done].
  cbn [bind js_trim negb].
  destruct (2 <=? String.length (trim s))%nat eqn:Hlen; simpl; [|done].
  destruct (truthy email) eqn:He; simpl; [|done].
  destruct (validateEmail email) eqn:Hv; simpl; [|done].
  destruct (truthy password) eqn:Hp; simpl; [|done].
  intros [= Hpw]. split_and!; try done.
  exists s. split_and!; [done | by apply truthy_JStr | by apply Nat.leb_le].
Qed.

Section Effects.
Variable L : Lib.

Lemma registerUser_effect env req db :
  Effect db (registerUser L env req db).1
  ∧ (success (json (registerUser L env req db).2) = false →
     (registerUser L env req db).1 = db).
Proof.
  unfold registerUser.
  destruct (register_errors _ _ _) as [[|m errors]|e] eqn:Herr; simpl;
    [| split; [constructor | done] ..].
  apply register_errors_pass in Herr as ((s & Hname & Hs & _) & He & Hv & Hp & _).
  destruct (User.findOne_email db _); simpl; [split; [constructor | done]|].
  unfold User.create.
  match goal with |- context [User.validate ?x] => destruct (User.validate x) end;
    simpl; [|split; [constructor | done]].
  destruct (bool_decide (is_Some (users db !! new_ObjectId env))) eqn:Hdup; simpl;
    [split; [constructor | done]|].
  apply bool_decide_eq_false in Hdup. rewrite <- eq_None_not_Some in Hdup.
  destruct (User.email_taken db _ _) eqn:Htaken; simpl; [split; [constructor | done]|].
  split; [|done].
  apply effect_user_created; simpl; try done.
  - by rewrite Hname.
  - rewrite (castString_truthy _ He). simpl. by apply validateEmail_nonempty.
Qed.

Lemma loginUser_unchanged env req db : (loginUser L env req db).1 = db.
Proof.
  unfold loginUser.
  destruct (negb _ || negb _); simpl; [done|].
  destruct (User.findOne_email db _) as [found|]; simpl; [|done].
  destruct (matchPassword L found.2 _) as [[]|e]; done.
Qed.

Lemma updateUserProfile_effect env req db :
  Effect db (updateUserProfile L env req db).1
  ∧ (success (json (updateUserProfile L env req db).2) = false →
     (updateUserProfile L env req db).1 = db).
Proof.
  unfold updateUserProfile, User.findByOid.
  destruct (acting_id req) as [oid|]; simpl; [|split; [constructor | done]].
  destruct (users db !! oid) as [old|] eqn:Hold; simpl; [|split; [constructor | done]].
  destruct (profile_errors _ _ _) as [errors|e]; simpl; [|split; [constructor | done]].
  destruct (0 <? length errors)%nat; simpl; [split; [constructor | done]|].
  remember (assign_profile (field (body req) "name") (field (body req) "email")
              (field (body req) "password") old) as new eqn:Hnew.
  assert (Hcreated : UserModel.createdAt new = UserModel.createdAt old) by by subst new.
  clear Hnew. unfold User.save.
  destruct (User.validate new) as [[]|] eqn:Hvalid; simpl; [|split; [constructor | done]].
  apply User_validate_Ok in Hvalid as (Hn & He & _).
  destruct (bool_decide (new = old)); simpl; [split; [constructor | done]|].
  destruct (pre_save_fields L env
              (bool_decide (UserModel.password new ≠ UserModel.password old)) new)
    as (Hname & Hmail & _).
  destruct (bool_decide (UserModel.email _ ≠ UserModel.email old) && _) eqn:Hidx; simpl;
    [split; [constructor | done]|].
  split; [|done].
  apply effect_user_saved with (old := old); simpl; try done.
  - by rewrite Hname.
  - by rewrite Hmail.
  - apply andb_false_iff in Hidx as [Hsame | Hfree].
    + left. apply bool_decide_eq_false in Hsame. by apply dec_stable in Hsame.
    + by right.
  - by destruct (bool_decide (UserModel.password new ≠ UserModel.password old)).
Qed.

Lemma createTask_effect env req db :
  (∀ v, user req = Some v → is_Some (users db !! _id v)) →
  Effect db (createTask env req db).1
  ∧ (success (json (createTask env req db).2) = false → (createTask env req db).1 = db).
Proof.
  intros Hexists. unfold createTask.
  destruct (create_errors _ _) as [errors|e]; simpl; [|split; [constructor | done]].
  destruct (0 <? length errors)%nat; simpl; [split; [constructor | done]|].
  unfold Task.create, acting_id.
  destruct (user req) as [v|] eqn:Hu; simpl; [|split; [constructor | done]].
  match goal with |- context [Task.validate ?x] => destruct (Task.validate x) as [[]|] eqn:Hv end;
    simpl; [|split; [constructor | done]].
  destruct (bool_decide (is_Some (tasks db !! new_ObjectId env))) eqn:Hdup; simpl;
    [split; [constructor | done]|].
  apply bool_decide_eq_false in Hdup. rewrite <- eq_None_not_Some in Hdup.
  split; [|done]. apply effect_task_created; try done. simpl. by apply Hexists.
Qed.

Lemma updateTask_effect env req db :
  Effect db (updateTask env req db).1
  ∧ (success (json (updateTask env req db).2) = false → (updateTask env req db).1 = db).
Proof.
  unfold updateTask.
  destruct (update_errors _ _) as [errors|e]; simpl; [|split; [constructor | done]].
  destruct (0 <? length errors)%nat; simpl; [split; [constructor | done]|].
  unfold Task.findById.
  destruct (castObjectId (params_id req)) as [tid|]; simpl; [|split; [constructor | done]].
  destruct (tasks db !! tid) as [old|] eqn:Hold; simpl; [|split; [constructor | done]].
  destruct (owns req old); simpl; [|split; [constructor | done]].
  remember (assign_task (field (body req) "title") (field (body req) "description")
              (field (body req) "status") old) as new eqn:Hnew.
  assert (Hfix : TaskModel.user new = TaskModel.user old
                 ∧ TaskModel.createdAt new = TaskModel.createdAt old) by by subst new.
  clear Hnew. destruct Hfix as [Huser Hcreated]. unfold Task.save.
  destruct (Task.validate new) as [[]|] eqn:Hvalid; simpl; [|split; [constructor | done]].
  destruct (bool_decide (new = old)); simpl; [split; [constructor | done]|].
  split; [|done].
  by apply effect_task_saved with (old := old).
Qed.

Lemma deleteTask_effect req db :
  Effect db (deleteTask req db).1
  ∧ (success (json (deleteTask req db).2) = false → (deleteTask req db).1 = db).
Proof.
  unfold deleteTask, Task.findById.
  destruct (castObjectId (params_id req)) as [tid|]; simpl; [|split; [constructor | done]].
  destruct (tasks db !! tid) as [old|] eqn:Hold; simpl; [|split; [constructor | done]].
  destruct (owns req old); simpl; [|split; [constructor | done]].
  split; [|done]. by apply effect_task_deleted with (old := old).
Qed.

(** The user [protect] attaches is a stored user. *)
Lemma protect_Next_user env req db req' v :
  protect L env req db = Next req' → user req' = Some v → is_Some (users db !! _id v).
Proof.
  intros Hp Hv. apply (protect_Next L) in Hp as (d & oid & _ & _ & ->).
  simpl in Hv. destruct (users db !! oid) as [u|] eqn:Hu; simpl in Hv; [|done].
  injection Hv as <-. simpl. by rewrite Hu.
Qed.
End Effects.

Section Routes.
Variable L : Lib.

(** Every route performs at most one of the checked writes, and none when
    it answers with an error. *)
Lemma app_effect env r req db :
  Effect db (app L env r req db).1
  ∧ (success (json (app L env r req db).2) = false → (app L env r req db).1 = db).
Proof.
  destruct r; simpl; unfold protected;
    try (destruct (protect L env req db) as [resp|req'] eqn:Hp; simpl;
         [split; [constructor | done]|]);
    try (split; [constructor | done]).
  - apply registerUser_effect.
  - rewrite loginUser_unchanged. split; [constructor | done].
  - apply updateUserProfile_effect.
  - apply createTask_effect. intros v Hv. by eapply protect_Next_user.
  - apply updateTask_effect.
  - apply deleteTask_effect.
Qed.

(** A request answered with [success: false] changes nothing, on every
    route: validation errors, missing or foreign documents, refused tokens
    and caught exceptions all leave both collections as they were. *)
Theorem failed_request_changes_nothing env r req db :
  success (json (app L env r req db).2) = false → (app L env r req db).1 = db.
Proof. apply app_effect. Qed.

(** One request changes at most one stored document: there is an id such
    that every user and every task stored under another id is as before. *)
Theorem one_document_per_request env r req db :
  ∃ k, ∀ k', k' ≠ k →
    users (app L env r req db).1 !! k' = users db !! k'
    ∧ tasks (app L env r req db).1 !! k' = tasks db !! k'.
Proof.
  destruct (app_effect env r req db) as [Heff _].
  destruct Heff as [|oid u|oid old u|oid t|oid old t|oid old];
    try (exists oid; intros k' Hne; simpl; by rewrite ?lookup_insert_ne, ?lookup_delete_ne).
  by exists "".
Qed.

(** No route removes a user or changes a user's creation time, and no
    route changes the owner or the creation time of a task that stays
    stored. *)
Theorem users_stay_and_task_owner_is_fixed env r req db :
  (∀ i u, users db !! i = Some u →
     ∃ u', users (app L env r req db).1 !! i = Some u'
           ∧ UserModel.createdAt u' = UserModel.createdAt u)
  ∧ (∀ i t t', tasks db !! i = Some t → tasks (app L env r req db).1 !! i = Some t' →
       TaskModel.user t' = TaskModel.user t
       ∧ TaskModel.createdAt t' = TaskModel.createdAt t).
Proof.
  destruct (app_effect env r req db) as [Heff _].
  destruct Heff as [|oid u0 Hnew|oid old u0 Hold _ _ _ Hc|oid t0 Hnew|oid old t0 Hold _ Hu Hc
                   |oid old Hold]; simpl; split.
  - eauto.
  - intros i t t' Ht Ht'. rewrite Ht in Ht'. by injection Ht' as <-.
  - intros i u Hi. rewrite lookup_insert_ne by congruence. eauto.
  - intros i t t' Ht Ht'. rewrite Ht in Ht'. by injection Ht' as <-.
  - intros i u Hi. destruct (decide (oid = i)) as [->|Hne].
    + rewrite lookup_insert_eq. exists u0. split; [done|]. congruence.
    + rewrite lookup_insert_ne by done. eauto.
  - intros i t t' Ht Ht'. rewrite Ht in Ht'. by injection Ht' as <-.
  - eauto.
  - intros i t t' Ht Ht'. rewrite lookup_insert_ne in Ht' by congruence.
    rewrite Ht in Ht'. by injection Ht' as <-.
  - eauto.
  - intros i t t' Ht Ht'. destruct (decide (oid = i)) as [->|Hne].
    + rewrite lookup_insert_eq in Ht'. injection Ht' as <-. split; congruence.
    + rewrite lookup_insert_ne in Ht' by done. rewrite Ht in Ht'. by injection Ht' as <-.
  - eauto.
  - intros i t t' Ht Ht'. destruct (decide (oid = i)) as [->|Hne].
    + by rewrite lookup_delete_eq in Ht'.
    + rewrite lookup_delete_ne in Ht' by done. rewrite Ht in Ht'. by injection Ht' as <-.
Qed.

(** Email uniqueness is an invariant of the store under every route:
    registration checks [findOne] and the index, profile update relies on
    the index alone, and neither lets a second user take a stored email. *)
Theorem emails_stay_unique env r req db :
  emails_unique db → emails_unique (app L env r req db).1.
Proof.
  intros Huniq. destruct (app_effect env r req db) as [Heff _].
  destruct Heff as [|oid u0 Hnew _ _ Hfree|oid old u0 Hold _ _ Hmail _|oid t0|oid old t0
                   |oid old]; try done.
  - rewrite email_taken_false in Hfree.
    intros i j u v Hi Hj He. simpl in *.
    destruct (decide (i = oid)) as [->|Hi'], (decide (j = oid)) as [->|Hj']; try done.
    + rewrite lookup_insert_eq in Hi. rewrite lookup_insert_ne in Hj by congruence.
      injection Hi as <-. by destruct (Hfree j v Hj).
    + rewrite lookup_insert_eq in Hj. rewrite lookup_insert_ne in Hi by congruence.
      injection Hj as <-. by destruct (Hfree i u Hi).
    + rewrite lookup_insert_ne in Hi, Hj by congruence. by eapply Huniq.
  - intros i j u v Hi Hj He. simpl in *.
    assert (Hothers : ∀ k w, users db !! k = Some w → k ≠ oid →
                             UserModel.email w ≠ UserModel.email u0).
    { destruct Hmail as [Hsame|Hfree].
      - intros k w Hk Hne Hw. apply Hne. eapply Huniq; [done..|]. congruence.
      - by apply email_taken_false. }
    destruct (decide (i = oid)) as [->|Hi'], (decide (j = oid)) as [->|Hj']; try done.
    + rewrite lookup_insert_eq in Hi. rewrite lookup_insert_ne in Hj by congruence.
      injection Hi as <-. by destruct (Hothers j v Hj).
    + rewrite lookup_insert_eq in Hj. rewrite lookup_insert_ne in Hi by congruence.
      injection Hj as <-. by destruct (Hothers i u Hi).
    + rewrite lookup_insert_ne in Hi, Hj by congruence. by eapply Huniq.
Qed.

(** Every stored task keeps a non-empty title and a status among the three
    of the enumeration, under every route. *)
Theorem tasks_stay_valid env r req db :
  tasks_valid db → tasks_valid (app L env r req db).1.
Proof.
  intros Hvalid. destruct (app_effect env r req db) as [Heff _].
  destruct Heff as [|oid u0|oid old u0|oid t0 _ Hv _|oid old t0 _ Hv _ _|oid old]; try done.
  - intros i t. simpl. destruct (decide (oid = i)) as [->|Hne].
    + rewrite lookup_insert_eq. intros [= <-]. by apply Task_validate_Ok.
    + rewrite lookup_insert_ne by done. apply Hvalid.
  - intros i t. simpl. destruct (decide (oid = i)) as [->|Hne].
    + rewrite lookup_insert_eq. intros [= <-]. by apply Task_validate_Ok.
    + rewrite lookup_insert_ne by done. apply Hvalid.
  - intros i t. simpl. destruct (decide (oid = i)) as [->|Hne].
    + by rewrite lookup_delete_eq.
    + rewrite lookup_delete_ne by done. apply Hvalid.
Qed.

(** The owner of every stored task is a stored user, under every route:
    a task is created only for the user the middleware found, and users
    are never removed. *)
Theorem task_owners_stay_stored env r req db :
  owners_exist db → owners_exist (app L env r req db).1.
Proof.
  intros Hown. destruct (app_effect env r req db) as [Heff _].
  destruct Heff as [|oid u0|oid old u0 Hold|oid t0 _ _ Ho|oid old t0 Hold _ Hu _|oid old];
    try done; intros i t; simpl.
  - intros Ht. destruct (decide (oid = TaskModel.user t)) as [->|Hne].
    + by rewrite lookup_insert_eq.
    + rewrite lookup_insert_ne by done. by eapply Hown.
  - intros Ht. destruct (decide (oid = TaskModel.user t)) as [->|Hne].
    + by rewrite lookup_insert_eq.
    + rewrite lookup_insert_ne by done. by eapply Hown.
  - destruct (decide (oid = i)) as [->|Hne].
    + rewrite lookup_insert_eq. by intros [= <-].
    + rewrite lookup_insert_ne by done. apply Hown.
  - destruct (decide (oid = i)) as [->|Hne].
    + rewrite lookup_insert_eq. intros [= <-]. rewrite Hu. by eapply Hown.
    + rewrite lookup_insert_ne by done. apply Hown.
  - destruct (decide (oid = i)) as [->|Hne].
    + by rewrite lookup_delete_eq.
    + rewrite lookup_delete_ne by done. apply Hown.
Qed.
End Routes.

(** The store of the scenarios satisfies the three invariants. *)
Lemma Scenario_emails_unique : emails_unique Scenario.db.
Proof.
  intros i j u v Hi Hj He. unfold Scenario.db in *. simpl in *.
  apply lookup_insert_Some in Hi as [[<- <-]|[_ Hi]];
    [|apply lookup_insert_Some in Hi as [[<- <-]|[_ Hi]]; [|by rewrite lookup_empty in Hi]];
    (apply lookup_insert_Some in Hj as [[<- <-]|[_ Hj]];
     [|apply lookup_insert_Some in Hj as [[<- <-]|[_ Hj]]; [|by rewrite lookup_empty in Hj]]);
    done.
Qed.

Lemma Scenario_tasks_valid : tasks_valid Scenario.db.
Proof.
  intros i t Ht. unfold Scenario.db in Ht. simpl in Ht.
  apply lookup_insert_Some in Ht as [[<- <-]|[_ Ht]]; [|by rewrite lookup_empty in Ht].
  split; [done|]. simpl. set_solver.
Qed.

Lemma Scenario_owners_exist : owners_exist Scenario.db.
Proof.
  intros i t Ht. unfold Scenario.db in Ht. simpl in Ht.
  apply lookup_insert_Some in Ht as [[<- <-]|[_ Ht]]; [|by rewrite lookup_empty in Ht].
  by eexists.
Qed.

(** Bob's update of Alice's task with a status outside the enumeration. *)
Lemma failed_request_changes_nothing_witness :
  let req := Scenario.incoming "s3cret.65b000000000000000000002" Scenario.task_id []
               [("status", JStr "done")] in
  success (json (app sampleLib Scenario.env PUT_task req Scenario.db).2) = false
  ∧ (app sampleLib Scenario.env PUT_task req Scenario.db).1 = Scenario.db.
Proof.
  intros req.
  assert (H : success (json (app sampleLib Scenario.env PUT_task req Scenario.db).2) = false)
    by evaluate.
  split; [exact H|].
  exact (failed_request_changes_nothing sampleLib Scenario.env PUT_task req Scenario.db H).
Defined.

(** Bob moves to a new email address. *)
Lemma emails_stay_unique_witness :
  let req := Scenario.incoming "s3cret.65b000000000000000000002" "" []
               [("email", JStr "bob@y.org")] in
  statusCode (app sampleLib Scenario.env PUT_me req Scenario.db).2 = 200%Z
  ∧ emails_unique (app sampleLib Scenario.env PUT_me req Scenario.db).1.
Proof.
  intros req. split; [evaluate|].
  exact (emails_stay_unique sampleLib Scenario.env PUT_me req Scenario.db
           Scenario_emails_unique).
Defined.

(** Alice renames her task and marks it completed. *)
Lemma tasks_stay_valid_witness :
  let req := Scenario.incoming "s3cret.65a000000000000000000001" Scenario.task_id []
               [("title", JStr "T1 done"); ("status", JStr "completed")] in
  statusCode (app sampleLib Scenario.env PUT_task req Scenario.db).2 = 200%Z
  ∧ tasks_valid (app sampleLib Scenario.env PUT_task req Scenario.db).1.
Proof.
  intros req. split; [evaluate|].
  exact (tasks_stay_valid sampleLib Scenario.env PUT_task req Scenario.db
           Scenario_tasks_valid).
Defined.

(** Bob creates his first task. *)
Lemma task_owners_stay_stored_witness :
  let req := Scenario.incoming "s3cret.65b000000000000000000002" "" []
               [("title", JStr "Bob's task")] in
  statusCode (app sampleLib Scenario.env POST_tasks req Scenario.db).2 = 201%Z
  ∧ owners_exist (app sampleLib Scenario.env POST_tasks req Scenario.db).1.
Proof.
  intros req. split; [evaluate|].
  exact (task_owners_stay_stored sampleLib Scenario.env POST_tasks req Scenario.db
           Scenario_owners_exist).
Defined.

(** ** The shape of every answer *)

Ltac envelope :=
  unfold envelope_ok; simpl;
  first [ left; split_and!; [done | auto | by eexists | done]
        | right; split_and!; [done | auto 6 | done] ].

Ltac answer := split; [envelope | done].

Section Answers.
Variable L : Lib.

Lemma registerUser_answer env req db : envelope_ok (registerUser L env req db).2.
Proof.
  unfold registerUser.
  destruct (register_errors _ _ _) as [errors|e]; simpl; [|envelope].
  destruct (0 <? length errors)%nat; simpl; [envelope|].
  destruct (User.findOne_email db _); simpl; [envelope|].
  destruct (User.create L env _ _ _ db); simpl; envelope.
Qed.

Lemma loginUser_answer env req db : envelope_ok (loginUser L env req db).2.
Proof.
  unfold loginUser.
  destruct (negb _ || negb _); simpl; [envelope|].
  destruct (User.findOne_email db _) as [found|]; simpl; [|envelope].
  destruct (matchPassword L found.2 _) as [[]|e]; simpl; envelope.
Qed.

Lemma getUserProfile_answer req db :
  envelope_ok (getUserProfile req db) ∧ statusCode (getUserProfile req db) ≠ 401%Z.
Proof.
  unfold getUserProfile.
  destruct (acting_id req); [|answer].
  match goal with |- context [User.findByOid ?a ?b] => destruct (User.findByOid a b) end;
    answer.
Qed.

Lemma updateUserProfile_answer env req db :
  envelope_ok (updateUserProfile L env req db).2
  ∧ statusCode (updateUserProfile L env req db).2 ≠ 401%Z.
Proof.
  unfold updateUserProfile.
  unfold User.findByOid.
  destruct (acting_id req) as [oid|]; simpl; [|answer].
  destruct (users db !! oid); simpl; [|answer].
  destruct (profile_errors _ _ _) as [errors|e]; simpl; [|answer].
  destruct (0 <? length errors)%nat; simpl; [answer|].
  destruct (User.save L env _ _ _ db); simpl; answer.
Qed.

Lemma getTasks_answer req db :
  envelope_ok (getTasks L req db) ∧ statusCode (getTasks L req db) ≠ 401%Z.
Proof. unfold getTasks. destruct (TaskQuery.find L _ _ _ db); answer. Qed.

Lemma getTaskById_answer req db :
  envelope_ok (getTaskById req db) ∧ statusCode (getTaskById req db) ≠ 401%Z.
Proof.
  unfold getTaskById. destruct (Task.findById db _) as [[task|]|e]; [|answer..].
  destruct (owns req task.2); answer.
Qed.

Lemma createTask_answer env req db :
  envelope_ok (createTask env req db).2 ∧ statusCode (createTask env req db).2 ≠ 401%Z.
Proof.
  unfold createTask.
  destruct (create_errors _ _) as [errors|e]; simpl; [|answer].
  destruct (0 <? length errors)%nat; simpl; [answer|].
  destruct (Task.create env _ _ _ _ db); simpl; answer.
Qed.

Lemma updateTask_answer env req db :
  envelope_ok (updateTask env req db).2 ∧ statusCode (updateTask env req db).2 ≠ 401%Z.
Proof.
  unfold updateTask.
  destruct (update_errors _ _) as [errors|e]; simpl; [|answer].
  destruct (0 <? length errors)%nat; simpl; [answer|].
  destruct (Task.findById db _) as [[task|]|e]; simpl; [|answer..].
  destruct (owns req task.2); [|answer].
  destruct (Task.save env _ _ _ db); simpl; answer.
Qed.

Lemma deleteTask_answer req db :
  envelope_ok (deleteTask req db).2 ∧ statusCode (deleteTask req db).2 ≠ 401%Z.
Proof.
  unfold deleteTask.
  destruct (Task.findById db _) as [[task|]|e]; simpl; [|answer..].
  destruct (owns req task.2); answer.
Qed.

(** Every answer of every route to a request with a parsed body has one
    of the two shapes of the envelope. *)
Lemma app_answer_envelope env r req db :
  envelope_ok (app L env r req db).2.
Proof.
  destruct r; simpl; unfold protected;
    try (destruct (protect L env req db) as [resp|req'] eqn:Hp; simpl;
         [unfold protect in Hp; destruct (has_bearer req);
          [destruct (protect_try L env req db); [done|]|];
          injection Hp as <-; envelope|]).
  - apply registerUser_answer.
  - apply loginUser_answer.
  - apply getUserProfile_answer.
  - apply updateUserProfile_answer.
  - apply getTasks_answer.
  - apply createTask_answer.
  - apply getTaskById_answer.
  - apply updateTask_answer.
  - apply deleteTask_answer.
Qed.

(** On the seven routes behind the middleware, an answer other than 401 was
    computed by the handler for a request whose token verified and whose
    embedded id is a well-formed object id: no handler answers 401 itself,
    and no handler runs when the middleware refused. *)
Theorem protected_route_needs_verified_token env r req db :
  is_protected r = true →
  statusCode (app L env r req db).2 ≠ 401%Z →
  has_bearer req = true
  ∧ ∃ d oid, verify_call L env (bearer_token req) = Ok d ∧ castObjectId (id d) = Some oid.
Proof.
  intros Hr Hcode.
  assert (Hnext : ∃ req', protect L env req db = Next req').
  { destruct r; try done; simpl in Hcode; unfold protected in Hcode;
      (destruct (protect L env req db) as [resp|req'] eqn:Hp; [|by eexists]);
      apply (protect_Sent L) in Hp; simpl in Hcode; done. }
  destruct Hnext as [req' Hp]. split.
  - unfold protect in Hp. by destruct (has_bearer req).
  - apply (protect_Next L) in Hp as (d & oid & Hv & Hc & _). eauto.
Qed.

(** And a 401 on those routes comes from the middleware alone. *)
Lemma protected_route_401 env r req db :
  is_protected r = true →
  statusCode (app L env r req db).2 = 401%Z →
  (app L env r req db).2 = noToken ∨ (app L env r req db).2 = tokenFailed.
Proof.
  intros Hr. destruct r; try done; simpl; unfold protected;
    (destruct (protect L env req db) as [resp|req'] eqn:Hp; simpl;
     [intros _; unfold protect in Hp; destruct (has_bearer req);
      [destruct (protect_try L env req db); [done|]|]; injection Hp as <-; auto|]);
    intros Hcode; exfalso.
  - by apply (getUserProfile_answer req' db).
  - by apply (updateUserProfile_answer env req' db).
  - by apply (getTasks_answer req' db).
  - by apply (createTask_answer env req' db).
  - by apply (getTaskById_answer req' db).
  - by apply (updateTask_answer env req' db).
  - by apply (deleteTask_answer req' db).
Qed.
End Answers.

(** Alice lists her tasks. *)
Lemma protected_route_needs_verified_token_witness :
  let req := Scenario.incoming "s3cret.65a000000000000000000001" "" [] [] in
  (is_protected GET_tasks = true
   ∧ statusCode (app sampleLib Scenario.env GET_tasks req Scenario.db).2 ≠ 401%Z)
  ∧ has_bearer req = true
  ∧ ∃ d oid, verify_call sampleLib Scenario.env (bearer_token req) = Ok d
             ∧ castObjectId (id d) = Some oid.
Proof.
  intros req.
  assert (H1 : is_protected GET_tasks = true) by reflexivity.
  assert (H2 : statusCode (app sampleLib Scenario.env GET_tasks req Scenario.db).2 ≠ 401%Z)
    by (vm_compute; discriminate).
  split; [split; assumption|].
  exact (protected_route_needs_verified_token sampleLib Scenario.env GET_tasks req
           Scenario.db H1 H2).
Defined.

(** ** Registration followed by other requests *)

Section AfterRegistration.
Variable L : Lib.

(** Everything a 201 answer of [registerUser] tells. *)
Lemma registerUser_created env req db :
  statusCode (registerUser L env req db).2 = 201%Z →
  let name := field (body req) "name" in
  let email := field (body req) "email" in
  let password := field (body req) "password" in
  ∃ u,
    registerUser L env req db
    = ({| users := <[new_ObjectId env := u]> (users db); tasks := tasks db |},
       sendSuccess 201 (PAuth (new_ObjectId env) (UserModel.name u) (UserModel.email u)
                          (generateToken L env (new_ObjectId env)))
         "User registered successfully")
    ∧ register_errors name email password = Ok []
    ∧ User.findOne_email db (js_toString email) = None
    ∧ users db !! new_ObjectId env = None
    ∧ UserModel.name u = js_toString name
    ∧ UserModel.email u = js_toString email
    ∧ UserModel.password u = bcrypt_hash L (js_toString password) (genSalt env).
Proof.
  intros H name email password. revert H. unfold registerUser. fold name email password.
  destruct (register_errors name email password) as [[|m errors]|e] eqn:Herr; simpl; try done.
  pose proof (register_errors_pass _ _ _ Herr) as ((s & Hname & _ & _) & He & _ & Hp & _).
  destruct (User.findOne_email db (js_toString email)) eqn:Hfind; simpl; [done|].
  unfold User.create.
  match goal with |- context [User.validate ?x] => destruct (User.validate x) end;
    simpl; [|done].
  destruct (bool_decide (is_Some (users db !! new_ObjectId env))) eqn:Hdup; simpl; [done|].
  apply bool_decide_eq_false in Hdup. rewrite <- eq_None_not_Some in Hdup.
  destruct (User.email_taken db _ _); simpl; [done|].
  intros _.
  match goal with |- context [<[_ := ?u]> _] => exists u end.
  split_and!; try done; simpl.
  - by rewrite Hname.
  - by rewrite (castString_truthy _ He).
  - by rewrite (castString_truthy _ Hp).
Qed.

(** After a registration, the lookup by the registered email finds the new
    user and nobody else. *)
Lemma findOne_after_registration env req db u :
  User.findOne_email db (js_toString (field (body req) "email")) = None →
  UserModel.email u = js_toString (field (body req) "email") →
  User.findOne_email
    {| users := <[new_ObjectId env := u]> (users db); tasks := tasks db |}
    (js_toString (field (body req) "email"))
  = Some (new_ObjectId env, u).
Proof.
  intros Hnone Hmail. rewrite findOne_email_None in Hnone.
  destruct (User.findOne_email _ _) as [found|] eqn:Hfind.
  - apply findOne_email_Some in Hfind as [Hin He]. simpl in Hin.
    apply lookup_insert_Some in Hin as [[Hk Hv]|[_ Hin]].
    + destruct found. simpl in *. by subst.
    + by destruct (Hnone _ _ Hin).
  - rewrite findOne_email_None in Hfind. simpl in Hfind.
    destruct (Hfind (new_ObjectId env) u); [by rewrite lookup_insert_eq | done].
Qed.

(** Registration, then login with the same email and password: under the
    library's law that the password matches the hash made of it, the login
    is answered with 200 and carries the id, name and email of the user the
    registration created, and a token issued for that id. *)
Theorem login_after_registration env env' req req' db p :
  bcrypt_compare L p (bcrypt_hash L p (genSalt env)) = true →
  statusCode (registerUser L env req db).2 = 201%Z →
  field (body req) "password" = JStr p →
  field (body req') "email" = field (body req) "email" →
  field (body req') "password" = JStr p →
  ∃ u, users (registerUser L env req db).1 !! new_ObjectId env = Some u
       ∧ loginUser L env' req' (registerUser L env req db).1
         = ((registerUser L env req db).1,
            sendSuccess 200
              (PAuth (new_ObjectId env) (UserModel.name u) (UserModel.email u)
                 (generateToken L env' (new_ObjectId env)))
              "Login successful").
Proof.
  intros Hlaw H201 Hp Hmail' Hp'.
  destruct (registerUser_created env req db H201)
    as (u & Hreg & Herr & Hnone & _ & _ & Hmail & Hpw).
  apply register_errors_pass in Herr as (_ & He & _ & Hpt & _).
  rewrite Hreg. simpl. exists u. rewrite lookup_insert_eq. split; [done|].
  unfold loginUser. rewrite Hmail', Hp', He. rewrite Hp in Hpt. rewrite Hpt. simpl.
  rewrite (findOne_after_registration env req db u Hnone Hmail). simpl.
  rewrite Hpw, Hp. simpl. by rewrite Hlaw.
Qed.

(** A password that is a JSON number, a safe integer, passes the
    validation of [registerUser] whatever its length and is stored hashed
    as its decimal form; a login that sends the same number is then
    answered with the 500 envelope, because the comparison rejects an
    argument that is no string. *)
Theorem number_password_registers_but_cannot_log_in env env' req req' db n :
  safe_integer n = true →
  statusCode (registerUser L env req db).2 = 201%Z →
  field (body req) "password" = JNum n →
  field (body req') "email" = field (body req) "email" →
  field (body req') "password" = JNum n →
  (∃ u, users (registerUser L env req db).1 !! new_ObjectId env = Some u
        ∧ UserModel.password u = bcrypt_hash L (pretty n) (genSalt env))
  ∧ loginUser L env' req' (registerUser L env req db).1
    = ((registerUser L env req db).1, serverError (IllegalArguments (JNum n))).
Proof.
  intros _ H201 Hp Hmail' Hp'.
  destruct (registerUser_created env req db H201)
    as (u & Hreg & Herr & Hnone & _ & _ & Hmail & Hpw).
  apply register_errors_pass in Herr as (_ & He & _ & Hpt & _).
  rewrite Hreg. simpl. split.
  - exists u. rewrite lookup_insert_eq. split; [done|]. by rewrite Hpw, Hp.
  - unfold loginUser. rewrite Hmail', Hp', He. rewrite Hp in Hpt. rewrite Hpt. simpl.
    by rewrite (findOne_after_registration env req db u Hnone Hmail).
Qed.

(** Registering a second time with the same body, at any later moment, is
    answered with 400 "Email is already registered" and stores nothing. *)
Theorem second_registration_is_a_conflict env env' req req' db :
  statusCode (registerUser L env req db).2 = 201%Z →
  body req' = body req →
  registerUser L env' req' (registerUser L env req db).1
  = ((registerUser L env req db).1, sendError 400 "Email is already registered" None).
Proof.
  intros H201 Hbody.
  destruct (registerUser_created env req db H201)
    as (u & Hreg & Herr & Hnone & _ & _ & Hmail & _).
  rewrite Hreg. simpl. unfold registerUser at 1. rewrite Hbody, Herr. simpl.
  by rewrite (findOne_after_registration env req db u Hnone Hmail).
Qed.
End AfterRegistration.

(** Jo registers and logs in two seconds later. *)
Lemma login_after_registration_witness :
  let req := Scenario.request None "" []
               [("name", JStr "Jo"); ("email", JStr "jo@x.com"); ("password", JStr "secret1")] in
  let req' := Scenario.request None "" []
                [("email", JStr "jo@x.com"); ("password", JStr "secret1")] in
  let env' := Walkthrough.env 1700000002000 "65d000000000000000000005" in
  ∃ u, users (registerUser sampleLib Scenario.env req Scenario.db).1
         !! new_ObjectId Scenario.env = Some u
       ∧ loginUser sampleLib env' req' (registerUser sampleLib Scenario.env req Scenario.db).1
         = ((registerUser sampleLib Scenario.env req Scenario.db).1,
            sendSuccess 200
              (PAuth (new_ObjectId Scenario.env) (UserModel.name u) (UserModel.email u)
                 (generateToken sampleLib env' (new_ObjectId Scenario.env)))
              "Login successful").
Proof.
  intros req req' env'.
  apply (login_after_registration sampleLib Scenario.env env' req req' Scenario.db "secret1").
  - evaluate.
  - evaluate.
  - reflexivity.
  - reflexivity.
  - reflexivity.
Defined.

(** Jo registers with the password 42 and tries to log in with it. *)
Lemma number_password_registers_but_cannot_log_in_witness :
  let req := Scenario.request None "" []
               [("name", JStr "Jo"); ("email", JStr "jo@x.com"); ("password", JNum 42)] in
  let req' := Scenario.request None "" [] [("email", JStr "jo@x.com"); ("password", JNum 42)] in
  (∃ u, users (registerUser sampleLib Scenario.env req Scenario.db).1
          !! new_ObjectId Scenario.env = Some u
        ∧ UserModel.password u = bcrypt_hash sampleLib (pretty 42%Z) (genSalt Scenario.env))
  ∧ loginUser sampleLib Scenario.env req' (registerUser sampleLib Scenario.env req Scenario.db).1
    = ((registerUser sampleLib Scenario.env req Scenario.db).1,
       serverError (IllegalArguments (JNum 42))).
Proof.
  intros req req'.
  apply (number_password_registers_but_cannot_log_in sampleLib Scenario.env Scenario.env
           req req' Scenario.db 42).
  - reflexivity.
  - evaluate.
  - reflexivity.
  - reflexivity.
  - reflexivity.
Defined.

(** Jo registers twice. *)
Lemma second_registration_is_a_conflict_witness :
  let req := Scenario.request None "" []
               [("name", JStr "Jo"); ("email", JStr "jo@x.com"); ("password", JStr "secret1")] in
  let env' := Walkthrough.env 1700000002000 "65d000000000000000000005" in
  registerUser sampleLib env' req (registerUser sampleLib Scenario.env req Scenario.db).1
  = ((registerUser sampleLib Scenario.env req Scenario.db).1,
     sendError 400 "Email is already registered" None).
Proof.
  intros req env'.
  apply (second_registration_is_a_conflict sampleLib Scenario.env env' req req Scenario.db).
  - evaluate.
  - reflexivity.
Defined.

(** ** Creation, lookup, deletion and listing of tasks *)

(** What a request that passes the validation block of [createTask]
    carries. *)
Lemma create_errors_pass title status :
  create_errors title status = Ok [] →
  (∃ s, title = JStr s ∧ (0 < String.length (trim s))%nat)
  ∧ (truthy status = true → ∃ v, status = JStr v ∧ v ∈ Task.statuses).
Proof.
  unfold create_errors, validateTaskTitle, status_error.
  destruct title as [| |b|n|s]; try done; try (by destruct b); try (by destruct n).
  destruct (truthy (JStr s)) eqn:Hs; [|done].
  cbn [bind js_trim negb].
  destruct (0 <? String.length (trim s))%nat eqn:Hlen; simpl; [|done].
  assert (Htitle : ∃ s0, JStr s = JStr s0 ∧ (0 < String.length (trim s0))%nat)
    by (exists s; split; [done | by apply Nat.ltb_lt]).
  case_bool_decide as Hin; destruct (truthy status); simpl; try done;
    intros _; (split; [done|]); [|done..].
  intros _. simpl in Hin.
  apply elem_of_cons in Hin as [->|Hin]; [exists "pending"; split; [done | by left]|].
  apply elem_of_cons in Hin as [->|Hin];
    [exists "in_progress"; split; [done | by right; left]|].
  apply elem_of_cons in Hin as [->|Hin];
    [exists "completed"; split; [done | by right; right; left]|].
  by apply elem_of_nil in Hin.
Qed.

(** What [createTask] did when it answered 201. *)
Lemma createTask_created env req db :
  statusCode (createTask env req db).2 = 201%Z →
  ∃ s uid t,
    field (body req) "title" = JStr s ∧ (0 < String.length (trim s))%nat
    ∧ acting_id req = Some uid
    ∧ tasks db !! new_ObjectId env = None
    ∧ createTask env req db
      = ({| users := users db; tasks := <[new_ObjectId env := t]> (tasks db) |},
         sendSuccess 201 (PTask (new_ObjectId env) t) "Task created successfully")
    ∧ t = {| TaskModel.title := s;
             TaskModel.description := castString (field (body req) "description");
             TaskModel.status := (if truthy (field (body req) "status")
                                  then js_toString (field (body req) "status")
                                  else "pending");
             TaskModel.user := uid;
             TaskModel.createdAt := Date_now env;
             TaskModel.updatedAt := Date_now env |}
    ∧ TaskModel.status t ∈ Task.statuses.
Proof.
  unfold createTask.
  destruct (create_errors _ _) as [[|m errors]|e] eqn:Herr; simpl; try done.
  apply create_errors_pass in Herr as ((s & Htitle & Hlen) & Hstatus).
  unfold Task.create.
  destruct (acting_id req) as [uid|]; simpl; [|done].
  match goal with |- context [Task.validate ?x] => destruct (Task.validate x) as [[]|] eqn:Hv end;
    simpl; [|done].
  destruct (bool_decide (is_Some (tasks db !! new_ObjectId env))) eqn:Hdup; simpl; [done|].
  apply bool_decide_eq_false in Hdup. rewrite <- eq_None_not_Some in Hdup.
  intros _. apply Task_validate_Ok in Hv as [_ Hin]. simpl in Hin.
  exists s, uid. eexists. split_and!; try done.
  rewrite Htitle. simpl. unfold js_or.
  destruct (truthy (field (body req) "status")) eqn:Ht; [|done].
  by rewrite (castString_truthy _ Ht).
Qed.

(** A 201 answer of [createTask]: the task is stored under the new id with
    the title as it was sent, not trimmed; the description as it was sent
    when it is a string, its decimal form when it is a safe integer, and
    none when the body has none; the supplied status or [pending]; the
    acting user as owner; and the clock as both timestamps. *)
Theorem created_task_is_stored_verbatim env req db :
  statusCode (createTask env req db).2 = 201%Z →
  ∃ s uid t,
    field (body req) "title" = JStr s ∧ (0 < String.length (trim s))%nat
    ∧ acting_id req = Some uid
    ∧ tasks db !! new_ObjectId env = None
    ∧ createTask env req db
      = ({| users := users db; tasks := <[new_ObjectId env := t]> (tasks db) |},
         sendSuccess 201 (PTask (new_ObjectId env) t) "Task created successfully")
    ∧ TaskModel.title t = s
    ∧ (∀ d, field (body req) "description" = JStr d → TaskModel.description t = Some d)
    ∧ (∀ n, field (body req) "description" = JNum n → safe_integer n = true →
         TaskModel.description t = Some (pretty n))
    ∧ (field (body req) "description" = JUndefined → TaskModel.description t = None)
    ∧ TaskModel.status t = (if truthy (field (body req) "status")
                            then js_toString (field (body req) "status")
                            else "pending")
    ∧ TaskModel.status t ∈ Task.statuses
    ∧ TaskModel.user t = uid
    ∧ TaskModel.createdAt t = Date_now env
    ∧ TaskModel.updatedAt t = Date_now env.
Proof.
  intros H201.
  destruct (createTask_created env req db H201)
    as (s & uid & t & Htitle & Hlen & Hact & Hnew & Hcreate & Ht & Hin).
  exists s, uid, t. split_and!; try done; subst t; simpl; try done.
  - by intros d ->.
  - by intros n -> _.
  - by intros ->.
Qed.

(** Create, then get by the new id as the same user: the answer is 200 with
    the very task the creation answered with.  The new id is taken to be in
    the form an object id prints. *)
Theorem get_after_create env req req' db :
  statusCode (createTask env req db).2 = 201%Z →
  castObjectId (params_id req') = Some (new_ObjectId env) →
  user req' = user req →
  ∃ t, (createTask env req db).2
       = sendSuccess 201 (PTask (new_ObjectId env) t) "Task created successfully"
       ∧ getTaskById req' (createTask env req db).1
         = sendSuccess 200 (PTask (new_ObjectId env) t) "Task retrieved successfully".
Proof.
  intros H201 Hid Huser.
  destruct (createTask_created env req db H201)
    as (s & uid & t & _ & _ & Hact & _ & Hcreate & Ht & _).
  exists t. rewrite Hcreate. simpl. split; [done|].
  unfold getTaskById. rewrite (Task_findById_cast _ _ _ Hid). simpl.
  rewrite lookup_insert_eq. simpl.
  assert (Ho : owns req' t = true).
  { apply owns_true. unfold acting_id in *. rewrite Huser, Hact. by rewrite Ht. }
  by rewrite Ho.
Qed.

(** Delete by the owner: the answer is 200 with null data, exactly that
    task is removed, a get or a second delete by the same id is answered
    with the 404 envelope, and no list of any user holds the id any more. *)
Theorem delete_by_owner L req db tid t :
  castObjectId (params_id req) = Some tid → tasks db !! tid = Some t →
  acting_id req = Some (TaskModel.user t) →
  deleteTask req db
  = ({| users := users db; tasks := delete tid (tasks db) |},
     sendSuccess 200 PNull "Task deleted successfully")
  ∧ getTaskById req (deleteTask req db).1 = notFound
  ∧ deleteTask req (deleteTask req db).1 = ((deleteTask req db).1, notFound)
  ∧ ∀ req' l t', data (json (getTasks L req' (deleteTask req db).1)) = Some (PTasks l) →
                 (tid, t') ∉ l.
Proof.
  intros Hid Ht Ho.
  assert (Hdel : deleteTask req db
                 = ({| users := users db; tasks := delete tid (tasks db) |},
                    sendSuccess 200 PNull "Task deleted successfully")).
  { unfold deleteTask. rewrite (Task_findById_cast _ _ _ Hid), Ht. simpl.
    by rewrite (proj2 (owns_true _ _) Ho). }
  rewrite Hdel. simpl. split_and!; [done | | |].
  - unfold getTaskById. rewrite (Task_findById_cast _ _ _ Hid). simpl.
    by rewrite lookup_delete_eq.
  - unfold deleteTask. rewrite (Task_findById_cast _ _ _ Hid). simpl.
    by rewrite lookup_delete_eq.
  - intros req' l t' Hl Hin. apply getTasks_data in Hl.
    destruct (TaskQuery_find_elem _ _ _ _ _ _ _ Hl Hin) as (Hk & _). simpl in Hk.
    by rewrite lookup_delete_eq in Hk.
Qed.

(** Whatever the search pattern and the library, a list that is answered
    is ordered newest first, holds no entry twice, and every entry is a
    stored task of the acting user with the requested status. *)
Theorem task_list_for_any_pattern L req db l :
  data (json (getTasks L req db)) = Some (PTasks l) →
  StronglySorted newest_first l
  ∧ NoDup l
  ∧ ∀ kv, kv ∈ l →
      tasks db !! kv.1 = Some kv.2
      ∧ (∀ B, user req = Some B → TaskModel.user kv.2 = _id B)
      ∧ (∀ v, query_param req "status" = Some v → TaskModel.status kv.2 = v).
Proof.
  intros Hl. apply getTasks_data in Hl. split_and!.
  - unfold TaskQuery.find in Hl. apply bind_Ok in Hl as (re & _ & [= <-]).
    apply StronglySorted_merge_sort; apply _.
  - unfold TaskQuery.find in Hl. apply bind_Ok in Hl as (re & _ & [= <-]).
    rewrite merge_sort_Permutation.
    apply NoDup_ListNoDup, List.NoDup_filter, NoDup_ListNoDup, NoDup_map_to_list.
  - intros kv Hin.
    destruct (TaskQuery_find_elem _ _ _ _ _ _ _ Hl Hin) as (Hk & Ho & Hs).
    split_and!; [done | |].
    + intros B HB. unfold acting_id in Ho. rewrite HB in Ho. simpl in Ho.
      by apply bool_decide_eq_true in Ho.
    + intros v Hv. rewrite Hv in Hs. simpl in Hs. by apply bool_decide_eq_true in Hs.
Qed.

(** A status parameter outside the enumeration is not refused: on a store
    whose tasks pass their validators, and with no search pattern or one
    that compiles, [getTasks] answers 200 with the empty list. *)
Theorem unknown_status_lists_nothing L req db v :
  tasks_valid db → query_param req "status" = Some v → v ∉ Task.statuses →
  (∀ p, query_param req "search" = Some p → is_Some (regex_i L p)) →
  getTasks L req db = sendSuccess 200 (PTasks []) "Tasks retrieved successfully".
Proof.
  intros Hvalid Hv Hnot Hre.
  assert (Hfound : ∃ l, TaskQuery.find L (acting_id req) (query_param req "search")
                          (query_param req "status") db = Ok l).
  { unfold TaskQuery.find. destruct (query_param req "search") as [p|]; [|by eexists].
    destruct (Hre p eq_refl) as [m ->]. by eexists. }
  destruct Hfound as [l Hl]. unfold getTasks. rewrite Hl.
  destruct l as [|kv l]; [done|]. exfalso.
  destruct (TaskQuery_find_elem _ _ _ _ _ _ _ Hl (list_elem_of_here kv l)) as (Hk & _ & Hs).
  rewrite Hv in Hs. simpl in Hs. apply bool_decide_eq_true in Hs.
  apply Hvalid in Hk as [_ Hin]. by rewrite Hs in Hin.
Qed.

(** Alice creates a task whose title has spaces around it. *)
Lemma created_task_is_stored_verbatim_witness :
  let req := Scenario.request (Some Scenario.alice_view) "" []
               [("title", JStr "  T2  "); ("description", JNum 7)] in
  ∃ s uid t,
    field (body req) "title" = JStr s ∧ (0 < String.length (trim s))%nat
    ∧ acting_id req = Some uid
    ∧ tasks Scenario.db !! new_ObjectId Scenario.env = None
    ∧ createTask Scenario.env req Scenario.db
      = ({| users := users Scenario.db;
            tasks := <[new_ObjectId Scenario.env := t]> (tasks Scenario.db) |},
         sendSuccess 201 (PTask (new_ObjectId Scenario.env) t) "Task created successfully")
    ∧ TaskModel.title t = s
    ∧ (∀ d, field (body req) "description" = JStr d → TaskModel.description t = Some d)
    ∧ (∀ n, field (body req) "description" = JNum n → safe_integer n = true →
         TaskModel.description t = Some (pretty n))
    ∧ (field (body req) "description" = JUndefined → TaskModel.description t = None)
    ∧ TaskModel.status t = (if truthy (field (body req) "status")
                            then js_toString (field (body req) "status")
                            else "pending")
    ∧ TaskModel.status t ∈ Task.statuses
    ∧ TaskModel.user t = uid
    ∧ TaskModel.createdAt t = Date_now Scenario.env
    ∧ TaskModel.updatedAt t = Date_now Scenario.env.
Proof.
  intros req.
  apply (created_task_is_stored_verbatim Scenario.env req Scenario.db). evaluate.
Defined.

(** Alice creates a task and reads it back, writing the id in capitals. *)
Lemma get_after_create_witness :
  let req := Scenario.request (Some Scenario.alice_view) "" [] [("title", JStr "T2")] in
  let req' := Scenario.request (Some Scenario.alice_view) "65D000000000000000000004" [] [] in
  ∃ t, (createTask Scenario.env req Scenario.db).2
       = sendSuccess 201 (PTask (new_ObjectId Scenario.env) t) "Task created successfully"
       ∧ getTaskById req' (createTask Scenario.env req Scenario.db).1
         = sendSuccess 200 (PTask (new_ObjectId Scenario.env) t) "Task retrieved successfully".
Proof.
  intros req req'.
  apply (get_after_create Scenario.env req req' Scenario.db).
  - evaluate.
  - reflexivity.
  - reflexivity.
Defined.

(** Alice deletes her task. *)
Lemma delete_by_owner_witness :
  let req := Scenario.request (Some Scenario.alice_view) Scenario.task_id [] [] in
  deleteTask req Scenario.db
  = ({| users := users Scenario.db; tasks := delete Scenario.task_id (tasks Scenario.db) |},
     sendSuccess 200 PNull "Task deleted successfully")
  ∧ getTaskById req (deleteTask req Scenario.db).1 = notFound
  ∧ deleteTask req (deleteTask req Scenario.db).1 = ((deleteTask req Scenario.db).1, notFound)
  ∧ ∀ req' l t',
      data (json (getTasks sampleLib req' (deleteTask req Scenario.db).1)) = Some (PTasks l) →
      (Scenario.task_id, t') ∉ l.
Proof.
  intros req.
  apply (delete_by_owner sampleLib req Scenario.db Scenario.task_id Scenario.task);
    reflexivity.
Defined.

(** Alice searches with the pattern of a single dot. *)
Lemma task_list_for_any_pattern_witness :
  let req := Scenario.request (Some Scenario.alice_view) "" [("search", ".")] [] in
  let l := [(Scenario.task_id, Scenario.task)] in
  data (json (getTasks sampleLib req Scenario.db)) = Some (PTasks l)
  ∧ StronglySorted newest_first l
  ∧ NoDup l
  ∧ ∀ kv, kv ∈ l →
      tasks Scenario.db !! kv.1 = Some kv.2
      ∧ (∀ B, user req = Some B → TaskModel.user kv.2 = _id B)
      ∧ (∀ v, query_param req "status" = Some v → TaskModel.status kv.2 = v).
Proof.
  intros req l.
  assert (H : data (json (getTasks sampleLib req Scenario.db)) = Some (PTasks l))
    by evaluate.
  split; [exact H|].
  exact (task_list_for_any_pattern sampleLib req Scenario.db l H).
Defined.

(** Alice asks for the tasks with status "done" that mention "t". *)
Lemma unknown_status_lists_nothing_witness :
  let req := Scenario.request (Some Scenario.alice_view) ""
               [("status", "done"); ("search", "t")] [] in
  getTasks sampleLib req Scenario.db
  = sendSuccess 200 (PTasks []) "Tasks retrieved successfully".
Proof.
  intros req.
  apply (unknown_status_lists_nothing sampleLib req Scenario.db "done").
  - exact Scenario_tasks_valid.
  - reflexivity.
  - unfold Task.statuses. intros Hin.
    repeat (apply elem_of_cons in Hin as [Hin|Hin]; [discriminate|]).
    by apply elem_of_nil in Hin.
  - intros p Hp. vm_compute in Hp. injection Hp as <-. eexists. reflexivity.
Defined.

(** ** The Authorization header and the issued tokens *)

Lemma string_app_cons c a b : String c a +:+ b = String c (a +:+ b).
Proof. reflexivity. Qed.

Lemma split_on_word a b :
  one_word a = true → split_on " " (a +:+ " " +:+ b) = a :: split_on " " b.
Proof.
  unfold one_word. induction a as [|c a IH]; intros Hw.
  - reflexivity.
  - simpl in Hw. apply andb_prop in Hw as [Hc Ha]. apply negb_true_iff in Hc.
    rewrite string_app_cons. simpl. rewrite Hc, (IH Ha). done.
Qed.

Lemma split_on_head a rest :
  one_word a = true → (rest = "" ∨ ∃ r, rest = " " +:+ r) →
  head (split_on " " (a +:+ rest)) = Some a.
Proof.
  intros Ha [->|[r ->]].
  - replace (a +:+ "") with a; [by rewrite split_on_one_word|].
    clear Ha. induction a as [|c a IH]; [done|]. rewrite string_app_cons. by rewrite <- IH.
  - by rewrite split_on_word.
Qed.

(** The middleware tests the header for the prefix [Bearer] only and takes
    the second word as the token: any characters may follow the prefix in
    the first word, and words after the second are ignored. *)
Theorem bearer_scheme_is_a_prefix_test req x token rest :
  authorization req = Some ("Bearer" +:+ x +:+ " " +:+ token +:+ rest) →
  one_word x = true → one_word token = true →
  (rest = "" ∨ ∃ r, rest = " " +:+ r) →
  has_bearer req = true ∧ bearer_token req = Some token.
Proof.
  intros Hh Hx Ht Hrest. unfold has_bearer, bearer_token. rewrite Hh. split.
  { rewrite bool_decide_eq_false_2 by done.
    generalize (x +:+ " " +:+ token +:+ rest). by intros []. }
  simpl default.
  assert (Hw : one_word ("Bearer" +:+ x) = true) by done.
  replace ("Bearer" +:+ x +:+ " " +:+ token +:+ rest)
    with (("Bearer" +:+ x) +:+ " " +:+ (token +:+ rest)) by reflexivity.
  rewrite (split_on_word _ _ Hw). simpl.
  pose proof (split_on_head token rest Ht Hrest) as Hhead.
  by destruct (split_on " " (token +:+ rest)).
Qed.

Lemma bearer_scheme_is_a_prefix_test_witness :
  let req := {| authorization := Some "BearerOfNews s3cret.65a000000000000000000001 etc";
                params_id := ""; query := ∅; body := ∅; user := None |} in
  (has_bearer req = true ∧ bearer_token req = Some "s3cret.65a000000000000000000001")
  ∧ protect sampleLib Scenario.env req Scenario.db
    = Next (set_user req (Some Scenario.alice_view)).
Proof.
  intros req. split; [|evaluate].
  apply (bearer_scheme_is_a_prefix_test req "OfNews" "s3cret.65a000000000000000000001" " etc").
  - reflexivity.
  - reflexivity.
  - reflexivity.
  - right. by exists "etc".
Defined.

Section Tokens.
Variable L : Lib.

(** A token [generateToken] issued for a stored user is accepted by the
    middleware of a process with the same, non-empty secret for thirty
    days, and the middleware attaches that user without the password.  The
    library's law: a token verifies under the secret it was signed with
    before its expiry and yields the id it was signed for. *)
Theorem issued_token_is_accepted env env' req db k uid u :
  JWT_SECRET env = Some k → JWT_SECRET env' = Some k → k ≠ "" →
  (Date_now env' / 1000 < Date_now env / 1000 + thirty_days)%Z →
  (∀ p now, (now < exp p)%Z →
     ∃ d, jwt_verify L (jwt_sign L p k) (Some k) now = Some d ∧ id d = id p) →
  users db !! uid = Some u → castObjectId uid = Some uid →
  one_word (generateToken L env uid) = true →
  authorization req = Some ("Bearer " +:+ generateToken L env uid) →
  protect L env' req db = Next (set_user req (Some (select_no_password uid u))).
Proof.
  intros Hk Hk' Hne Hlife Hlaw Hu Hcast Hword Hauth.
  destruct (bearer_header req _ Hauth Hword) as [Hb Ht].
  unfold protect, protect_try, verify_call. rewrite Hb, Ht, Hk'.
  unfold generateToken. rewrite Hk. rewrite bool_decide_eq_false_2 by done.
  destruct (Hlaw {| id := uid; iat := (Date_now env / 1000)%Z;
                    exp := (Date_now env / 1000 + thirty_days)%Z |}
              (Date_now env' / 1000)%Z Hlife) as (d & Hd & Hid).
  rewrite Hd. simpl. rewrite Hid. simpl.
  unfold User.findById. rewrite Hcast. simpl. by rewrite Hu.
Qed.

(** The profile route answers 200 only with the name and the email stored
    under the id the verified token embeds; it never shows another user's
    record, and it changes nothing. *)
Theorem profile_is_the_token_owners env req db :
  statusCode (app L env GET_me req db).2 = 200%Z →
  ∃ d oid u,
    verify_call L env (bearer_token req) = Ok d ∧ castObjectId (id d) = Some oid
    ∧ users db !! oid = Some u
    ∧ app L env GET_me req db
      = (db, sendSuccess 200 (PProfile oid (UserModel.name u) (UserModel.email u))
               "Profile retrieved successfully").
Proof.
  simpl. unfold protected.
  destruct (protect L env req db) as [resp|req'] eqn:Hp; simpl.
  - apply (protect_Sent L) in Hp. by intros H; rewrite H in Hp.
  - apply (protect_Next L) in Hp as (d & oid & Hv & Hc & ->).
    unfold getUserProfile, acting_id, User.findByOid. simpl.
    destruct (users db !! oid) as [u|] eqn:Hu; simpl; [|done].
    rewrite Hu. intros _. by exists d, oid, u.
Qed.
End Tokens.

(** Alice's token, issued at a login, is presented a day later. *)
Lemma issued_token_is_accepted_witness :
  let later := Walkthrough.env (1700000000000 + 86400000) "65d000000000000000000005" in
  let req := Scenario.incoming (generateToken sampleLib Scenario.env Scenario.alice_id)
               "" [] [] in
  protect sampleLib later req Scenario.db
  = Next (set_user req (Some (select_no_password Scenario.alice_id Scenario.alice))).
Proof.
  intros later req.
  apply (issued_token_is_accepted sampleLib Scenario.env later req Scenario.db "s3cret").
  - reflexivity.
  - reflexivity.
  - discriminate.
  - vm_compute; reflexivity.
  - intros p now _. eexists. split; [evaluate | reflexivity].
  - reflexivity.
  - reflexivity.
  - reflexivity.
  - reflexivity.
Defined.

(** Bob reads his profile. *)
Lemma profile_is_the_token_owners_witness :
  let req := Scenario.incoming "s3cret.65b000000000000000000002" "" [] [] in
  ∃ d oid u,
    verify_call sampleLib Scenario.env (bearer_token req) = Ok d
    ∧ castObjectId (id d) = Some oid
    ∧ users Scenario.db !! oid = Some u
    ∧ app sampleLib Scenario.env GET_me req Scenario.db
      = (Scenario.db,
         sendSuccess 200 (PProfile oid (UserModel.name u) (UserModel.email u))
           "Profile retrieved successfully").
Proof.
  intros req.
  apply (profile_is_the_token_owners sampleLib Scenario.env req Scenario.db). evaluate.
Defined.

(** ** Profile update *)

Section Profile.
Variable L : Lib.

Lemma User_save_fields env oid old new db :
  match User.save L env oid old new db with
  | Throw _ => True
  | Ok saved =>
      (saved.1 = db ∧ new = old)
      ∨ (saved.1 = {| users := <[oid := saved.2]> (users db); tasks := tasks db |}
         ∧ UserModel.name saved.2 = UserModel.name new
         ∧ UserModel.email saved.2 = UserModel.email new
         ∧ UserModel.createdAt saved.2 = UserModel.createdAt new)
  end.
Proof.
  unfold User.save.
  destruct (User.validate new); simpl; [|done].
  destruct (bool_decide (new = old)) eqn:Hsame.
  - apply bool_decide_eq_true in Hsame. by left.
  - destruct (_ && _); [done|]. right. simpl.
    by destruct (bool_decide (UserModel.password new ≠ UserModel.password old)).
Qed.

(** A profile update touches the acting user's document only, and of that
    document only what was supplied: a name or an email that is absent or
    falsy keeps its stored value, a changed one was supplied truthy and
    holds the supplied value, the creation time stays, and every other user
    and every task is as before. *)
Theorem profile_update_keeps_unsupplied_fields env req db me old :
  user req = Some me → users db !! _id me = Some old →
  ∃ u, users (updateUserProfile L env req db).1 !! _id me = Some u
    ∧ UserModel.createdAt u = UserModel.createdAt old
    ∧ (truthy (field (body req) "name") = false → UserModel.name u = UserModel.name old)
    ∧ (truthy (field (body req) "email") = false → UserModel.email u = UserModel.email old)
    ∧ (UserModel.name u ≠ UserModel.name old →
       truthy (field (body req) "name") = true
       ∧ UserModel.name u = js_toString (field (body req) "name"))
    ∧ (UserModel.email u ≠ UserModel.email old →
       truthy (field (body req) "email") = true
       ∧ UserModel.email u = js_toString (field (body req) "email"))
    ∧ (∀ other, other ≠ _id me →
         users (updateUserProfile L env req db).1 !! other = users db !! other)
    ∧ tasks (updateUserProfile L env req db).1 = tasks db.
Proof.
  intros Hu Hold. unfold updateUserProfile, acting_id, User.findByOid.
  rewrite Hu. simpl. rewrite Hold.
  assert (Hkeep : ∃ u, users db !! _id me = Some u
            ∧ UserModel.createdAt u = UserModel.createdAt old
            ∧ (truthy (field (body req) "name") = false →
               UserModel.name u = UserModel.name old)
            ∧ (truthy (field (body req) "email") = false →
               UserModel.email u = UserModel.email old)
            ∧ (UserModel.name u ≠ UserModel.name old →
               truthy (field (body req) "name") = true
               ∧ UserModel.name u = js_toString (field (body req) "name"))
            ∧ (UserModel.email u ≠ UserModel.email old →
               truthy (field (body req) "email") = true
               ∧ UserModel.email u = js_toString (field (body req) "email"))
            ∧ (∀ other, other ≠ _id me → users db !! other = users db !! other)
            ∧ tasks db = tasks db).
  { exists old. split_and!; done. }
  destruct (profile_errors _ _ _) as [errors|e]; simpl; [|done].
  destruct (0 <? length errors)%nat; simpl; [done|].
  pose proof (User_save_fields env (_id me) old
                (assign_profile (field (body req) "name") (field (body req) "email")
                   (field (body req) "password") old) db) as Hsave.
  destruct (User.save _ _ _ _ _ _) as [saved|e]; simpl; [|done].
  destruct Hsave as [[-> _]|(-> & Hn & Hm & Hc)]; [done|].
  exists saved.2. simpl. rewrite lookup_insert_eq, Hn, Hm, Hc. simpl.
  split_and!; try done.
  - by intros ->.
  - by intros ->.
  - by destruct (truthy (field (body req) "name")).
  - by destruct (truthy (field (body req) "email")).
  - intros other Hne. by rewrite lookup_insert_ne.
Qed.
End Profile.

(** Bob changes his name only. *)
Lemma profile_update_keeps_unsupplied_fields_witness :
  let req := Scenario.request (Some Scenario.bob_view) "" []
               [("name", JStr "Robert"); ("email", JStr "")] in
  ∃ u, users (updateUserProfile sampleLib Scenario.env req Scenario.db).1
         !! Scenario.bob_id = Some u
       ∧ UserModel.name u = "Robert"
       ∧ UserModel.email u = "bob@x.com"
       ∧ users (updateUserProfile sampleLib Scenario.env req Scenario.db).1
           !! Scenario.alice_id = Some Scenario.alice.
Proof.
  intros req.
  destruct (profile_update_keeps_unsupplied_fields sampleLib Scenario.env req Scenario.db
              Scenario.bob_view Scenario.bob eq_refl eq_refl)
    as (u & Hu & _ & _ & Hmail & _ & _ & Hothers & _).
  exists u. split_and!.
  - exact Hu.
  - change Scenario.bob_id with (_id Scenario.bob_view).
    assert (H : UserModel.name <$> users
                  (updateUserProfile sampleLib Scenario.env req Scenario.db).1
                    !! _id Scenario.bob_view = Some "Robert") by evaluate.
    rewrite Hu in H. by injection H.
  - by apply Hmail.
  - rewrite (Hothers Scenario.alice_id); [reflexivity | vm_compute; discriminate].
Defined.

(** ** The validation helpers *)

Lemma string_app_nil_inv a b : a +:+ b = "" → a = "" ∧ b = "".
Proof. destruct a; [done|]. by rewrite string_app_cons. Qed.

Lemma string_forallb_app p a b :
  string_forallb p (a +:+ b) = string_forallb p a && string_forallb p b.
Proof.
  induction a as [|c a IH]; [done|].
  rewrite string_app_cons. simpl. by rewrite IH, andb_assoc.
Qed.

Lemma domain_ok_spec seen d :
  domain_ok seen d = true ↔
  ∃ b c, d = b +:+ "." +:+ c ∧ (seen = true ∨ b ≠ "") ∧ c ≠ ""
         ∧ string_forallb email_char b = true ∧ string_forallb email_char c = true.
Proof.
  revert seen. induction d as [|ch r IH]; intros seen; simpl.
  - split; [done|]. intros (b & c & Hd & _). symmetry in Hd.
    apply string_app_nil_inv in Hd as [_ Hd]. by rewrite string_app_cons in Hd.
  - rewrite andb_true_iff, orb_true_iff, !andb_true_iff, (IH true),
      negb_true_iff, !bool_decide_eq_true, bool_decide_eq_false. split.
    + intros [Hch [(((Hseen & ->) & Hr) & Hall)|(b & c & -> & _ & Hc & Hb & Hcs)]].
      * exists "", r. split_and!; auto.
      * exists (String ch b), c. rewrite string_app_cons. simpl. rewrite Hch, Hb.
        split_and!; auto.
    + intros (b & c & Hd & Hseen & Hc & Hb & Hcs). destruct b as [|ch' b].
      * change ("" +:+ "." +:+ c) with (String "." c) in Hd. injection Hd as -> ->.
        destruct Hseen as [->|?]; [|done]. split; [done|]. left. done.
      * rewrite string_app_cons in Hd. injection Hd as -> ->.
        simpl in Hb. apply andb_prop in Hb as [Hch Hb]. split; [done|]. right.
        exists b, c. split_and!; auto.
Qed.

Lemma local_ok_spec seen s :
  local_ok seen s = true ↔
  ∃ a d, s = a +:+ "@" +:+ d ∧ (seen = true ∨ a ≠ "")
         ∧ string_forallb email_char a = true ∧ domain_ok false d = true.
Proof.
  revert seen. induction s as [|ch r IH]; intros seen; simpl.
  - split; [done|]. intros (a & d & Hs & _). symmetry in Hs.
    apply string_app_nil_inv in Hs as [_ Hs]. by rewrite string_app_cons in Hs.
  - case_bool_decide as Hat.
    + subst ch. rewrite andb_true_iff. split.
      * intros [-> Hd]. exists "", r. split_and!; auto.
      * intros (a & d & Hs & Hseen & Ha & Hd). destruct a as [|ch' a].
        -- change ("" +:+ "@" +:+ d) with (String "@" d) in Hs. injection Hs as ->.
           destruct Hseen as [->|?]; done.
        -- rewrite string_app_cons in Hs. injection Hs as <- _. done.
    + rewrite andb_true_iff, (IH true). split.
      * intros [Hch (a & d & -> & _ & Ha & Hd)].
        exists (String ch a), d. rewrite string_app_cons. simpl. rewrite Hch, Ha.
        split_and!; auto.
      * intros (a & d & Hs & Hseen & Ha & Hd). destruct a as [|ch' a].
        -- change ("" +:+ "@" +:+ d) with (String "@" d) in Hs. by injection Hs as ->.
        -- rewrite string_app_cons in Hs. injection Hs as -> ->.
           simpl in Ha. apply andb_prop in Ha as [Hch Ha]. split; [done|].
           exists a, d. split_and!; auto.
Qed.

(** On ASCII text [validateEmail] accepts exactly the strings of the
    pattern: a local part, the [@], a domain part, a dot and a last part,
    the three parts non-empty and free of white space and of [@].  (On
    other text the white space of the pattern has more characters than the
    six known here.) *)
Theorem validateEmail_accepts_the_pattern s :
  ascii_text s = true →
  validateEmail (JStr s) = true ↔
  ∃ a b c, s = a +:+ "@" +:+ b +:+ "." +:+ c
           ∧ a ≠ "" ∧ b ≠ "" ∧ c ≠ ""
           ∧ string_forallb email_char a = true
           ∧ string_forallb email_char b = true
           ∧ string_forallb email_char c = true.
Proof.
  intros _. unfold validateEmail. simpl. rewrite local_ok_spec. split.
  - intros (a & d & -> & Ha & Hall & Hd).
    apply domain_ok_spec in Hd as (b & c & -> & Hb & Hc & Hbs & Hcs).
    exists a, b, c. destruct Ha as [?|Ha], Hb as [?|Hb]; try done.
  - intros (a & b & c & -> & Ha & Hb & Hc & Has & Hbs & Hcs).
    exists a, (b +:+ "." +:+ c). split_and!; auto.
    apply domain_ok_spec. exists b, c. split_and!; auto.
Qed.

Lemma validateEmail_accepts_the_pattern_witness :
  validateEmail (JStr "jo.x@mail.x.com") = true ↔
  ∃ a b c, "jo.x@mail.x.com" = a +:+ "@" +:+ b +:+ "." +:+ c
           ∧ a ≠ "" ∧ b ≠ "" ∧ c ≠ ""
           ∧ string_forallb email_char a = true
           ∧ string_forallb email_char b = true
           ∧ string_forallb email_char c = true.
Proof.
  apply (validateEmail_accepts_the_pattern "jo.x@mail.x.com").
  vm_compute; reflexivity.
Defined.

Lemma trimStart_blank s :
  trimStart s = "" ↔ string_forallb Ascii.is_space s = true.
Proof.
  induction s as [|c r IH]; simpl; [done|].
  destruct (Ascii.is_space c); simpl; [done|]. split; done.
Qed.

Lemma trimStart_keeps_ink s :
  string_forallb Ascii.is_space (trimStart s) = string_forallb Ascii.is_space s.
Proof.
  induction s as [|c r IH]; simpl; [done|].
  destruct (Ascii.is_space c) eqn:Hc; simpl; [done|]. by rewrite Hc.
Qed.

Lemma string_forallb_rev_app p s acc :
  string_forallb p (String.rev_app s acc) = string_forallb p s && string_forallb p acc.
Proof.
  revert acc. induction s as [|c r IH]; intros acc; simpl; [done|].
  rewrite IH. simpl. destruct (p c), (string_forallb p r); done.
Qed.

Lemma string_forallb_rev p s :
  string_forallb p (String.rev s) = string_forallb p s.
Proof. unfold String.rev. by rewrite string_forallb_rev_app, andb_true_r. Qed.

Lemma string_rev_app_nil s acc : String.rev_app s acc = "" ↔ s = "" ∧ acc = "".
Proof.
  revert acc. induction s as [|c r IH]; intros acc; simpl.
  - split; [done | by intros [_ ->]].
  - rewrite IH. split; [by intros [_ ?] | by intros [? _]].
Qed.

Lemma string_rev_nil s : String.rev s = "" ↔ s = "".
Proof.
  unfold String.rev. rewrite string_rev_app_nil. split; [by intros [? _] | done].
Qed.

(** [trim] leaves nothing exactly of the strings that are white space
    throughout. *)
Lemma trim_blank s : trim s = "" ↔ string_forallb Ascii.is_space s = true.
Proof.
  unfold trim.
  rewrite string_rev_nil, trimStart_blank, string_forallb_rev, trimStart_keeps_ink.
  done.
Qed.

Lemma validateTaskTitle_string s :
  validateTaskTitle (JStr s) = Ok (negb (string_forallb Ascii.is_space s)).
Proof.
  unfold validateTaskTitle. destruct s as [|c r] eqn:Hs; [done|]. rewrite <- Hs.
  replace (truthy (JStr s)) with true by (by subst s). cbn [js_trim bind].
  f_equal. destruct (string_forallb Ascii.is_space s) eqn:Hblank; simpl.
  - apply trim_blank in Hblank. by rewrite Hblank.
  - destruct (trim s) eqn:Htrim; [|done].
    apply trim_blank in Htrim. congruence.
Qed.

(** A title of white space only is refused: [createTask] answers 400 with
    its title message first and [updateTask], for a title that is not the
    empty string, with its own; neither writes. *)
Theorem blank_title_is_refused env req db s :
  field (body req) "title" = JStr s →
  string_forallb Ascii.is_space s = true →
  (createTask env req db).1 = db
  ∧ (createTask env req db).2 =
      sendError 400 "Validation failed"
        (Some (Text "Title is required and must not be empty"
               :: status_error (field (body req) "status")))
  ∧ (s ≠ "" →
     (updateTask env req db).1 = db
     ∧ (updateTask env req db).2 =
         sendError 400 "Validation failed"
           (Some (Text "Title must not be empty"
                  :: status_error (field (body req) "status")))).
Proof.
  intros Htitle Hblank.
  assert (Hcreate : create_errors (JStr s) (field (body req) "status")
          = Ok (Text "Title is required and must not be empty"
                :: status_error (field (body req) "status"))).
  { unfold create_errors. destruct (truthy (JStr s)) eqn:Hs; [|done].
    cbn [negb]. rewrite validateTaskTitle_string, Hblank. done. }
  unfold createTask, updateTask. rewrite Htitle, Hcreate. split_and!; [done..|].
  intros Hs.
  assert (Hupdate : update_errors (JStr s) (field (body req) "status")
          = Ok (Text "Title must not be empty"
                :: status_error (field (body req) "status"))).
  { unfold update_errors. replace (truthy (JStr s)) with true by (by destruct s).
    rewrite validateTaskTitle_string, Hblank. done. }
  rewrite Hupdate. done.
Qed.

Lemma blank_title_is_refused_witness :
  (createTask Scenario.env
     (Scenario.request (Some Scenario.alice_view) "" [] [("title", JStr "  ")]) Scenario.db).1
  = Scenario.db.
Proof.
  refine (proj1 (blank_title_is_refused Scenario.env _ Scenario.db "  " _ _)).
  - vm_compute; reflexivity.
  - vm_compute; reflexivity.
Defined.

(** ** The server *)

Section Server.
Context (L : Lib).

Lemma same_segment_trans p q s :
  same_segment p s = true → same_segment q s = same_segment q p.
Proof.
  unfold same_segment. intros Hp%bool_decide_eq_true. rewrite Hp.
  apply bool_decide_ext. split; intros; done.
Qed.

(** The second [app.use] line mounts the whole auth router, not the profile
    route alone: any request under [/api/users] is answered as the same
    request under [/api/auth], registration and login included. *)
Theorem users_mount_serves_the_auth_router env m a u rest req db :
  same_segment "api" a = true → same_segment "users" u = true →
  server L env m (a :: u :: rest) req db
  = server L env m ("api" :: "auth" :: rest) req db.
Proof.
  intros Ha Hu. unfold server.
  assert (Hd : dispatch mounted m (a :: u :: rest) = authRoutes m rest
               ∧ dispatch mounted m ("api" :: "auth" :: rest) = authRoutes m rest).
  { unfold dispatch, mounted. cbn [under fst snd]. rewrite Ha, Hu.
    rewrite (same_segment_trans "users" "auth" u Hu),
            (same_segment_trans "users" "tasks" u Hu).
    change (same_segment "auth" "users") with false.
    change (same_segment "tasks" "users") with false.
    change (same_segment "api" "api") with true.
    change (same_segment "auth" "auth") with true.
    change (same_segment "users" "auth") with false.
    change (same_segment "tasks" "auth") with false.
    cbn [mbind option_bind]. by destruct (authRoutes m rest). }
  destruct Hd as [-> ->].
  destruct (authRoutes m rest) as [[r id]|] eqn:Hr; [done|].
  destruct m, rest; done.
Qed.

Lemma under_Some mount path rest :
  under mount path = Some rest →
  ∃ front, path = (front ++ rest)%list ∧ Forall2 (λ p s, same_segment p s = true) mount front.
Proof.
  revert path. induction mount as [|p mount IH]; intros path; simpl.
  - intros [= ->]. by exists [].
  - destruct path as [|s path]; [done|].
    destruct (same_segment p s) eqn:Hs; [|done].
    intros (front & -> & Hall)%IH. exists (s :: front). split; [done|]. by constructor.
Qed.

(** The routes a request can reach without [protect]. *)
Lemma dispatch_open m path r id :
  dispatch mounted m path = Some (r, id) → is_protected r = false →
  m = POST ∧ ∃ a mount s,
    path = [a; mount; s] ∧ same_segment "api" a = true
    ∧ (same_segment "auth" mount = true ∨ same_segment "users" mount = true)
    ∧ (same_segment "register" s = true ∨ same_segment "login" s = true).
Proof.
  unfold dispatch, mounted. cbn [fst snd].
  destruct (under ["api"; "auth"] path) as [rest|] eqn:H1; cbn [mbind option_bind].
  - destruct (authRoutes m rest) as [r'|] eqn:Hr.
    + intros [= ->] Hopen.
      apply under_Some in H1 as (front & -> & Hall).
      apply Forall2_cons_inv_l in Hall as (a & front' & Ha & Hall & ->).
      apply Forall2_cons_inv_l in Hall as (b & front'' & Hb & Hall & ->).
      apply Forall2_nil_inv_l in Hall as ->.
      unfold authRoutes in Hr. destruct rest as [|s [|]]; try done.
      destruct (same_segment "register" s) eqn:Hreg.
      { destruct m; try done. split; [done|]. exists a, b, s. auto 10. }
      destruct (same_segment "login" s) eqn:Hlog.
      { destruct m; try done. split; [done|]. exists a, b, s. auto 10. }
      destruct (same_segment "me" s); [|done].
      destruct m; try done; by injection Hr as <- <-.
    + destruct (under ["api"; "users"] path) as [rest'|] eqn:H2; cbn [mbind option_bind].
      * apply under_Some in H1 as (front & -> & Hall).
        apply Forall2_cons_inv_l in Hall as (a & front' & Ha & Hall & ->).
        apply Forall2_cons_inv_l in Hall as (b & front'' & Hb & Hall & ->).
        apply Forall2_nil_inv_l in Hall as ->.
        simpl in H2. rewrite Ha in H2.
        rewrite (same_segment_trans "auth" "users" b Hb) in H2. done.
      * destruct (under ["api"; "tasks"] path) as [rest'|] eqn:H3;
          cbn [mbind option_bind]; [|done].
        apply under_Some in H1 as (front & -> & Hall).
        apply Forall2_cons_inv_l in Hall as (a & front' & Ha & Hall & ->).
        apply Forall2_cons_inv_l in Hall as (b & front'' & Hb & Hall & ->).
        apply Forall2_nil_inv_l in Hall as ->.
        simpl in H3. rewrite Ha in H3.
        rewrite (same_segment_trans "auth" "tasks" b Hb) in H3. done.
  - destruct (under ["api"; "users"] path) as [rest|] eqn:H2; cbn [mbind option_bind].
    + destruct (authRoutes m rest) as [r'|] eqn:Hr.
      * intros [= ->] Hopen.
        apply under_Some in H2 as (front & -> & Hall).
        apply Forall2_cons_inv_l in Hall as (a & front' & Ha & Hall & ->).
        apply Forall2_cons_inv_l in Hall as (b & front'' & Hb & Hall & ->).
        apply Forall2_nil_inv_l in Hall as ->.
        unfold authRoutes in Hr. destruct rest as [|s [|]]; try done.
        destruct (same_segment "register" s) eqn:Hreg.
        { destruct m; try done. split; [done|]. exists a, b, s. auto 10. }
        destruct (same_segment "login" s) eqn:Hlog.
        { destruct m; try done. split; [done|]. exists a, b, s. auto 10. }
        destruct (same_segment "me" s); [|done].
        destruct m; try done; by injection Hr as <- <-.
      * destruct (under ["api"; "tasks"] path) as [rest'|] eqn:H3;
          cbn [mbind option_bind]; [|done].
        apply under_Some in H2 as (front & -> & Hall).
        apply Forall2_cons_inv_l in Hall as (a & front' & Ha & Hall & ->).
        apply Forall2_cons_inv_l in Hall as (b & front'' & Hb & Hall & ->).
        apply Forall2_nil_inv_l in Hall as ->.
        simpl in H3. rewrite Ha in H3.
        rewrite (same_segment_trans "users" "tasks" b Hb) in H3. done.
    + destruct (under ["api"; "tasks"] path) as [rest|] eqn:H3;
        cbn [mbind option_bind]; [|done].
      destruct (taskRoutes m rest) as [r'|] eqn:Hr; [|done].
      intros [= ->] Hopen. unfold taskRoutes in Hr.
      destruct rest as [|s [|]], m; try done; by injection Hr as <- <-.
Qed.

(** A request without a [Bearer] header gets the 401 of [protect], the
    banner or no route, and the store stays as it is, unless it is a [POST]
    to [register] or [login] under one of the two mounts of the auth
    router. *)
Theorem only_register_and_login_are_open env m path req db :
  has_bearer req = false →
  server L env m path req db = (db, Json noToken)
  ∨ server L env m path req db = (db, Banner "API is running...")
  ∨ server L env m path req db = (db, NoRoute)
  ∨ (m = POST ∧ ∃ a mount s,
       path = [a; mount; s] ∧ same_segment "api" a = true
       ∧ (same_segment "auth" mount = true ∨ same_segment "users" mount = true)
       ∧ (same_segment "register" s = true ∨ same_segment "login" s = true)).
Proof.
  intros Hbearer. unfold server.
  destruct (dispatch mounted m path) as [[r id]|] eqn:Hd.
  - destruct (is_protected r) eqn:Hr.
    + left.
      assert (Hb : has_bearer (from_option (set_params_id req) req id) = false)
        by (by destruct id).
      destruct r; try done; simpl; unfold protected, protect; by rewrite Hb.
    + right; right; right. by eapply dispatch_open.
  - destruct m, path; auto.
Qed.

End Server.

Lemma users_mount_serves_the_auth_router_witness :
  server sampleLib Scenario.env POST ["API"; "Users"; "login"]
    (Scenario.request None "" [] [("email", JStr "alice@example.com")]) Scenario.db
  = server sampleLib Scenario.env POST ["api"; "auth"; "login"]
    (Scenario.request None "" [] [("email", JStr "alice@example.com")]) Scenario.db.
Proof.
  apply (users_mount_serves_the_auth_router sampleLib Scenario.env POST "API" "Users").
  - vm_compute; reflexivity.
  - vm_compute; reflexivity.
Defined.

Lemma only_register_and_login_are_open_witness :
  server sampleLib Scenario.env DELETE ["api"; "tasks"; Scenario.task_id]
    (Scenario.request None "" [] []) Scenario.db
  = (Scenario.db, Json noToken).
Proof.
  destruct (only_register_and_login_are_open sampleLib Scenario.env DELETE
              ["api"; "tasks"; Scenario.task_id]
              (Scenario.request None "" [] []) Scenario.db)
    as [H|[H|[H|[H _]]]].
  - vm_compute; reflexivity.
  - exact H.
  - discriminate H.
  - discriminate H.
  - discriminate H.
Defined.

(** ** Answers to any request *)

Section Express.
Variable L : Lib.

Lemma protect_Sent_envelope env req db r :
  protect L env req db = Sent r → envelope_ok r.
Proof.
  unfold protect. destruct (has_bearer req); [|intros [= <-]; envelope].
  destruct (protect_try L env req db); [done|]. intros [= <-]. envelope.
Qed.

(** [protect] does not read [req.params]. *)
Lemma protect_params env req db pid :
  protect L env (set_params_id req pid) db
  = match protect L env req db with
    | Sent r => Sent r
    | Next req' => Next (set_params_id req' pid)
    end.
Proof.
  unfold protect, has_bearer, protect_try, bearer_token. simpl.
  destruct (authorization req) as [h|]; [|done].
  destruct (negb (bool_decide (h = "")) && String.prefix "Bearer" h); [|done].
  destruct (verify_call L env _) as [d|e]; simpl; [|done].
  destruct (User.findById db (id d)) as [found|e]; simpl; done.
Qed.

Lemma guarded_Json env handler req db r :
  (∀ req' r', (handler req').2 = Json r' → envelope_ok r') →
  (guarded L env handler req db).2 = Json r → envelope_ok r.
Proof.
  intros Hh. unfold guarded.
  destruct (protect L env req db) as [resp|req'] eqn:Hp; simpl.
  - intros [= <-]. by eapply protect_Sent_envelope.
  - apply Hh.
Qed.

Lemma updateUserProfile_undefined_answer req db :
  envelope_ok (updateUserProfile_undefined req db).
Proof.
  unfold updateUserProfile_undefined.
  destruct (acting_id req); [|envelope].
  match goal with |- context [User.findByOid ?a ?b] => destruct (User.findByOid a b) end;
    envelope.
Qed.

(** Every answer a route gives in JSON has one of the two shapes of the
    envelope: [success] is true exactly with status 200 or 201, and then
    there is a [data] key and no [errors]; otherwise the status is 400,
    401, 404 or 500 and there is no [data] key.  One kind of request gets
    an answer from a route that is no envelope: when [req.body] is
    undefined, the four handlers that destructure it before their [try]
    throw, uncaught, once the request has come through [protect] where the
    route has it; the store is then unchanged. *)
Theorem every_answer_is_an_envelope env m path i db :
  (∀ r, (express L env m path i db).2 = Json r → envelope_ok r)
  ∧ (∀ e, (express L env m path i db).2 = Uncaught e →
       sent_body i = None ∧ (express L env m path i db).1 = db
       ∧ ∃ r id, dispatch mounted m path = Some (r, id) ∧ destructures_body r = true)
  ∧ (∀ r id, sent_body i = None → dispatch mounted m path = Some (r, id) →
       destructures_body r = true →
       (is_protected r = false ∨ ∃ req', protect L env (received i ∅) db = Next req') →
       express L env m path i db = (db, Uncaught body_undefined)).
Proof.
  unfold express. destruct (sent_body i) as [b|]; split_and!.
  - unfold server. destruct (dispatch mounted m path) as [[r id]|].
    + simpl. intros r0 [= <-]. apply app_answer_envelope.
    + destruct m, path; done.
  - unfold server. destruct (dispatch mounted m path) as [[r id]|]; [done|].
    destruct m, path; done.
  - done.
  - destruct (dispatch mounted m path) as [[r id]|]; [|destruct m, path; done].
    destruct r; simpl; try done; intros r0; apply guarded_Json; simpl; intros req' r' [= <-].
    + apply getUserProfile_answer.
    + apply updateUserProfile_undefined_answer.
    + apply getTasks_answer.
    + apply getTaskById_answer.
    + apply deleteTask_answer.
  - destruct (dispatch mounted m path) as [[r id]|]; [|destruct m, path; done].
    intros e He. split; [done|].
    assert (Hdb : (app_undefined L env r
                     (from_option (set_params_id (received i ∅)) (received i ∅) id) db).1 = db
                  ∧ destructures_body r = true).
    { destruct r; simpl in *; try done; unfold guarded in *;
        destruct (protect L env _ db); simpl in *; done. }
    destruct Hdb as [Hdb Hr]. split; [done|]. by exists r, id.
  - intros r id _ -> Hr Hpass.
    assert (Hnext : is_protected r = true →
              ∃ req', protect L env
                        (from_option (set_params_id (received i ∅)) (received i ∅) id) db
                      = Next req').
    { intros Hprot. destruct Hpass as [Hopen|[req' Hp]]; [congruence|].
      destruct id as [id|]; simpl; [|by eexists].
      rewrite protect_params, Hp. by eexists. }
    destruct r; try done; simpl; unfold guarded;
      destruct (Hnext eq_refl) as [req' ->]; done.
Qed.

End Express.

(** A registration without a body, and a task creation without a body by
    Alice. *)
Example bodyless_requests :
  express sampleLib Scenario.env POST ["api"; "auth"; "register"]
    {| sent_authorization := None; sent_query := ∅; sent_body := None |} Scenario.db
  = (Scenario.db, Uncaught body_undefined)
  ∧ express sampleLib Scenario.env POST ["api"; "tasks"]
      {| sent_authorization := Some "Bearer s3cret.65a000000000000000000001";
         sent_query := ∅; sent_body := None |} Scenario.db
    = (Scenario.db, Uncaught body_undefined)
  ∧ express sampleLib Scenario.env POST ["api"; "tasks"]
      {| sent_authorization := None; sent_query := ∅; sent_body := None |} Scenario.db
    = (Scenario.db, Json noToken)
  ∧ express sampleLib Scenario.env PUT ["api"; "users"; "me"]
      {| sent_authorization := Some "Bearer s3cret.65a000000000000000000001";
         sent_query := ∅; sent_body := None |} Scenario.db
    = (Scenario.db,
       Json (serverError (TypeError "Cannot read properties of undefined (reading name)"))).
Proof. split_and!; evaluate. Qed.
